(** * An ext2-style filesystem simulator: inode layer and command layer

    Shallow embedding of [src/inode.c] and [src/commands.c].  The C code
    works on one process-wide value [fs] and on a disk image reached
    through the block device; here both are threaded explicitly as a value
    of type [filesystem].  Functions that return a status code in C return
    the same integer here, next to the new state. *)

From Stdlib Require Import ZArith List Lia Bool.
From stdpp Require Import base option list gmap strings.

Local Open Scope Z_scope.

(** ** Build-time constants and C integer types *)

Definition BLOCK_SIZE : Z := 1024.
Definition MAX_BLOCKS : Z := 1024.
Definition MAX_INODES : Z := 128.

(** Access modes of the host's [<fcntl.h>], which [commands.c] includes. *)
Definition O_RDONLY : Z := 0.
Definition O_WRONLY : Z := 1.
Definition O_RDWR : Z := 2.

(** Conversions to [uint16_t] and [uint32_t]. *)
Definition u16 (z : Z) : Z := z mod 2 ^ 16.
Definition u32 (z : Z) : Z := z mod 2 ^ 32.

(** Conversion to [size_t], in which [off_t + size_t] is computed. *)
Definition u64 (z : Z) : Z := z mod 2 ^ 64.

(** The mode constants come from [include/ext2.h], which is not part of the
    sources at hand: they are kept abstract. *)
Class Ext2Header := {
  EXT2_S_IFREG : Z;
  EXT2_S_IFDIR : Z;
  EXT2_S_IRUSR : Z;
  EXT2_S_IWUSR : Z
}.

(** ** On-disk records *)

Record ext2_inode_t := mk_inode {
  i_mode : Z;
  i_uid : Z;
  i_size : Z;
  i_atime : Z;
  i_ctime : Z;
  i_mtime : Z;
  i_dtime : Z;
  i_gid : Z;
  i_links_count : Z;
  i_blocks : Z;
  i_flags : Z;
  i_block : list Z
}.

(** [memset(&inode, 0, sizeof(ext2_inode_t))] *)
Definition zero_inode : ext2_inode_t :=
  mk_inode 0 0 0 0 0 0 0 0 0 0 0 (replicate 15 0).

Definition set_i_mode (v : Z) (i : ext2_inode_t) : ext2_inode_t :=
  mk_inode v (i_uid i) (i_size i) (i_atime i) (i_ctime i) (i_mtime i)
    (i_dtime i) (i_gid i) (i_links_count i) (i_blocks i) (i_flags i) (i_block i).

Definition set_i_owner (u g : Z) (i : ext2_inode_t) : ext2_inode_t :=
  mk_inode (i_mode i) u (i_size i) (i_atime i) (i_ctime i) (i_mtime i)
    (i_dtime i) g (i_links_count i) (i_blocks i) (i_flags i) (i_block i).

Definition set_i_size (sz blks : Z) (i : ext2_inode_t) : ext2_inode_t :=
  mk_inode (i_mode i) (i_uid i) sz (i_atime i) (i_ctime i) (i_mtime i)
    (i_dtime i) (i_gid i) (i_links_count i) blks (i_flags i) (i_block i).

Definition set_i_atime (t : Z) (i : ext2_inode_t) : ext2_inode_t :=
  mk_inode (i_mode i) (i_uid i) (i_size i) t (i_ctime i) (i_mtime i)
    (i_dtime i) (i_gid i) (i_links_count i) (i_blocks i) (i_flags i) (i_block i).

Definition set_i_ctime (t : Z) (i : ext2_inode_t) : ext2_inode_t :=
  mk_inode (i_mode i) (i_uid i) (i_size i) (i_atime i) t (i_mtime i)
    (i_dtime i) (i_gid i) (i_links_count i) (i_blocks i) (i_flags i) (i_block i).

Definition set_i_mtime (t : Z) (i : ext2_inode_t) : ext2_inode_t :=
  mk_inode (i_mode i) (i_uid i) (i_size i) (i_atime i) (i_ctime i) t
    (i_dtime i) (i_gid i) (i_links_count i) (i_blocks i) (i_flags i) (i_block i).

Definition set_i_links_count (n : Z) (i : ext2_inode_t) : ext2_inode_t :=
  mk_inode (i_mode i) (i_uid i) (i_size i) (i_atime i) (i_ctime i) (i_mtime i)
    (i_dtime i) (i_gid i) n (i_blocks i) (i_flags i) (i_block i).

Definition set_i_block (bs : list Z) (i : ext2_inode_t) : ext2_inode_t :=
  mk_inode (i_mode i) (i_uid i) (i_size i) (i_atime i) (i_ctime i) (i_mtime i)
    (i_dtime i) (i_gid i) (i_links_count i) (i_blocks i) (i_flags i) bs.

(** [inode.i_block[k]] for [k] within the array. *)
Definition block_ptr (i : ext2_inode_t) (k : Z) : Z :=
  nth (Z.to_nat k) (i_block i) 0.

Record ext2_superblock_t := mk_superblock {
  s_inodes_count : Z;
  s_blocks_count : Z;
  s_r_blocks_count : Z;
  s_free_blocks_count : Z;
  s_free_inodes_count : Z;
  s_first_data_block : Z;
  s_log_block_size : Z;
  s_log_frag_size : Z;
  s_blocks_per_group : Z;
  s_frags_per_group : Z;
  s_inodes_per_group : Z;
  s_mtime : Z;
  s_wtime : Z;
  s_mnt_count : Z;
  s_max_mnt_count : Z;
  s_magic : Z;
  s_state : Z;
  s_errors : Z;
  s_minor_rev_level : Z;
  s_lastcheck : Z;
  s_checkinterval : Z;
  s_creator_os : Z;
  s_rev_level : Z;
  s_def_resuid : Z;
  s_def_resgid : Z;
  s_first_ino : Z;
  s_inode_size : Z;
  s_block_group_nr : Z;
  s_feature_compat : Z;
  s_feature_incompat : Z;
  s_feature_ro_compat : Z
}.

(** [memset(&superblock, 0, sizeof(superblock))] *)
Definition zero_superblock : ext2_superblock_t :=
  mk_superblock 0 0 0 0 0 0 0 0 0 0 0 0 0 0 0 0 0 0 0 0 0 0 0 0 0 0 0 0 0 0 0.

Definition set_s_free_blocks_count (v : Z) (s : ext2_superblock_t)
  : ext2_superblock_t :=
  mk_superblock (s_inodes_count s) (s_blocks_count s) (s_r_blocks_count s)
    v (s_free_inodes_count s) (s_first_data_block s)
    (s_log_block_size s) (s_log_frag_size s) (s_blocks_per_group s)
    (s_frags_per_group s) (s_inodes_per_group s) (s_mtime s) (s_wtime s)
    (s_mnt_count s) (s_max_mnt_count s) (s_magic s) (s_state s) (s_errors s)
    (s_minor_rev_level s) (s_lastcheck s) (s_checkinterval s) (s_creator_os s)
    (s_rev_level s) (s_def_resuid s) (s_def_resgid s) (s_first_ino s)
    (s_inode_size s) (s_block_group_nr s) (s_feature_compat s)
    (s_feature_incompat s) (s_feature_ro_compat s).

Definition set_s_free_inodes_count (v : Z) (s : ext2_superblock_t)
  : ext2_superblock_t :=
  mk_superblock (s_inodes_count s) (s_blocks_count s) (s_r_blocks_count s)
    (s_free_blocks_count s) v (s_first_data_block s)
    (s_log_block_size s) (s_log_frag_size s) (s_blocks_per_group s)
    (s_frags_per_group s) (s_inodes_per_group s) (s_mtime s) (s_wtime s)
    (s_mnt_count s) (s_max_mnt_count s) (s_magic s) (s_state s) (s_errors s)
    (s_minor_rev_level s) (s_lastcheck s) (s_checkinterval s) (s_creator_os s)
    (s_rev_level s) (s_def_resuid s) (s_def_resgid s) (s_first_ino s)
    (s_inode_size s) (s_block_group_nr s) (s_feature_compat s)
    (s_feature_incompat s) (s_feature_ro_compat s).

(** ** The disk image

    Modelled from the spec: the block device, the bitmap allocators and the
    inode table access ([disk.c], declared in [include/disk.h]) are missing
    from the sources.  The image is kept by region, following the layout
    table of the specification: block 0 holds the superblock, block 1 the
    block bitmap (bit [n] for block [n]), block 2 the inode bitmap (bit [i]
    for inode [i + 1]), the next blocks the inode table and the remainder
    the data blocks.  A bitmap block is one integer read bit by bit; a data
    block is its [BLOCK_SIZE] bytes.  A record or block that was never
    written is the zero-filled one. *)

Definition block := list Z.

Definition zero_block : block := replicate (Z.to_nat BLOCK_SIZE) 0.

Record disk := mk_disk {
  d_super : ext2_superblock_t;
  d_block_bitmap : Z;
  d_inode_bitmap : Z;
  d_inodes : gmap Z ext2_inode_t;
  d_data : gmap Z block
}.

(** Modelled from the spec: first block after the inode table,
    [3 + ceil(MAX_INODES * sizeof(ext2_inode_t) / BLOCK_SIZE)]. *)
Definition FIRST_DATA_BLOCK : Z := 3 + (MAX_INODES * 128 + BLOCK_SIZE - 1) / BLOCK_SIZE.

(** Modelled from the spec: first non-reserved inode. *)
Definition FIRST_INO : Z := 11.

(** ** In-memory state *)

(** A slot of [fs.open_files]; the fields keep their C names inside the
    module, so that they do not clash with the parameters [fd], [flags],
    [inode_no] and [offset] of the functions below. *)
Module OpenFile.
Record open_file_t := mk {
  fd : Z;
  inode_no : Z;
  flags : Z;
  offset : Z;
  is_open : bool
}.
End OpenFile.

Abbreviation open_file_t := OpenFile.open_file_t.

Record user_t := mk_user {
  u_uid : Z;
  u_gid : Z;
  u_name : string
}.

(** The global [fs] of the C code, together with what the process reads
    from its environment: the opened image (absent when nothing is
    mounted), the session of [user.c] and the value of [time(NULL)]. *)
Record filesystem := mk_fs {
  image : option disk;
  superblock : ext2_superblock_t;
  disk_image : string;
  open_files : list open_file_t;
  next_fd : Z;
  cwd_inode : Z;
  current_user : option user_t;
  now : Z
}.

Definition with_image (d : disk) (sb : ext2_superblock_t) (st : filesystem)
  : filesystem :=
  mk_fs (Some d) sb (disk_image st) (open_files st) (next_fd st)
    (cwd_inode st) (current_user st) (now st).

Definition with_disk (d : disk) (st : filesystem) : filesystem :=
  with_image d (superblock st) st.

Definition with_open_files (ofs : list open_file_t) (nfd : Z) (st : filesystem)
  : filesystem :=
  mk_fs (image st) (superblock st) (disk_image st) ofs nfd
    (cwd_inode st) (current_user st) (now st).

(** ** Session of [user.c]

    Modelled from the spec: [user.c] is missing; the session is either a
    logged-in user or nobody. *)

Definition is_logged_in (st : filesystem) : bool :=
  match current_user st with Some _ => true | None => false end.

Definition get_current_uid (st : filesystem) : Z :=
  match current_user st with Some u => u_uid u | None => 0 end.

Definition get_current_gid (st : filesystem) : Z :=
  match current_user st with Some u => u_gid u | None => 0 end.

(** ** Block device and allocators *)

Definition is_data_block (n : Z) : bool :=
  (FIRST_DATA_BLOCK <=? n) && (n <? MAX_BLOCKS).

(** Modelled from the spec: [read_block(n, buf)] of the missing [disk.c].
    [None] stands for the status -1.  Only the data region is reached as
    raw bytes; the other regions have their own accessors below.  The
    device of the design answers every [n] below [MAX_BLOCKS]: for a block
    below the first data block it returns the bytes of the superblock, of a
    bitmap or of inode records, which this image does not keep as bytes, so
    such a call fails here.  The two agree on every block from
    [FIRST_DATA_BLOCK] on. *)
Definition read_block (st : filesystem) (n : Z) : option block :=
  match image st with
  | Some d => if is_data_block n then Some (default zero_block (d_data d !! n))
              else None
  | None => None
  end.

(** Modelled from the spec: [write_block(n, buf)] of the missing [disk.c].
    As for [read_block], a block below the first data block is refused
    here, where the device of the design overwrites the superblock, a
    bitmap or inode records; the two agree on every block from
    [FIRST_DATA_BLOCK] on. *)
Definition write_block (st : filesystem) (n : Z) (b : block) : filesystem * Z :=
  match image st with
  | Some d =>
      if is_data_block n then
        (with_disk (mk_disk (d_super d) (d_block_bitmap d) (d_inode_bitmap d)
                      (d_inodes d) (<[n := b]> (d_data d))) st, 0)
      else (st, -1)
  | None => (st, -1)
  end.

(** Lowest clear bit among [count] bits starting at [from]. *)
Fixpoint find_first_zero (bm : Z) (from : Z) (count : nat) : option Z :=
  match count with
  | O => None
  | S k => if Z.testbit bm from then find_first_zero bm (from + 1) k
           else Some from
  end.

(** Modelled from the spec: [allocate_block()] of the missing [disk.c]:
    lowest clear bit from the first data block upward; sets it, decrements
    the free count, writes bitmap and superblock, zero-fills the block;
    0 when none is free. *)
Definition allocate_block (st : filesystem) : filesystem * Z :=
  match image st with
  | Some d =>
      match find_first_zero (d_block_bitmap d) FIRST_DATA_BLOCK
              (Z.to_nat (MAX_BLOCKS - FIRST_DATA_BLOCK)) with
      | Some n =>
          let sb := set_s_free_blocks_count
                      (u32 (s_free_blocks_count (superblock st) - 1))
                      (superblock st) in
          (with_image (mk_disk sb (Z.setbit (d_block_bitmap d) n)
                         (d_inode_bitmap d) (d_inodes d)
                         (<[n := zero_block]> (d_data d))) sb st, n)
      | None => (st, 0)
      end
  | None => (st, 0)
  end.

(** Modelled from the spec: [free_block(n)] of the missing [disk.c]:
    clears bit [n] and increments the free count; clearing a clear bit
    changes nothing. *)
Definition free_block (st : filesystem) (n : Z) : filesystem :=
  match image st with
  | Some d =>
      if (0 <=? n) && (n <? MAX_BLOCKS) && Z.testbit (d_block_bitmap d) n then
        let sb := set_s_free_blocks_count
                    (u32 (s_free_blocks_count (superblock st) + 1))
                    (superblock st) in
        with_image (mk_disk sb (Z.clearbit (d_block_bitmap d) n)
                      (d_inode_bitmap d) (d_inodes d) (d_data d)) sb st
      else st
  | None => st
  end.

(** Modelled from the spec: [allocate_inode()] of the missing [disk.c]:
    lowest clear bit from the first non-reserved inode upward; bit [i]
    stands for inode [i + 1]; the record is zeroed; 0 when none is free. *)
Definition allocate_inode (st : filesystem) : filesystem * Z :=
  match image st with
  | Some d =>
      match find_first_zero (d_inode_bitmap d) (FIRST_INO - 1)
              (Z.to_nat (MAX_INODES - (FIRST_INO - 1))) with
      | Some i =>
          let sb := set_s_free_inodes_count
                      (u32 (s_free_inodes_count (superblock st) - 1))
                      (superblock st) in
          (with_image (mk_disk sb (d_block_bitmap d)
                         (Z.setbit (d_inode_bitmap d) i)
                         (<[i + 1 := zero_inode]> (d_inodes d))
                         (d_data d)) sb st, i + 1)
      | None => (st, 0)
      end
  | None => (st, 0)
  end.

(** Modelled from the spec: [free_inode(n)] of the missing [disk.c]:
    clears bit [n - 1] and increments the free count; clearing a clear bit
    changes nothing. *)
Definition free_inode (st : filesystem) (n : Z) : filesystem :=
  match image st with
  | Some d =>
      if (1 <=? n) && (n <=? MAX_INODES) && Z.testbit (d_inode_bitmap d) (n - 1)
      then
        let sb := set_s_free_inodes_count
                    (u32 (s_free_inodes_count (superblock st) + 1))
                    (superblock st) in
        with_image (mk_disk sb (d_block_bitmap d)
                      (Z.clearbit (d_inode_bitmap d) (n - 1))
                      (d_inodes d) (d_data d)) sb st
      else st
  | None => st
  end.

Definition valid_inode_no (n : Z) : bool := (1 <=? n) && (n <=? MAX_INODES).

(** Modelled from the spec: [read_inode(n, out)] of the missing [disk.c];
    fails for [n = 0], [n > MAX_INODES] and when nothing is mounted. *)
Definition read_inode (st : filesystem) (n : Z) : option ext2_inode_t :=
  match image st with
  | Some d => if valid_inode_no n then Some (default zero_inode (d_inodes d !! n))
              else None
  | None => None
  end.

(** Modelled from the spec: [write_inode(n, in)] of the missing [disk.c]. *)
Definition write_inode (st : filesystem) (n : Z) (i : ext2_inode_t)
  : filesystem * Z :=
  match image st with
  | Some d =>
      if valid_inode_no n then
        (with_disk (mk_disk (d_super d) (d_block_bitmap d) (d_inode_bitmap d)
                      (<[n := i]> (d_inodes d)) (d_data d)) st, 0)
      else (st, -1)
  | None => (st, -1)
  end.

(** Entry [k] of a block read as [uint32_t[BLOCK_SIZE / 4]] (little endian). *)
Definition byte_at (b : block) (k : Z) : Z := nth (Z.to_nat k) b 0.

Definition get_u32 (b : block) (k : Z) : Z :=
  byte_at b (4 * k) + 2 ^ 8 * byte_at b (4 * k + 1)
  + 2 ^ 16 * byte_at b (4 * k + 2) + 2 ^ 24 * byte_at b (4 * k + 3).

Definition set_u32 (b : block) (k : Z) (v : Z) : block :=
  <[Z.to_nat (4 * k + 3) := (v / 2 ^ 24) mod 256]>
    (<[Z.to_nat (4 * k + 2) := (v / 2 ^ 16) mod 256]>
       (<[Z.to_nat (4 * k + 1) := (v / 2 ^ 8) mod 256]>
          (<[Z.to_nat (4 * k) := v mod 256]> b))).

(** ** [inode.c] *)

(** Timestamp updates (inode.c, lines 331-353). *)
Definition update_atime (st : filesystem) (inode_no : Z) : filesystem :=
  match read_inode st inode_no with
  | Some inode => fst (write_inode st inode_no (set_i_atime (u32 (now st)) inode))
  | None => st
  end.

Definition update_mtime (st : filesystem) (inode_no : Z) : filesystem :=
  match read_inode st inode_no with
  | Some inode => fst (write_inode st inode_no (set_i_mtime (u32 (now st)) inode))
  | None => st
  end.

Definition update_ctime (st : filesystem) (inode_no : Z) : filesystem :=
  match read_inode st inode_no with
  | Some inode => fst (write_inode st inode_no (set_i_ctime (u32 (now st)) inode))
  | None => st
  end.

(** [create_inode] (inode.c, lines 12-42). *)
Definition create_inode (st : filesystem) (mode uid gid : Z) : filesystem * Z :=
  let '(st1, inode_no) := allocate_inode st in
  if inode_no =? 0 then (st1, -1)
  else
    let inode :=
      mk_inode mode uid 0 (u32 (now st1)) (u32 (now st1)) (u32 (now st1)) 0
        gid 1 0 0 (replicate 15 0) in
    let '(st2, r) := write_inode st1 inode_no inode in
    if negb (r =? 0) then (free_inode st2 inode_no, -1)
    else (st2, inode_no).

(** [if (x != 0) free_block(x);] *)
Definition free_nonzero (st : filesystem) (b : Z) : filesystem :=
  if b =? 0 then st else free_block st b.

(** [delete_inode] (inode.c, lines 44-78). *)
Definition delete_inode (st : filesystem) (inode_no : Z) : filesystem * Z :=
  match read_inode st inode_no with
  | None => (st, -1)
  | Some inode =>
      let st1 := fold_left free_nonzero (map (block_ptr inode) (seqZ 0 12)) st in
      let st2 :=
        if block_ptr inode 12 =? 0 then st1
        else
          let st1' :=
            match read_block st1 (block_ptr inode 12) with
            | Some indirect_blocks =>
                fold_left free_nonzero
                  (map (get_u32 indirect_blocks) (seqZ 0 (BLOCK_SIZE / 4))) st1
            | None => st1
            end in
          free_block st1' (block_ptr inode 12) in
      let st3 := fst (write_inode st2 inode_no zero_inode) in
      (free_inode st3 inode_no, 0)
  end.

(** [get_inode_block] (inode.c, lines 80-106); [None] is the status -1,
    [Some b] the status 0 with [*block_no = b]. *)
Definition get_inode_block (st : filesystem) (inode_no block_index : Z)
  : option Z :=
  match read_inode st inode_no with
  | None => None
  | Some inode =>
      if block_index <? 12 then Some (block_ptr inode block_index)
      else if block_index <? 12 + BLOCK_SIZE / 4 then
        if block_ptr inode 12 =? 0 then Some 0
        else
          match read_block st (block_ptr inode 12) with
          | None => None
          | Some indirect_blocks => Some (get_u32 indirect_blocks (block_index - 12))
          end
      else None
  end.

(** [set_inode_block] (inode.c, lines 108-137). *)
Definition set_inode_block (st : filesystem) (inode_no block_index block_no : Z)
  : filesystem * Z :=
  match read_inode st inode_no with
  | None => (st, -1)
  | Some inode =>
      if block_index <? 12 then
        write_inode st inode_no
          (set_i_block (<[Z.to_nat block_index := block_no]> (i_block inode)) inode)
      else if block_index <? 12 + BLOCK_SIZE / 4 then
        let '(st1, inode1, failed) :=
          if block_ptr inode 12 =? 0 then
            let '(st1, b) := allocate_block st in
            (st1, set_i_block (<[12%nat := b]> (i_block inode)) inode, b =? 0)
          else (st, inode, false) in
        if failed then (st1, -1)
        else
          let indirect_blocks :=
            match read_block st1 (block_ptr inode1 12) with
            | Some b => b
            | None => zero_block
            end in
          let st2 :=
            fst (write_block st1 (block_ptr inode1 12)
                   (set_u32 indirect_blocks (block_index - 12) block_no)) in
          write_inode st2 inode_no inode1
      else (st, -1)
  end.

(** [memcpy(dst + at, src, n)] on a block. *)
Definition patch (dst : block) (at_ : Z) (src : list Z) : block :=
  take (Z.to_nat at_) dst ++ src
  ++ drop (Z.to_nat at_ + length src)%nat dst.

(** The [while] loop of [read_inode_data] (lines 154-181).  Every turn
    copies at least one byte, so [remaining] turns are enough; [fuel]
    bounds the turns.  The result is [bytes_read] and the bytes copied into
    [buffer]. *)
Fixpoint read_loop (fuel : nat) (st : filesystem) (inode_no isize : Z)
    (bytes_read : Z) (copied : list Z) (remaining current_offset : Z)
  : Z * list Z :=
  match fuel with
  | O => (bytes_read, copied)
  | S fuel' =>
      if (0 <? remaining) && (current_offset <? isize) then
        let block_index := u32 (current_offset ÷ BLOCK_SIZE) in
        let block_offset := u32 (Z.rem current_offset BLOCK_SIZE) in
        match get_inode_block st inode_no block_index with
        | None => (bytes_read, copied)
        | Some block_no =>
            if block_no =? 0 then (bytes_read, copied)
            else
              match read_block st block_no with
              | None => (bytes_read, copied)
              | Some block_buffer =>
                  let b0 := u32 (BLOCK_SIZE - block_offset) in
                  let b1 := if b0 >? remaining then remaining else b0 in
                  let bytes_in_block :=
                    if u64 (current_offset + b1) >? isize
                    then isize - current_offset
                    else b1 in
                  read_loop fuel' st inode_no isize
                    (bytes_read + bytes_in_block)
                    (copied ++ take (Z.to_nat bytes_in_block)
                                 (drop (Z.to_nat block_offset) block_buffer))
                    (remaining - bytes_in_block)
                    (current_offset + bytes_in_block)
              end
        end
      else (bytes_read, copied)
  end.

(** [read_inode_data] (inode.c, lines 140-187): the status (or the number
    of bytes read) and the bytes placed at the start of [buffer]. *)
Definition read_inode_data (st : filesystem) (inode_no size offset : Z)
  : filesystem * (Z * list Z) :=
  match read_inode st inode_no with
  | None => (st, (-1, []))
  | Some inode =>
      if offset >=? i_size inode then (st, (0, []))
      else
        (update_atime st inode_no,
         read_loop (S (Z.to_nat size)) st inode_no (i_size inode) 0 [] size offset)
  end.

(** The [while] loop of [write_inode_data] (lines 199-238): final state,
    [bytes_written] and [current_offset]. *)
Fixpoint write_loop (fuel : nat) (st : filesystem) (inode_no : Z)
    (buffer : list Z) (bytes_written remaining current_offset : Z)
  : filesystem * Z * Z :=
  match fuel with
  | O => (st, bytes_written, current_offset)
  | S fuel' =>
      if 0 <? remaining then
        let block_index := u32 (current_offset ÷ BLOCK_SIZE) in
        let block_offset := u32 (Z.rem current_offset BLOCK_SIZE) in
        match get_inode_block st inode_no block_index with
        | None => (st, bytes_written, current_offset)
        | Some mapped =>
            let '(st1, got) :=
              if mapped =? 0 then
                let '(sa, b) := allocate_block st in
                if b =? 0 then (sa, None)
                else
                  let '(sb, r) := set_inode_block sa inode_no block_index b in
                  if negb (r =? 0) then (free_block sb b, None)
                  else (sb, Some b)
              else (st, Some mapped) in
            match got with
            | None => (st1, bytes_written, current_offset)
            | Some block_no =>
                match read_block st1 block_no with
                | None => (st1, bytes_written, current_offset)
                | Some block_buffer =>
                    let b0 := u32 (BLOCK_SIZE - block_offset) in
                    let bytes_in_block :=
                      if b0 >? remaining then remaining else b0 in
                    let '(st2, r) :=
                      write_block st1 block_no
                        (patch block_buffer block_offset
                           (take (Z.to_nat bytes_in_block)
                              (drop (Z.to_nat bytes_written) buffer))) in
                    if negb (r =? 0) then (st2, bytes_written, current_offset)
                    else
                      write_loop fuel' st2 inode_no buffer
                        (bytes_written + bytes_in_block)
                        (remaining - bytes_in_block)
                        (current_offset + bytes_in_block)
                end
            end
        end
      else (st, bytes_written, current_offset)
  end.

(** [write_inode_data] (inode.c, lines 189-250).  The size and block count
    are assigned to the local [inode] (lines 241-244), which is not written
    afterwards: [update_mtime] and [update_ctime] each read the record from
    the image again. *)
Definition write_inode_data (st : filesystem) (inode_no : Z) (buffer : list Z)
    (size offset : Z) : filesystem * Z :=
  match read_inode st inode_no with
  | None => (st, -1)
  | Some inode =>
      let '(st1, bytes_written, current_offset) :=
        write_loop (S (Z.to_nat size)) st inode_no buffer 0 size offset in
      let inode_local :=
        if current_offset >? i_size inode then
          set_i_size (u32 current_offset)
            (u32 (u32 current_offset + BLOCK_SIZE - 1) / BLOCK_SIZE) inode
        else inode in
      let st2 := update_mtime st1 inode_no in
      let st3 := update_ctime st2 inode_no in
      (st3, bytes_written)
  end.

(** One turn of the [for] loop of [truncate_inode] (lines 266-272). *)
Definition truncate_step (inode_no : Z) (st : filesystem) (i : Z) : filesystem :=
  match get_inode_block st inode_no i with
  | Some block_no =>
      if negb (block_no =? 0) then
        fst (set_inode_block (free_block st block_no) inode_no i 0)
      else st
  | None => st
  end.

(** [truncate_inode] (inode.c, lines 252-281).  The record written at the
    end is the local [inode] read at line 254, with [i_size] and [i_blocks]
    replaced. *)
Definition truncate_inode (st : filesystem) (inode_no length : Z)
  : filesystem * Z :=
  match read_inode st inode_no with
  | None => (st, -1)
  | Some inode =>
      if length >=? i_size inode then (st, 0)
      else
        let new_blocks := u32 ((length + BLOCK_SIZE - 1) ÷ BLOCK_SIZE) in
        let old_blocks := u32 (i_size inode + BLOCK_SIZE - 1) / BLOCK_SIZE in
        let st1 :=
          fold_left (truncate_step inode_no)
            (seqZ new_blocks (old_blocks - new_blocks)) st in
        let inode' := set_i_size (u32 length) new_blocks inode in
        let st2 := update_mtime st1 inode_no in
        let st3 := update_ctime st2 inode_no in
        write_inode st3 inode_no inode'
  end.

(** [check_permission] (inode.c, lines 284-303). *)
Definition check_permission (st : filesystem) (inode_no access : Z) : bool :=
  match read_inode st inode_no with
  | None => false
  | Some inode =>
      let uid := get_current_uid st in
      let gid := get_current_gid st in
      let mode :=
        if uid =? i_uid inode then Z.land (Z.shiftr (i_mode inode) 6) 7
        else if gid =? i_gid inode then Z.land (Z.shiftr (i_mode inode) 3) 7
        else Z.land (i_mode inode) 7 in
      Z.land mode access =? access
  end.

(** [change_permission] (inode.c, lines 305-315). *)
Definition change_permission (st : filesystem) (inode_no mode : Z)
  : filesystem * Z :=
  match read_inode st inode_no with
  | None => (st, -1)
  | Some inode =>
      let inode' :=
        set_i_mode (Z.lor (Z.land (i_mode inode) 61440) (Z.land mode 4095)) inode in
      let st1 := update_ctime st inode_no in
      write_inode st1 inode_no inode'
  end.

(** [change_owner] (inode.c, lines 317-328). *)
Definition change_owner (st : filesystem) (inode_no uid gid : Z)
  : filesystem * Z :=
  match read_inode st inode_no with
  | None => (st, -1)
  | Some inode =>
      let inode' := set_i_owner uid gid inode in
      let st1 := update_ctime st inode_no in
      write_inode st1 inode_no inode'
  end.

(** [increment_link_count] and [decrement_link_count] (lines 356-380). *)
Definition increment_link_count (st : filesystem) (inode_no : Z)
  : filesystem * Z :=
  match read_inode st inode_no with
  | None => (st, -1)
  | Some inode =>
      let inode' := set_i_links_count (u16 (i_links_count inode + 1)) inode in
      let st1 := update_ctime st inode_no in
      write_inode st1 inode_no inode'
  end.

Definition decrement_link_count (st : filesystem) (inode_no : Z)
  : filesystem * Z :=
  match read_inode st inode_no with
  | None => (st, -1)
  | Some inode =>
      let inode' :=
        if i_links_count inode >? 0
        then set_i_links_count (i_links_count inode - 1) inode
        else inode in
      let st1 := update_ctime st inode_no in
      write_inode st1 inode_no inode'
  end.

Definition get_file_size (st : filesystem) (inode_no : Z) : Z :=
  match read_inode st inode_no with
  | None => 0
  | Some inode => i_size inode
  end.

(** ** [commands.c] *)

(** Modelled from the spec: the directory layer ([directory.c], declared in
    [include/directory.h]) is missing from the sources.  The command layer
    is stated over any implementation of the four entry points it calls:
    the two lookups read the image ([None] is a non-zero status), the two
    updates return the new state and their status. *)
Class DirectoryLayer := {
  path_to_inode : filesystem -> string -> option Z;
  get_parent_inode : filesystem -> string -> option (Z * string);
  add_directory_entry : filesystem -> Z -> string -> Z -> Z -> filesystem * Z;
  remove_directory_entry : filesystem -> Z -> string -> filesystem * Z
}.

(** The line a command prints. *)
Inductive message :=
| Silent
| Error_Not_logged_in
| Error_Invalid_path
| Error_Parent_directory_does_not_exist
| Error_Parent_is_not_a_directory
| Error_Permission_denied
| Error_Failed_to_create_file
| Error_Failed_to_add_directory_entry
| File_created (path : string)
| Error_File_not_found
| Error_Cannot_delete_directory_with_delete_command
| Error_Failed_to_remove_directory_entry
| Error_Failed_to_delete_file
| File_deleted (path : string)
| Error_Not_a_regular_file
| Error_Too_many_open_files
| File_opened (path : string) (fd : Z)
| Error_Invalid_file_descriptor
| File_closed (fd : Z)
| Error_File_not_opened_for_reading
| Error_File_not_opened_for_writing
| Disk_image_formatted_successfully
| Error_Failed_to_mount_disk_image
| Error_Invalid_file_system_magic_number
| Disk_image_mounted (disk_image : string)
| Disk_image_unmounted
| Permissions_changed (path : string)
| Error_Failed_to_change_permissions
| Owner_changed (path : string)
| Error_Failed_to_change_owner.

(** A C condition [if (x & m)]. *)
Definition has_bits (x m : Z) : bool := negb (Z.land x m =? 0).

(** First slot with [!is_open], scanning from index [i] (commands.c,
    lines 136-142). *)
Fixpoint find_free_slot (ofs : list open_file_t) (i : nat) : option nat :=
  match ofs with
  | [] => None
  | f :: rest => if negb (OpenFile.is_open f) then Some i
                 else find_free_slot rest (S i)
  end.

(** First slot with [is_open && fd == wanted], with its index (commands.c,
    lines 186-192 and 219-225). *)
Fixpoint find_open_slot (ofs : list open_file_t) (wanted : Z) (i : nat)
  : option (nat * open_file_t) :=
  match ofs with
  | [] => None
  | f :: rest => if OpenFile.is_open f && (OpenFile.fd f =? wanted)
                 then Some (i, f)
                 else find_open_slot rest wanted (S i)
  end.

Definition set_offset (v : Z) (f : open_file_t) : open_file_t :=
  OpenFile.mk (OpenFile.fd f) (OpenFile.inode_no f) (OpenFile.flags f) v
    (OpenFile.is_open f).

Definition set_is_open (v : bool) (f : open_file_t) : open_file_t :=
  OpenFile.mk (OpenFile.fd f) (OpenFile.inode_no f) (OpenFile.flags f)
    (OpenFile.offset f) v.

(** [close_disk_image()] of the missing [disk.c]. *)
Definition close_disk_image (st : filesystem) : filesystem :=
  mk_fs None (superblock st) (disk_image st) (open_files st) (next_fd st)
    (cwd_inode st) (current_user st) (now st).

Section Commands.

Context {header : Ext2Header} {directory : DirectoryLayer}.

(** [is_directory] and [is_regular_file] (inode.c, lines 383-397). *)
Definition is_directory (st : filesystem) (inode_no : Z) : bool :=
  match read_inode st inode_no with
  | None => false
  | Some inode => Z.land (i_mode inode) 61440 =? EXT2_S_IFDIR
  end.

Definition is_regular_file (st : filesystem) (inode_no : Z) : bool :=
  match read_inode st inode_no with
  | None => false
  | Some inode => Z.land (i_mode inode) 61440 =? EXT2_S_IFREG
  end.

(** [cmd_create] (commands.c, lines 14-59).  The result of [create_inode]
    is stored in a [uint32_t] before it is compared with 0. *)
Definition cmd_create (st : filesystem) (path : string)
  : filesystem * (Z * message) :=
  if negb (is_logged_in st) then (st, (-1, Error_Not_logged_in))
  else
    match get_parent_inode st path with
    | None => (st, (-1, Error_Invalid_path))
    | Some (parent_inode, child_name) =>
        if parent_inode =? 0 then
          (st, (-1, Error_Parent_directory_does_not_exist))
        else if negb (is_directory st parent_inode) then
          (st, (-1, Error_Parent_is_not_a_directory))
        else if negb (check_permission st parent_inode EXT2_S_IWUSR) then
          (st, (-1, Error_Permission_denied))
        else
          let '(st1, r) :=
            create_inode st (u16 (Z.lor EXT2_S_IFREG 420))
              (get_current_uid st) (get_current_gid st) in
          let file_inode := u32 r in
          if file_inode =? 0 then (st1, (-1, Error_Failed_to_create_file))
          else
            let '(st2, r2) :=
              add_directory_entry st1 parent_inode child_name file_inode 1 in
            if negb (r2 =? 0) then
              (fst (delete_inode st2 file_inode),
               (-1, Error_Failed_to_add_directory_entry))
            else (st2, (0, File_created path))
    end.

(** [cmd_delete] (commands.c, lines 61-105). *)
Definition cmd_delete (st : filesystem) (path : string)
  : filesystem * (Z * message) :=
  if negb (is_logged_in st) then (st, (-1, Error_Not_logged_in))
  else
    match path_to_inode st path with
    | None => (st, (-1, Error_File_not_found))
    | Some inode_no =>
        if is_directory st inode_no then
          (st, (-1, Error_Cannot_delete_directory_with_delete_command))
        else if negb (check_permission st inode_no EXT2_S_IWUSR) then
          (st, (-1, Error_Permission_denied))
        else
          match get_parent_inode st path with
          | None => (st, (-1, Error_Invalid_path))
          | Some (parent_inode, child_name) =>
              let '(st1, r) := remove_directory_entry st parent_inode child_name in
              if negb (r =? 0) then
                (st1, (-1, Error_Failed_to_remove_directory_entry))
              else
                let '(st2, r2) := delete_inode st1 inode_no in
                if negb (r2 =? 0) then (st2, (-1, Error_Failed_to_delete_file))
                else (st2, (0, File_deleted path))
          end
    end.

(** The permission mask that [cmd_open] derives from [flags] (commands.c,
    lines 125-128). *)
Definition open_access (flags : Z) : Z :=
  let access := 0 in
  let access :=
    if has_bits flags O_RDONLY then Z.lor access EXT2_S_IRUSR else access in
  let access :=
    if has_bits flags O_WRONLY then Z.lor access EXT2_S_IWUSR else access in
  let access :=
    if has_bits flags O_RDWR
    then Z.lor access (Z.lor EXT2_S_IRUSR EXT2_S_IWUSR) else access in
  access.

(** [cmd_open] (commands.c, lines 107-158). *)
Definition cmd_open (st : filesystem) (path : string) (flags : Z)
  : filesystem * (Z * message) :=
  if negb (is_logged_in st) then (st, (-1, Error_Not_logged_in))
  else
    match path_to_inode st path with
    | None => (st, (-1, Error_File_not_found))
    | Some inode_no =>
        if negb (is_regular_file st inode_no) then
          (st, (-1, Error_Not_a_regular_file))
        else if negb (check_permission st inode_no (open_access flags)) then
          (st, (-1, Error_Permission_denied))
        else
          match find_free_slot (open_files st) 0 with
          | None => (st, (-1, Error_Too_many_open_files))
          | Some slot =>
              let file := OpenFile.mk (next_fd st) inode_no flags 0 true in
              (with_open_files (<[slot := file]> (open_files st))
                 (next_fd st + 1) st,
               (next_fd st, File_opened path (next_fd st)))
          end
    end.

(** [cmd_close] (commands.c, lines 160-177). *)
Definition cmd_close (st : filesystem) (fd : Z) : filesystem * (Z * message) :=
  if negb (is_logged_in st) then (st, (-1, Error_Not_logged_in))
  else
    match find_open_slot (open_files st) fd 0 with
    | Some (slot, file) =>
        (with_open_files (<[slot := set_is_open false file]> (open_files st))
           (next_fd st) st, (0, File_closed fd))
    | None => (st, (-1, Error_Invalid_file_descriptor))
    end.

(** [cmd_read] (commands.c, lines 179-210): state, status with the printed
    line, and the bytes placed in [buffer]. *)
Definition cmd_read (st : filesystem) (fd size : Z)
  : filesystem * (Z * message) * list Z :=
  if negb (is_logged_in st) then (st, (-1, Error_Not_logged_in), [])
  else
    match find_open_slot (open_files st) fd 0 with
    | None => (st, (-1, Error_Invalid_file_descriptor), [])
    | Some (slot, file) =>
        if negb (has_bits (OpenFile.flags file) O_RDONLY)
           && negb (has_bits (OpenFile.flags file) O_RDWR) then
          (st, (-1, Error_File_not_opened_for_reading), [])
        else
          let '(st1, (bytes_read, data)) :=
            read_inode_data st (OpenFile.inode_no file) size
              (OpenFile.offset file) in
          let st2 :=
            if bytes_read >? 0 then
              with_open_files
                (<[slot := set_offset (OpenFile.offset file + bytes_read) file]>
                   (open_files st1))
                (next_fd st1) st1
            else st1 in
          (st2, (bytes_read, Silent), data)
    end.

(** [cmd_write] (commands.c, lines 212-243). *)
Definition cmd_write (st : filesystem) (fd : Z) (buffer : list Z) (size : Z)
  : filesystem * (Z * message) :=
  if negb (is_logged_in st) then (st, (-1, Error_Not_logged_in))
  else
    match find_open_slot (open_files st) fd 0 with
    | None => (st, (-1, Error_Invalid_file_descriptor))
    | Some (slot, file) =>
        if negb (has_bits (OpenFile.flags file) O_WRONLY)
           && negb (has_bits (OpenFile.flags file) O_RDWR) then
          (st, (-1, Error_File_not_opened_for_writing))
        else
          let '(st1, bytes_written) :=
            write_inode_data st (OpenFile.inode_no file) buffer size
              (OpenFile.offset file) in
          let st2 :=
            if bytes_written >? 0 then
              with_open_files
                (<[slot := set_offset (OpenFile.offset file + bytes_written) file]>
                   (open_files st1))
                (next_fd st1) st1
            else st1 in
          (st2, (bytes_written, Silent))
    end.

(** [cmd_chmod] (commands.c, lines 447-466). *)
Definition cmd_chmod (st : filesystem) (path : string) (mode : Z)
  : filesystem * (Z * message) :=
  if negb (is_logged_in st) then (st, (-1, Error_Not_logged_in))
  else
    match path_to_inode st path with
    | None => (st, (-1, Error_File_not_found))
    | Some inode_no =>
        let '(st1, result) := change_permission st inode_no mode in
        if result =? 0 then (st1, (result, Permissions_changed path))
        else (st1, (result, Error_Failed_to_change_permissions))
    end.

(** [cmd_chown] (commands.c, lines 468-487). *)
Definition cmd_chown (st : filesystem) (path : string) (uid gid : Z)
  : filesystem * (Z * message) :=
  if negb (is_logged_in st) then (st, (-1, Error_Not_logged_in))
  else
    match path_to_inode st path with
    | None => (st, (-1, Error_File_not_found))
    | Some inode_no =>
        let '(st1, result) := change_owner st inode_no uid gid in
        if result =? 0 then (st1, (result, Owner_changed path))
        else (st1, (result, Error_Failed_to_change_owner))
    end.

End Commands.

(** ** Formatting and mounting

    The host's files are a map from path to image contents. *)

(** The image that lines 329-341 of [cmd_format] leave: [MAX_BLOCKS]
    blocks of zeros. *)
Definition zeroed_image : disk := mk_disk zero_superblock 0 0 ∅ ∅.

(** The superblock that [cmd_format] fills in (commands.c, lines 344-377),
    [t] being the value of [time(NULL)]. *)
Definition format_superblock (t : Z) : ext2_superblock_t :=
  {| s_inodes_count := MAX_INODES;
     s_blocks_count := MAX_BLOCKS;
     s_r_blocks_count := 10;
     s_free_blocks_count := MAX_BLOCKS - 10;
     s_free_inodes_count := MAX_INODES - 1;
     s_first_data_block := 1;
     s_log_block_size := 0;
     s_log_frag_size := 0;
     s_blocks_per_group := MAX_BLOCKS;
     s_frags_per_group := MAX_BLOCKS;
     s_inodes_per_group := MAX_INODES;
     s_mtime := u32 t;
     s_wtime := u32 t;
     s_mnt_count := 0;
     s_max_mnt_count := 20;
     s_magic := 61267;
     s_state := 1;
     s_errors := 1;
     s_minor_rev_level := 0;
     s_lastcheck := u32 t;
     s_checkinterval := 1800;
     s_creator_os := 0;
     s_rev_level := 0;
     s_def_resuid := 0;
     s_def_resgid := 0;
     s_first_ino := 11;
     s_inode_size := 128;
     s_block_group_nr := 0;
     s_feature_compat := 0;
     s_feature_incompat := 0;
     s_feature_ro_compat := 0 |}.

(** [cmd_format] (commands.c, lines 325-391): the file is created with
    [MAX_BLOCKS] zero blocks ([fopen] with "wb"), then reopened and the
    superblock alone is written at its start.  Creating a host file does
    not fail here: the two paths on which [fopen] returns [NULL] (lines
    329-333 and 380-384, each printing its error and returning -1 before
    anything more is written) are outside the host map, which accepts every
    name; what is stated of [cmd_format] is stated of a format that
    succeeded. *)
Definition cmd_format (host : gmap string disk) (t : Z) (disk_image : string)
  : gmap string disk * (Z * message) :=
  let zeroed := zeroed_image in
  let superblock := format_superblock t in
  (<[disk_image := mk_disk superblock (d_block_bitmap zeroed)
                     (d_inode_bitmap zeroed) (d_inodes zeroed) (d_data zeroed)]>
     host,
   (0, Disk_image_formatted_successfully)).

(** [cmd_mount] (commands.c, lines 393-418).  [init_disk_image] opens an
    existing image; block 0 is then read into [fs.superblock]. *)
Definition cmd_mount (host : gmap string disk) (st : filesystem)
    (disk_image : string) : filesystem * (Z * message) :=
  match host !! disk_image with
  | None => (st, (-1, Error_Failed_to_mount_disk_image))
  | Some d =>
      let st1 := with_image d (d_super d) st in
      if negb (s_magic (superblock st1) =? 61267) then
        (close_disk_image st1, (-1, Error_Invalid_file_system_magic_number))
      else
        (mk_fs (image st1) (superblock st1) disk_image (open_files st1)
           (next_fd st1) (cwd_inode st1) (current_user st1) (now st1),
         (0, Disk_image_mounted disk_image))
  end.

(** [cmd_umount] (commands.c, lines 420-424). *)
Definition cmd_umount (st : filesystem) : filesystem * (Z * message) :=
  (close_disk_image st, (0, Disk_image_unmounted)).

(** ** Observations on a state *)

Definition block_bitmap (st : filesystem) : Z :=
  match image st with Some d => d_block_bitmap d | None => 0 end.

Definition inode_bitmap (st : filesystem) : Z :=
  match image st with Some d => d_inode_bitmap d | None => 0 end.

(** Number of clear bits among [count] bits starting at [from]. *)
Fixpoint count_free (bm : Z) (from : Z) (count : nat) : Z :=
  match count with
  | O => 0
  | S k => (if Z.testbit bm from then 0 else 1) + count_free bm (from + 1) k
  end.

(** [after] differs from [before] at most by blocks released in the block
    bitmap and by the free-block count: no bit of the block bitmap was set,
    and the inode bitmap, the inode table, the data blocks and the
    open-file table are the same. *)
Definition frees_only (before after : filesystem) : Prop :=
  inode_bitmap after = inode_bitmap before
  ∧ open_files after = open_files before
  ∧ (∀ n, read_inode after n = read_inode before n)
  ∧ (∀ n, read_block after n = read_block before n)
  ∧ (∀ p, Z.testbit (block_bitmap before) p = false →
          Z.testbit (block_bitmap after) p = false).

(** The size and the block count of a record, and the states between
    which no record changed them. *)
Definition size_fields (i : ext2_inode_t) : Z * Z := (i_size i, i_blocks i).

Definition sizes_kept (before after : filesystem) : Prop :=
  ∀ n, size_fields <$> read_inode after n = size_fields <$> read_inode before n.

Definition at_time (t : Z) (st : filesystem) : filesystem :=
  mk_fs (image st) (superblock st) (disk_image st) (open_files st) (next_fd st)
    (cwd_inode st) (current_user st) t.

(** ** Sample images and sessions

    The examples below run the code on small well-formed images: metadata
    blocks 0-18 and the root's data block 19 marked used, inode 2 the root
    directory, free counts equal to the clear bits. *)

(** The values of the classical ext2 headers. *)
Definition classic_header : Ext2Header :=
  {| EXT2_S_IFREG := 32768; EXT2_S_IFDIR := 16384;
     EXT2_S_IRUSR := 256; EXT2_S_IWUSR := 128 |}.

(** Masks at the scale of one permission triple (r = 4, w = 2), the scale
    of the value that [check_permission] compares them with. *)
Definition triple_header : Ext2Header :=
  {| EXT2_S_IFREG := 32768; EXT2_S_IFDIR := 16384;
     EXT2_S_IRUSR := 4; EXT2_S_IWUSR := 2 |}.

(** A directory layer reduced to one name: the root (inode 2) holds the
    entry [p] for inode 11.  Inserting the name again is rejected, removing
    it succeeds. *)
Definition one_entry_directory : DirectoryLayer :=
  {| path_to_inode := fun _ path =>
       if String.eqb path "/p" then Some 11
       else if String.eqb path "/" then Some 2 else None;
     get_parent_inode := fun _ path =>
       if String.eqb path "/p" then Some (2, "p"%string) else None;
     add_directory_entry := fun st _ _ _ _ => (st, -1);
     remove_directory_entry := fun st dir name =>
       if (dir =? 2) && String.eqb name "p" then (st, 0) else (st, -1) |}.

Definition root_user : user_t := mk_user 0 0 "root".
Definition alice : user_t := mk_user 1000 1000 "alice".

Definition closed_slot : open_file_t := OpenFile.mk 0 0 0 0 false.

(** The root's first block: [.] and [..], both for inode 2. *)
Definition root_block : block :=
  [2; 0; 0; 0; 12; 0; 1; 2; 46; 0; 0; 0;
   2; 0; 0; 0; 244; 3; 2; 2; 46; 46; 0; 0] ++ replicate 1000 0.

Definition root_inode : ext2_inode_t :=
  mk_inode 16877 0 1024 1000 1000 1000 0 0 2 1 0 (<[0%nat := 19]> (replicate 15 0)).

(** An empty filesystem: root only. *)
Definition empty_image : disk :=
  mk_disk
    (set_s_free_inodes_count 127
       (set_s_free_blocks_count 1004 (format_superblock 1000)))
    (2 ^ 20 - 1) 2 (<[2 := root_inode]> ∅) (<[19 := root_block]> ∅).

(** A session on image [d] at time [t]. *)
Definition session (d : disk) (u : user_t) (t : Z) : filesystem :=
  mk_fs (Some d) (d_super d) "disk.img" (replicate 32 closed_slot) 3 2 (Some u) t.

(** Root has created a regular file at time 1000; it is inode 11. *)
Definition new_file_state : filesystem :=
  fst (create_inode (session empty_image root_user 1000) 33188 0 0).

(** An image holding a two-block file: inode 11, 2048 bytes, blocks 20 and
    21, owned by root, last changed at time 1000. *)
Definition two_block_file : ext2_inode_t :=
  mk_inode 33188 0 2048 1000 1000 1000 0 0 1 2 0
    (<[1%nat := 21]> (<[0%nat := 20]> (replicate 15 0))).

Definition two_block_image : disk :=
  mk_disk
    (set_s_free_inodes_count 126
       (set_s_free_blocks_count 1002 (format_superblock 1000)))
    (2 ^ 22 - 1) 1026
    (<[11 := two_block_file]> (<[2 := root_inode]> ∅))
    (<[21 := replicate 1024 98]>
       (<[20 := replicate 1024 97]> (<[19 := root_block]> ∅))).

(** An image holding the file [/p] (inode 11) with permission bits 0000,
    owned by root. *)
Definition locked_file : ext2_inode_t :=
  mk_inode 32768 0 0 1000 1000 1000 0 0 1 0 0 (replicate 15 0).

Definition locked_image : disk :=
  mk_disk
    (set_s_free_inodes_count 126
       (set_s_free_blocks_count 1004 (format_superblock 1000)))
    (2 ^ 20 - 1) 1026
    (<[11 := locked_file]> (<[2 := root_inode]> ∅))
    (<[19 := root_block]> ∅).

Definition hello : list Z := [104; 101; 108; 108; 111].

(** The process before any mount, with root logged in. *)
Definition unmounted_state : filesystem :=
  mk_fs None zero_superblock "" (replicate 32 closed_slot) 3 2
    (Some root_user) 2000.

(** The state after [format disk.img] and [mount disk.img]. *)
Definition formatted_state : filesystem :=
  (cmd_mount (cmd_format ∅ 1000 "disk.img").1 unmounted_state "disk.img").1.

(** [after] has the session of [before]: the open-file table, the handle
    counter, the user, the working directory, the clock and the image name
    are the same, and an image is opened in one exactly when it is in the
    other. *)
Definition session_kept (before after : filesystem) : Prop :=
  open_files after = open_files before
  ∧ next_fd after = next_fd before
  ∧ current_user after = current_user before
  ∧ cwd_inode after = cwd_inode before
  ∧ now after = now before
  ∧ disk_image after = disk_image before
  ∧ (is_Some (image after) ↔ is_Some (image before)).

(** ** [cmd_status] *)

(** What [cmd_status] prints. *)
Record status_t := mk_status {
  status_disk_image : string;
  status_total_blocks : Z;
  status_free_blocks : Z;
  status_total_inodes : Z;
  status_free_inodes : Z;
  status_user : option string;
  status_open_files : Z
}.

(** The counting loop of [cmd_status] (commands.c, lines 435-440). *)
Definition count_open (ofs : list open_file_t) : Z :=
  fold_left (λ open_count f, if OpenFile.is_open f then open_count + 1
                             else open_count) ofs 0.

(** [cmd_status] (commands.c, lines 426-444).  The name printed is the one
    of the session of [user.c]. *)
Definition cmd_status (st : filesystem) : status_t * Z :=
  (mk_status (disk_image st)
     (s_blocks_count (superblock st)) (s_free_blocks_count (superblock st))
     (s_inodes_count (superblock st)) (s_free_inodes_count (superblock st))
     (u_name <$> current_user st) (count_open (open_files st)),
   0).

(** The handles in use are below the handle counter and pairwise
    distinct. *)
Definition handles_ok (st : filesystem) : Prop :=
  (∀ i f, open_files st !! i = Some f → OpenFile.is_open f = true →
          OpenFile.fd f < next_fd st)
  ∧ (∀ i j f g, open_files st !! i = Some f → open_files st !! j = Some g →
       OpenFile.is_open f = true → OpenFile.is_open g = true →
       OpenFile.fd f = OpenFile.fd g → i = j).

(** Root has opened [/p] (inode 11, two blocks) for reading and writing:
    handle 3 in slot 0. *)
Definition opened_state : filesystem :=
  (@cmd_open triple_header one_entry_directory
     (session two_block_image root_user 2000) "/p" O_RDWR).1.

(** The same session with every slot of the table in use. *)
Definition full_table_state : filesystem :=
  with_open_files (replicate 32 (OpenFile.mk 3 11 O_RDWR 0 true)) 4
    (session two_block_image root_user 2000).

(** Every data block of the image has its [BLOCK_SIZE] bytes. *)
Definition whole_blocks (st : filesystem) : Prop :=
  ∀ p blk, read_block st p = Some blk → length blk = Z.to_nat BLOCK_SIZE.

(** The two-block image with every block marked used. *)
Definition full_image : disk :=
  mk_disk (set_s_free_blocks_count 0 (d_super two_block_image))
    (2 ^ 1024 - 1) (d_inode_bitmap two_block_image)
    (d_inodes two_block_image) (d_data two_block_image).

(** A block pointer that is unset or names a block past the inode table:
    what it names is reached as raw bytes only, never as a bitmap, the
    superblock or an inode record. *)
Definition data_pointer (p : Z) : Prop := p = 0 ∨ FIRST_DATA_BLOCK ≤ p.

(** A directory layer whose [add_directory_entry] takes a block for the
    directory (no block of the directory has room, so a new one is
    allocated) and then fails without giving it back.  Under the root, [q]
    is a name not yet in use. *)
Definition leaking_directory : DirectoryLayer :=
  {| path_to_inode := fun _ path =>
       if String.eqb path "/" then Some 2 else None;
     get_parent_inode := fun _ path =>
       if String.eqb path "/q" then Some (2, "q"%string) else None;
     add_directory_entry := fun st _ _ _ _ => ((allocate_block st).1, -1);
     remove_directory_entry := fun st _ _ => (st, -1) |}.

(** * Properties *)

(** ** Formatting and mounting *)

Lemma lor_0755_nonzero (x : Z) : Z.lor x 493 ≠ 0.
Proof. intros H. apply Z.lor_eq_0_iff in H. lia. Qed.

Lemma cmd_format_image (host : gmap string disk) (t : Z) (name : string) :
  (cmd_format host t name).1 !! name
  = Some (mk_disk (format_superblock t) 0 0 ∅ ∅).
Proof. unfold cmd_format. cbn. apply lookup_insert_eq. Qed.

(** C3: after [cmd_format] the image holds the superblock and nothing else:
    both bitmaps are all zero (no metadata block and no inode marked used),
    the record of inode 2 is zero-filled, so its mode is not
    directory | 0755 and it maps no data block, and no data block was
    written: the image has no root directory and is not a valid empty
    filesystem. *)
Theorem cmd_format_leaves_bitmaps_and_root_zero :
  ∀ (header : Ext2Header) (host : gmap string disk) (t : Z) (name : string),
    (cmd_format host t name).2 = (0, Disk_image_formatted_successfully)
    ∧ ∃ d, (cmd_format host t name).1 !! name = Some d
      ∧ d_super d = format_superblock t
      ∧ (∀ n, Z.testbit (d_block_bitmap d) n = false)
      ∧ (∀ i, Z.testbit (d_inode_bitmap d) i = false)
      ∧ default zero_inode (d_inodes d !! 2) = zero_inode
      ∧ i_mode (default zero_inode (d_inodes d !! 2)) ≠ Z.lor EXT2_S_IFDIR 493
      ∧ block_ptr (default zero_inode (d_inodes d !! 2)) 0 = 0
      ∧ d_data d = ∅.
Proof.
  intros header host t name. split; [reflexivity|].
  eexists. split; [apply cmd_format_image|]. cbn.
  repeat split; try apply Z.bits_0.
  intros H. symmetry in H. exact (lor_0755_nonzero _ H).
Qed.

Lemma cmd_mount_formatted (host : gmap string disk) (st : filesystem)
    (t : Z) (name : string) :
  cmd_mount (cmd_format host t name).1 st name
  = (mk_fs (Some (mk_disk (format_superblock t) 0 0 ∅ ∅)) (format_superblock t)
       name (open_files st) (next_fd st) (cwd_inode st) (current_user st) (now st),
     (0, Disk_image_mounted name)).
Proof. unfold cmd_mount. rewrite cmd_format_image. reflexivity. Qed.

(** C4: after [cmd_format] followed by a successful [cmd_mount] the
    counters and the bitmaps disagree: the superblock announces 1014 free
    blocks and 127 free inodes, while the block bitmap has 1023 clear bits
    from block 1 on (1005 from the first block after the inode table) and
    the inode bitmap 128 clear bits. *)
Theorem format_mount_counters_differ_from_bitmaps :
  ∀ (host : gmap string disk) (st : filesystem) (t : Z) (name : string),
    let mounted := cmd_mount (cmd_format host t name).1 st name in
    mounted.2 = (0, Disk_image_mounted name)
    ∧ s_first_data_block (superblock mounted.1) = 1
    ∧ s_free_blocks_count (superblock mounted.1) = 1014
    ∧ count_free (block_bitmap mounted.1) 1 1023 = 1023
    ∧ count_free (block_bitmap mounted.1) FIRST_DATA_BLOCK 1005 = 1005
    ∧ s_free_inodes_count (superblock mounted.1) = 127
    ∧ count_free (inode_bitmap mounted.1) 0 128 = 128.
Proof.
  intros host st t name mounted. subst mounted.
  rewrite cmd_mount_formatted. cbn [fst snd superblock block_bitmap inode_bitmap image
    d_block_bitmap d_inode_bitmap].
  repeat split; vm_compute; reflexivity.
Qed.

(** ** Opening and reading *)

(** With [flags = 0] no mask bit is requested, whatever the header says. *)
Lemma open_access_rdonly `{Ext2Header} : open_access O_RDONLY = 0.
Proof. reflexivity. Qed.

Lemma check_permission_no_bits (st : filesystem) (n : Z) (inode : ext2_inode_t) :
  read_inode st n = Some inode → check_permission st n 0 = true.
Proof.
  intros Hr. unfold check_permission. rewrite Hr.
  rewrite Z.land_0_r. reflexivity.
Qed.

(** Opening with [flags = 0] is never refused for lack of permission. *)
Lemma cmd_open_rdonly_never_denied `{Ext2Header} `{DirectoryLayer}
    (st : filesystem) (path : string) :
  (cmd_open st path O_RDONLY).2.2 ≠ Error_Permission_denied.
Proof.
  unfold cmd_open.
  destruct (is_logged_in st); cbn; [|discriminate].
  destruct (path_to_inode st path) as [n|]; [|discriminate].
  unfold is_regular_file.
  destruct (read_inode st n) as [inode|] eqn:Hr; cbn; [|discriminate].
  destruct (Z.land (i_mode inode) 61440 =? EXT2_S_IFREG); cbn; [|discriminate].
  rewrite open_access_rdonly, (check_permission_no_bits _ _ _ Hr). cbn.
  destruct (find_free_slot (open_files st) 0); discriminate.
Qed.

(** C5: [/p] is a regular file with permission bits 0000 owned by root;
    alice, who is neither its owner nor in its group, has no permission bit
    on it (no non-empty mask passes [check_permission], in particular not
    the read masks 256 and 4), and yet [cmd_open] with [flags = 0] returns
    the descriptor 3 instead of failing with "Permission denied". *)
Theorem cmd_open_rdonly_ignores_read_permission :
  let st := session locked_image alice 2000 in
  @is_regular_file classic_header st 11 = true
  ∧ check_permission st 11 256 = false
  ∧ check_permission st 11 4 = false
  ∧ (@cmd_open classic_header one_entry_directory st "/p" O_RDONLY).2
    = (3, File_opened "/p" 3)
  ∧ (@cmd_open triple_header one_entry_directory st "/p" O_RDONLY).2
    = (3, File_opened "/p" 3).
Proof. repeat split; vm_compute; reflexivity. Qed.

(** A descriptor whose flags are 0 is refused by [cmd_read]. *)
Lemma cmd_read_flags_zero_refused (st : filesystem) (fd size : Z) (slot : nat)
    (file : open_file_t) :
  is_logged_in st = true →
  find_open_slot (open_files st) fd 0 = Some (slot, file) →
  OpenFile.flags file = O_RDONLY →
  cmd_read st fd size = (st, (-1, Error_File_not_opened_for_reading), []).
Proof.
  intros Hl Hs Hz. unfold cmd_read. rewrite Hl, Hs, Hz. reflexivity.
Qed.

(** C6: root opens its own file [/p] (mode 0644, 2048 bytes) with
    [flags = 0] and gets the descriptor 3; [cmd_read] on that descriptor is
    refused with "File not opened for reading": nothing is read, the state
    and the offset stay as they were. *)
Theorem cmd_read_refuses_read_only_descriptor :
  let opened :=
    @cmd_open classic_header one_entry_directory
      (session two_block_image root_user 2000) "/p" O_RDONLY in
  opened.2 = (3, File_opened "/p" 3)
  ∧ get_file_size opened.1 11 = 2048
  ∧ cmd_read opened.1 3 5
    = (opened.1, (-1, Error_File_not_opened_for_reading), []).
Proof. repeat split; vm_compute; reflexivity. Qed.

(** ** Writing, reading and truncating *)

(** C1: on the new file (inode 11, size 0) [write_inode_data] reports the
    5 bytes of "hello" written at offset 0, and the [read_inode_data] that
    follows returns 0 bytes, not "hello": the size on the image is still 0.
    The bytes themselves are in the file's block. *)
Theorem write_then_read_returns_nothing :
  let st := at_time 2000 new_file_state in
  let written := write_inode_data st 11 hello 5 0 in
  written.2 = 5
  ∧ (read_inode_data written.1 11 5 0).2 = (0, [])
  ∧ (get_inode_block written.1 11 0 ≫= read_block written.1)
    = Some (hello ++ replicate 1019 0).
Proof. repeat split; vm_compute; reflexivity. Qed.

(** C2: on the new file (size 0) [write_inode_data] returns 5 for a write
    of 5 bytes at offset 0; the record on the image then has mtime and
    ctime set to the time of the call, but its size is still 0 and its
    block count 0, where max(0, 0 + 5) = 5 and ceil(5 / 1024) = 1. *)
Theorem write_inode_data_leaves_size :
  let st := at_time 2000 new_file_state in
  let written := write_inode_data st 11 hello 5 0 in
  (i_size <$> read_inode st 11) = Some 0
  ∧ written.2 = 5
  ∧ (i_size <$> read_inode written.1 11) = Some 0
  ∧ (i_blocks <$> read_inode written.1 11) = Some 0
  ∧ (i_mtime <$> read_inode st 11) = Some 1000
  ∧ (i_mtime <$> read_inode written.1 11) = Some 2000
  ∧ (i_ctime <$> read_inode written.1 11) = Some 2000.
Proof. repeat split; vm_compute; reflexivity. Qed.

(** The same on the image that [cmd_format] itself leaves: the first inode
    created there is 11, the write reports 5 bytes, the read returns none
    and the size on the image is 0. *)
Lemma write_then_read_on_formatted_image :
  let made := create_inode formatted_state 33188 0 0 in
  let written := write_inode_data made.1 11 hello 5 0 in
  made.2 = 11
  ∧ written.2 = 5
  ∧ (read_inode_data written.1 11 5 0).2 = (0, [])
  ∧ get_file_size written.1 11 = 0.
Proof. repeat split; vm_compute; reflexivity. Qed.

(** Inside the current size the bytes written are read back, here across
    the boundary between the two blocks of the file. *)
Lemma write_then_read_inside_file :
  let st := session two_block_image root_user 2000 in
  let written := write_inode_data st 11 hello 5 1022 in
  written.2 = 5
  ∧ (read_inode_data written.1 11 5 1022).2 = (5, hello).
Proof. split; vm_compute; reflexivity. Qed.

(** Truncating to a length that is not below the size changes nothing. *)
Lemma truncate_inode_not_below_size (st : filesystem) (n length : Z)
    (inode : ext2_inode_t) :
  read_inode st n = Some inode → i_size inode ≤ length →
  truncate_inode st n length = (st, 0).
Proof.
  intros Hr Hl. unfold truncate_inode. rewrite Hr.
  destruct (Z.geb_spec length (i_size inode)); [reflexivity | lia].
Qed.

(** C7: the file of inode 11 has 2048 bytes in blocks 20 and 21 and was
    last changed at time 1000.  [truncate_inode] to length 0 at time 2000
    succeeds, frees both blocks in the bitmap and sets size and block count
    to 0, but the record it leaves on the image still points to blocks 20
    and 21 and still carries mtime = ctime = 1000: the record written last
    is the copy read on entry.  A length that is not below the size leaves
    the image as it is. *)
Theorem truncate_inode_keeps_pointers_and_times :
  let st := session two_block_image root_user 2000 in
  let cut := truncate_inode st 11 0 in
  truncate_inode st 11 2048 = (st, 0)
  ∧ cut.2 = 0
  ∧ Z.testbit (block_bitmap st) 20 = true
  ∧ Z.testbit (block_bitmap cut.1) 20 = false
  ∧ Z.testbit (block_bitmap cut.1) 21 = false
  ∧ read_inode cut.1 11
    = Some (mk_inode 33188 0 0 1000 1000 1000 0 0 1 0 0
              (<[1%nat := 21]> (<[0%nat := 20]> (replicate 15 0)))).
Proof. repeat split; vm_compute; reflexivity. Qed.

(** ** The disk layer: what each primitive changes *)

Lemma u32_dec_inc (c : Z) : 0 ≤ c < 2 ^ 32 → u32 (u32 (c - 1) + 1) = c.
Proof. unfold u32. intros. Z.div_mod_to_equations. lia. Qed.

Lemma set_s_free_inodes_count_twice (a b : Z) (s : ext2_superblock_t) :
  set_s_free_inodes_count a (set_s_free_inodes_count b s)
  = set_s_free_inodes_count a s.
Proof. reflexivity. Qed.

Lemma set_s_free_inodes_count_same (s : ext2_superblock_t) :
  set_s_free_inodes_count (s_free_inodes_count s) s = s.
Proof. destruct s; reflexivity. Qed.

Lemma find_first_zero_spec (bm : Z) (count : nat) :
  ∀ from i, find_first_zero bm from count = Some i →
    from ≤ i < from + Z.of_nat count ∧ Z.testbit bm i = false.
Proof.
  induction count as [|k IH]; intros from i Hf; simpl in Hf; [discriminate|].
  destruct (Z.testbit bm from) eqn:Hb.
  - destruct (IH _ _ Hf) as [Hr Ht]. split; [lia | exact Ht].
  - injection Hf as <-. split; [lia | exact Hb].
Qed.

Lemma clearbit_setbit (bm i : Z) :
  0 ≤ i → Z.testbit bm i = false → Z.clearbit (Z.setbit bm i) i = bm.
Proof.
  intros Hi Hb. apply Z.bits_inj'. intros k Hk.
  rewrite Z.clearbit_eqb, Z.setbit_eqb by lia.
  destruct (Z.eqb_spec i k) as [->|]; [rewrite Hb; reflexivity|].
  cbn. apply andb_true_r.
Qed.

Lemma read_inode_Some (st : filesystem) (n : Z) (inode : ext2_inode_t) :
  read_inode st n = Some inode →
  ∃ d, image st = Some d ∧ valid_inode_no n = true
       ∧ inode = default zero_inode (d_inodes d !! n).
Proof.
  unfold read_inode. destruct (image st) as [d|]; [|discriminate].
  destruct (valid_inode_no n); [|discriminate].
  intros [= <-]. eauto.
Qed.

Lemma write_inode_Some (st : filesystem) (n : Z) (i : ext2_inode_t) (d : disk) :
  image st = Some d → valid_inode_no n = true →
  write_inode st n i
  = (with_disk (mk_disk (d_super d) (d_block_bitmap d) (d_inode_bitmap d)
                  (<[n := i]> (d_inodes d)) (d_data d)) st, 0).
Proof. intros Hd Hv. unfold write_inode. rewrite Hd, Hv. reflexivity. Qed.

Lemma read_inode_with_disk (st : filesystem) (d : disk) (n : Z) :
  valid_inode_no n = true →
  read_inode (with_disk d st) n = Some (default zero_inode (d_inodes d !! n)).
Proof. intros Hv. unfold read_inode. cbn. rewrite Hv. reflexivity. Qed.

(** Writing a record stores it, whatever was on the image before. *)
Lemma read_after_write_inode (st : filesystem) (n : Z) (i old : ext2_inode_t) :
  read_inode st n = Some old →
  (write_inode st n i).2 = 0 ∧ read_inode (write_inode st n i).1 n = Some i.
Proof.
  intros Hr. apply read_inode_Some in Hr as (d & Hd & Hv & _).
  rewrite (write_inode_Some _ _ _ _ Hd Hv). cbn [fst snd]. split; [reflexivity|].
  rewrite read_inode_with_disk by exact Hv. cbn.
  rewrite lookup_insert_eq. reflexivity.
Qed.

Lemma read_inode_update_ctime (st : filesystem) (n : Z) (old : ext2_inode_t) :
  read_inode st n = Some old →
  read_inode (update_ctime st n) n = Some (set_i_ctime (u32 (now st)) old).
Proof.
  intros Hr. unfold update_ctime. rewrite Hr.
  apply (read_after_write_inode _ _ _ _ Hr).
Qed.

(** ** Changing mode and owner *)

Lemma change_permission_ok (st : filesystem) (n mode : Z) (inode : ext2_inode_t) :
  read_inode st n = Some inode →
  (change_permission st n mode).2 = 0
  ∧ read_inode (change_permission st n mode).1 n
    = Some (set_i_mode (Z.lor (Z.land (i_mode inode) 61440) (Z.land mode 4095))
              inode).
Proof.
  intros Hr. unfold change_permission. rewrite Hr.
  apply (read_after_write_inode _ _ _ _ (read_inode_update_ctime _ _ _ Hr)).
Qed.

Lemma change_owner_ok (st : filesystem) (n uid gid : Z) (inode : ext2_inode_t) :
  read_inode st n = Some inode →
  (change_owner st n uid gid).2 = 0
  ∧ read_inode (change_owner st n uid gid).1 n
    = Some (set_i_owner uid gid inode).
Proof.
  intros Hr. unfold change_owner. rewrite Hr.
  apply (read_after_write_inode _ _ _ _ (read_inode_update_ctime _ _ _ Hr)).
Qed.

(** C10: for a logged-in user and a path that resolves to an inode,
    [cmd_chmod] and [cmd_chown] succeed and store the requested mode bits
    and owner.  No hypothesis relates the current user to the owner, the
    group or the permission bits of the inode: the command layer checks
    nothing beyond the login. *)
Theorem cmd_chmod_chown_check_login_only `{DirectoryLayer}
    (st : filesystem) (path : string) (n : Z) (inode : ext2_inode_t)
    (mode uid gid : Z) :
  is_logged_in st = true →
  path_to_inode st path = Some n →
  read_inode st n = Some inode →
  (cmd_chmod st path mode).2 = (0, Permissions_changed path)
  ∧ read_inode (cmd_chmod st path mode).1 n
    = Some (set_i_mode (Z.lor (Z.land (i_mode inode) 61440) (Z.land mode 4095))
              inode)
  ∧ (cmd_chown st path uid gid).2 = (0, Owner_changed path)
  ∧ read_inode (cmd_chown st path uid gid).1 n
    = Some (set_i_owner uid gid inode).
Proof.
  intros Hl Hp Hr. unfold cmd_chmod, cmd_chown. rewrite Hl, Hp. cbn [negb].
  destruct (change_permission_ok st n mode inode Hr) as [Hc1 Hc2].
  destruct (change_owner_ok st n uid gid inode Hr) as [Ho1 Ho2].
  destruct (change_permission st n mode) as [s1 r1].
  destruct (change_owner st n uid gid) as [s2 r2].
  cbn [fst snd] in *. subst r1 r2. cbn. auto.
Qed.

(** Alice, who owns nothing and has no permission bit on root's file [/p]
    (mode 0000), makes it 0777 and takes it over. *)
Lemma cmd_chmod_chown_check_login_only_witness :
  let st := session locked_image alice 2000 in
  (is_logged_in st = true
   ∧ @path_to_inode one_entry_directory st "/p" = Some 11
   ∧ read_inode st 11 = Some locked_file)
  ∧ (@cmd_chmod one_entry_directory st "/p" 511).2
    = (0, Permissions_changed "/p")
  ∧ (@cmd_chown one_entry_directory st "/p" 1000 1000).2
    = (0, Owner_changed "/p").
Proof.
  intros st.
  assert (Hl : is_logged_in st = true) by reflexivity.
  assert (Hp : @path_to_inode one_entry_directory st "/p" = Some 11)
    by reflexivity.
  assert (Hr : read_inode st 11 = Some locked_file) by (vm_compute; reflexivity).
  split; [auto|].
  destruct (@cmd_chmod_chown_check_login_only one_entry_directory st "/p" 11
              locked_file 511 1000 1000 Hl Hp Hr) as (H1 & _ & H3 & _).
  split; assumption.
Defined.

(** ** Creating and deleting inodes *)

Lemma write_inode_frame (st : filesystem) (n : Z) (i : ext2_inode_t) :
  block_bitmap (write_inode st n i).1 = block_bitmap st
  ∧ inode_bitmap (write_inode st n i).1 = inode_bitmap st
  ∧ superblock (write_inode st n i).1 = superblock st
  ∧ open_files (write_inode st n i).1 = open_files st
  ∧ (is_Some (image st) → is_Some (image (write_inode st n i).1)).
Proof.
  unfold write_inode, block_bitmap, inode_bitmap.
  destruct (image st) as [d|] eqn:Hd; [destruct (valid_inode_no n)|];
    cbn; rewrite ?Hd; auto 10.
Qed.

Lemma free_inode_allocated (st : filesystem) (n : Z) :
  is_Some (image st) → valid_inode_no n = true →
  Z.testbit (inode_bitmap st) (n - 1) = true →
  block_bitmap (free_inode st n) = block_bitmap st
  ∧ inode_bitmap (free_inode st n) = Z.clearbit (inode_bitmap st) (n - 1)
  ∧ superblock (free_inode st n)
    = set_s_free_inodes_count (u32 (s_free_inodes_count (superblock st) + 1))
        (superblock st)
  ∧ open_files (free_inode st n) = open_files st.
Proof.
  unfold free_inode, block_bitmap, inode_bitmap, valid_inode_no.
  intros [d Hd] Hv Hb. rewrite Hd in *. rewrite Hv, Hb. cbn. auto.
Qed.

Lemma free_inode_frame (st : filesystem) (n : Z) :
  block_bitmap (free_inode st n) = block_bitmap st
  ∧ open_files (free_inode st n) = open_files st
  ∧ read_inode (free_inode st n) n = read_inode st n
  ∧ (valid_inode_no n = true → is_Some (image st) →
     Z.testbit (inode_bitmap (free_inode st n)) (n - 1) = false).
Proof.
  unfold free_inode, block_bitmap, inode_bitmap, read_inode, valid_inode_no.
  destruct (image st) as [d|] eqn:Hd; [|rewrite Hd; repeat split; auto;
    intros _ [? [=]]].
  destruct ((1 <=? n) && (n <=? MAX_INODES)) eqn:Hv; cbn; rewrite ?Hd, ?Hv.
  - destruct (Z.testbit (d_inode_bitmap d) (n - 1)) eqn:Hb; cbn;
      rewrite ?Hd, ?Hv; repeat split; auto using Z.clearbit_eq.
  - repeat split; auto. discriminate.
Qed.

(** What a successful [create_inode] leaves: the lowest free inode from
    [FIRST_INO] on, marked used, counted, and holding the new record. *)
Lemma create_inode_success (st st1 : filesystem) (mode uid gid ino : Z) :
  create_inode st mode uid gid = (st1, ino) → ino ≠ -1 →
  ∃ d i,
    image st = Some d
    ∧ 0 ≤ i ∧ valid_inode_no ino = true ∧ ino = i + 1
    ∧ Z.testbit (d_inode_bitmap d) i = false
    ∧ block_bitmap st1 = d_block_bitmap d
    ∧ inode_bitmap st1 = Z.setbit (d_inode_bitmap d) i
    ∧ superblock st1
      = set_s_free_inodes_count (u32 (s_free_inodes_count (superblock st) - 1))
          (superblock st)
    ∧ read_inode st1 ino
      = Some (mk_inode mode uid 0 (u32 (now st)) (u32 (now st)) (u32 (now st))
                0 gid 1 0 0 (replicate 15 0)).
Proof.
  unfold create_inode, allocate_inode.
  destruct (image st) as [d|] eqn:Hd; [|cbn; intros [= _ <-]; congruence].
  destruct (find_first_zero _ _ _) as [i|] eqn:Hf;
    [|cbn; intros [= _ <-]; congruence].
  apply find_first_zero_spec in Hf as [Hi Hb].
  assert (Hv : valid_inode_no (i + 1) = true).
  { unfold valid_inode_no, FIRST_INO, MAX_INODES in *.
    apply andb_true_intro. split; [apply Z.leb_le | apply Z.leb_le]; lia. }
  assert (Hz : (i + 1 =? 0) = false) by (apply Z.eqb_neq; unfold FIRST_INO in *; lia).
  rewrite Hz. unfold write_inode. cbn [image with_image]. rewrite Hv.
  cbn [negb Z.eqb]. intros [= <- <-] _.
  exists d, i. unfold block_bitmap, inode_bitmap, read_inode. cbn.
  rewrite Hv. cbn. rewrite lookup_insert_eq.
  unfold FIRST_INO in *. repeat split; auto; lia.
Qed.

Lemma fold_free_nonzero_zeros (k : nat) (st : filesystem) :
  fold_left free_nonzero (replicate k 0) st = st.
Proof. induction k as [|k IH]; [reflexivity | exact IH]. Qed.

(** Deleting an inode that maps no block frees no block. *)
Lemma delete_inode_without_blocks (st : filesystem) (n : Z)
    (inode : ext2_inode_t) :
  read_inode st n = Some inode → i_block inode = replicate 15 0 →
  delete_inode st n = (free_inode (write_inode st n zero_inode).1 n, 0).
Proof.
  intros Hr Hb. unfold delete_inode. rewrite Hr. unfold block_ptr. rewrite Hb.
  change (map (λ k : Z, nth (Z.to_nat k) (replicate 15 0) 0) (seqZ 0 12))
    with (replicate 12 0).
  rewrite fold_free_nonzero_zeros. reflexivity.
Qed.

(** When the failing [add_directory_entry] has itself left the bitmaps, the
    counters and the new record as it found them, the [delete_inode] of
    [cmd_create] gives back all that the call took: both bitmaps and the
    superblock with its free counts are what they were before the call. *)
Lemma cmd_create_releases_inode_on_failure `{Ext2Header} `{DirectoryLayer}
    (st st1 st2 : filesystem) (path child : string) (parent ino r : Z) :
  is_logged_in st = true →
  get_parent_inode st path = Some (parent, child) →
  parent ≠ 0 →
  is_directory st parent = true →
  check_permission st parent EXT2_S_IWUSR = true →
  0 ≤ s_free_inodes_count (superblock st) < 2 ^ 32 →
  create_inode st (u16 (Z.lor EXT2_S_IFREG 420))
    (get_current_uid st) (get_current_gid st) = (st1, ino) →
  ino ≠ -1 →
  add_directory_entry st1 parent child ino 1 = (st2, r) →
  r ≠ 0 →
  block_bitmap st2 = block_bitmap st1 →
  inode_bitmap st2 = inode_bitmap st1 →
  superblock st2 = superblock st1 →
  read_inode st2 ino = read_inode st1 ino →
  (cmd_create st path).2 = (-1, Error_Failed_to_add_directory_entry)
  ∧ block_bitmap (cmd_create st path).1 = block_bitmap st
  ∧ inode_bitmap (cmd_create st path).1 = inode_bitmap st
  ∧ superblock (cmd_create st path).1 = superblock st
  ∧ Z.testbit (inode_bitmap st) (ino - 1) = false.
Proof.
  intros Hl Hp Hp0 Hdir Hperm Hcnt Hc Hok Hadd Hr Hbb Hib Hsb Hino.
  destruct (create_inode_success _ _ _ _ _ _ Hc Hok)
    as (d & i & Hd & Hi & Hv & -> & Hfree & Hbb1 & Hib1 & Hsb1 & Hnew).
  assert (Hu : u32 (i + 1) = i + 1).
  { unfold u32. apply Z.mod_small. unfold valid_inode_no, MAX_INODES in Hv.
    apply andb_true_iff in Hv as [_ Hv]. apply Z.leb_le in Hv. lia. }
  unfold cmd_create. rewrite Hl, Hp. cbn [negb].
  rewrite (proj2 (Z.eqb_neq _ _) Hp0), Hdir, Hperm. cbn [negb].
  rewrite Hc, Hu.
  assert (Hz : (i + 1 =? 0) = false) by (apply Z.eqb_neq; lia).
  rewrite Hz, Hadd, (proj2 (Z.eqb_neq _ _) Hr). cbn [negb fst snd].
  rewrite Hnew in Hino.
  rewrite (delete_inode_without_blocks _ _ _ Hino eq_refl). cbn [fst].
  destruct (write_inode_frame st2 (i + 1) zero_inode)
    as (Wbb & Wib & Wsb & _ & Wim).
  assert (Him : is_Some (image st2)).
  { apply read_inode_Some in Hino as (d2 & Hd2 & _). rewrite Hd2. eauto. }
  destruct (free_inode_allocated (write_inode st2 (i + 1) zero_inode).1 (i + 1))
    as (Fbb & Fib & Fsb & _); [auto | exact Hv | |].
  { rewrite Wib, Hib, Hib1. replace (i + 1 - 1) with i by lia.
    apply Z.setbit_eq. exact Hi. }
  rewrite Fbb, Fib, Fsb, Wbb, Wib, Wsb, Hbb, Hib, Hsb, Hbb1, Hib1, Hsb1.
  unfold block_bitmap, inode_bitmap. rewrite Hd.
  replace (i + 1 - 1) with i by lia.
  repeat split; auto.
  - apply clearbit_setbit; assumption.
  - cbn [s_free_inodes_count set_s_free_inodes_count].
    rewrite set_s_free_inodes_count_twice, u32_dec_inc by exact Hcnt.
    apply set_s_free_inodes_count_same.
Qed.


(** ** Releasing blocks *)

Lemma frees_only_refl (st : filesystem) : frees_only st st.
Proof. unfold frees_only. auto 10. Qed.

Lemma frees_only_trans (a b c : filesystem) :
  frees_only a b → frees_only b c → frees_only a c.
Proof.
  intros (A1 & A2 & A3 & A4 & A5) (B1 & B2 & B3 & B4 & B5).
  unfold frees_only. repeat split; try congruence; auto.
Qed.

Lemma free_block_frees_only (st : filesystem) (n : Z) :
  frees_only st (free_block st n).
Proof.
  unfold free_block.
  destruct (image st) as [d|] eqn:Hd; [|apply frees_only_refl].
  destruct ((0 <=? n) && (n <? MAX_BLOCKS) && Z.testbit (d_block_bitmap d) n);
    [|apply frees_only_refl].
  unfold frees_only, inode_bitmap, block_bitmap, read_inode, read_block.
  cbn. rewrite Hd. repeat split; auto.
  intros p Hp. rewrite Z.clearbit_eqb, Hp. reflexivity.
Qed.

Lemma free_block_clears (st : filesystem) (n : Z) :
  n < MAX_BLOCKS → Z.testbit (block_bitmap (free_block st n)) n = false.
Proof.
  intros Hn. destruct (Z.ltb_spec n 0) as [Hneg|Hpos];
    [apply Z.testbit_neg_r; exact Hneg|].
  unfold free_block, block_bitmap.
  destruct (image st) as [d|] eqn:Hd; [|rewrite Hd; apply Z.bits_0].
  rewrite (proj2 (Z.leb_le 0 n) Hpos), (proj2 (Z.ltb_lt n MAX_BLOCKS) Hn).
  cbn [andb].
  destruct (Z.testbit (d_block_bitmap d) n) eqn:Hb; cbn.
  - apply Z.clearbit_eq.
  - rewrite Hd. exact Hb.
Qed.

Lemma free_nonzero_frees_only (st : filesystem) (b : Z) :
  frees_only st (free_nonzero st b).
Proof.
  unfold free_nonzero. destruct (b =? 0);
    [apply frees_only_refl | apply free_block_frees_only].
Qed.

Lemma fold_free_nonzero_frees_only (l : list Z) :
  ∀ st, frees_only st (fold_left free_nonzero l st).
Proof.
  induction l as [|b l IH]; intros st; [apply frees_only_refl|].
  cbn. eapply frees_only_trans; [apply free_nonzero_frees_only | apply IH].
Qed.

(** Every non-zero block number of the list ends up free. *)
Lemma fold_free_nonzero_clears (l : list Z) (x : Z) :
  In x l → x ≠ 0 → x < MAX_BLOCKS →
  ∀ st, Z.testbit (block_bitmap (fold_left free_nonzero l st)) x = false.
Proof.
  intros Hin Hx Hlt. induction l as [|b l IH]; [destruct Hin|].
  intros st. cbn. destruct Hin as [->|Hin]; [|apply IH; exact Hin].
  destruct (fold_free_nonzero_frees_only l (free_nonzero st x))
    as (_ & _ & _ & _ & Hmono).
  apply Hmono. unfold free_nonzero.
  rewrite (proj2 (Z.eqb_neq x 0) Hx). apply free_block_clears. exact Hlt.
Qed.

Lemma In_seqZ (m n k : Z) : m ≤ k < m + n → In k (seqZ m n).
Proof. intros Hk. apply list_elem_of_In, elem_of_seqZ. exact Hk. Qed.

(** [delete_inode] on a readable inode: status 0; the record is zeroed and
    the inode's bit cleared; every direct block, the indirect block and
    every block listed in it is free afterwards; the open-file table is not
    looked at. *)
Lemma delete_inode_releases (st : filesystem) (n : Z) (inode : ext2_inode_t) :
  read_inode st n = Some inode →
  (delete_inode st n).2 = 0
  ∧ open_files (delete_inode st n).1 = open_files st
  ∧ read_inode (delete_inode st n).1 n = Some zero_inode
  ∧ Z.testbit (inode_bitmap (delete_inode st n).1) (n - 1) = false
  ∧ (∀ k, 0 ≤ k ≤ 12 → block_ptr inode k ≠ 0 → block_ptr inode k < MAX_BLOCKS →
       Z.testbit (block_bitmap (delete_inode st n).1) (block_ptr inode k) = false)
  ∧ (∀ indirect_blocks j,
       block_ptr inode 12 ≠ 0 →
       read_block st (block_ptr inode 12) = Some indirect_blocks →
       0 ≤ j < BLOCK_SIZE / 4 →
       get_u32 indirect_blocks j ≠ 0 → get_u32 indirect_blocks j < MAX_BLOCKS →
       Z.testbit (block_bitmap (delete_inode st n).1)
         (get_u32 indirect_blocks j) = false).
Proof.
  intros Hr. unfold delete_inode. rewrite Hr.
  set (direct := map (block_ptr inode) (seqZ 0 12)).
  set (s1 := fold_left free_nonzero direct st).
  assert (F1 : frees_only st s1) by apply fold_free_nonzero_frees_only.
  set (s1' := match read_block s1 (block_ptr inode 12) with
              | Some ib =>
                  fold_left free_nonzero
                    (map (get_u32 ib) (seqZ 0 (BLOCK_SIZE / 4))) s1
              | None => s1
              end).
  assert (F1' : frees_only s1 s1').
  { subst s1'. destruct (read_block s1 (block_ptr inode 12));
      [apply fold_free_nonzero_frees_only | apply frees_only_refl]. }
  set (s2 := if block_ptr inode 12 =? 0 then s1
             else free_block s1' (block_ptr inode 12)).
  assert (F2 : frees_only s1 s2).
  { subst s2. destruct (block_ptr inode 12 =? 0); [apply frees_only_refl|].
    eapply frees_only_trans; [exact F1' | apply free_block_frees_only]. }
  pose proof (frees_only_trans _ _ _ F1 F2) as F.
  destruct F as (Fib & Fof & Fri & Frb & Fmono).
  assert (Hr2 : read_inode s2 n = Some inode) by (rewrite Fri; exact Hr).
  destruct (read_inode_Some _ _ _ Hr2) as (d2 & Hd2 & Hv & _).
  destruct (write_inode_frame s2 n zero_inode) as (Wbb & Wib & Wsb & Wof & Wim).
  destruct (read_after_write_inode s2 n zero_inode inode Hr2) as [_ Hz].
  set (s3 := (write_inode s2 n zero_inode).1) in *.
  destruct (free_inode_frame s3 n) as (Ebb & Eof & Eri & Ebit).
  cbn [fst snd]. rewrite Ebb, Eof, Eri, Wbb, Wof.
  assert (Hbit : Z.testbit (inode_bitmap (free_inode s3 n)) (n - 1) = false)
    by (apply Ebit; [exact Hv | apply Wim; rewrite Hd2; eauto]).
  split; [reflexivity|]. split; [congruence|]. split; [exact Hz|].
  split; [exact Hbit|]. split.
  - intros k Hk Hnz Hlt. destruct (Z.eq_dec k 12) as [->|Hk12].
    + subst s2. rewrite (proj2 (Z.eqb_neq _ _) Hnz).
      apply free_block_clears. exact Hlt.
    + destruct F2 as (_ & _ & _ & _ & Hmono2). apply Hmono2.
      subst s1 direct. apply fold_free_nonzero_clears; auto.
      apply in_map, In_seqZ. lia.
  - intros ib j Hnz Hrb Hj Hez Hlt.
    subst s2. rewrite (proj2 (Z.eqb_neq _ _) Hnz).
    destruct (free_block_frees_only s1' (block_ptr inode 12))
      as (_ & _ & _ & _ & Hmono3).
    apply Hmono3. subst s1'.
    destruct F1 as (_ & _ & _ & Frb1 & _). rewrite Frb1, Hrb.
    apply fold_free_nonzero_clears; auto.
    apply in_map, In_seqZ. lia.
Qed.

(** C9: when [cmd_delete] passes its checks and the directory entry is
    removed, the deletion succeeds whatever the open-file table holds: the
    table is left as it was, so a slot opened on the file keeps its inode
    number, while the inode's record is zeroed, its bitmap bit cleared, and
    its direct blocks, its indirect block and the blocks listed there are
    free. *)
Theorem cmd_delete_frees_inode_under_open_handles `{Ext2Header} `{DirectoryLayer}
    (st st1 : filesystem) (path child : string) (parent n : Z)
    (inode : ext2_inode_t) :
  is_logged_in st = true →
  path_to_inode st path = Some n →
  is_directory st n = false →
  check_permission st n EXT2_S_IWUSR = true →
  get_parent_inode st path = Some (parent, child) →
  remove_directory_entry st parent child = (st1, 0) →
  open_files st1 = open_files st →
  read_inode st1 n = Some inode →
  (cmd_delete st path).2 = (0, File_deleted path)
  ∧ open_files (cmd_delete st path).1 = open_files st
  ∧ read_inode (cmd_delete st path).1 n = Some zero_inode
  ∧ Z.testbit (inode_bitmap (cmd_delete st path).1) (n - 1) = false
  ∧ (∀ k, 0 ≤ k ≤ 12 → block_ptr inode k ≠ 0 → block_ptr inode k < MAX_BLOCKS →
       Z.testbit (block_bitmap (cmd_delete st path).1) (block_ptr inode k) = false)
  ∧ (∀ indirect_blocks j,
       block_ptr inode 12 ≠ 0 →
       read_block st1 (block_ptr inode 12) = Some indirect_blocks →
       0 ≤ j < BLOCK_SIZE / 4 →
       get_u32 indirect_blocks j ≠ 0 → get_u32 indirect_blocks j < MAX_BLOCKS →
       Z.testbit (block_bitmap (cmd_delete st path).1)
         (get_u32 indirect_blocks j) = false).
Proof.
  intros Hl Hp Hdir Hperm Hpar Hrm Hof Hr.
  destruct (delete_inode_releases st1 n inode Hr)
    as (D0 & D1 & D2 & D3 & D4 & D5).
  unfold cmd_delete. rewrite Hl, Hp, Hdir, Hperm, Hpar, Hrm. cbn [negb Z.eqb].
  destruct (delete_inode st1 n) as [st2 r2]. cbn [fst snd] in *. subst r2.
  cbn [negb Z.eqb fst snd].
  split; [reflexivity|]. split; [congruence|]. auto.
Qed.

(** Root opens [/p] for reading and writing (descriptor 3, slot 0), then
    deletes it: the slot still names inode 11, whose record is now zero and
    whose blocks 20 and 21 are free. *)
Lemma cmd_delete_frees_inode_under_open_handles_witness :
  let st :=
    (@cmd_open triple_header one_entry_directory
       (session two_block_image root_user 2000) "/p" O_RDWR).1 in
  let gone := @cmd_delete triple_header one_entry_directory st "/p" in
  (open_files st !! 0%nat = Some (OpenFile.mk 3 11 O_RDWR 0 true)
   ∧ read_inode st 11 = Some two_block_file)
  ∧ gone.2 = (0, File_deleted "/p")
  ∧ open_files gone.1 !! 0%nat = Some (OpenFile.mk 3 11 O_RDWR 0 true)
  ∧ read_inode gone.1 11 = Some zero_inode
  ∧ Z.testbit (inode_bitmap gone.1) 10 = false
  ∧ Z.testbit (block_bitmap gone.1) 20 = false
  ∧ Z.testbit (block_bitmap gone.1) 21 = false.
Proof.
  intros st gone.
  assert (Hs : open_files st !! 0%nat = Some (OpenFile.mk 3 11 O_RDWR 0 true))
    by (vm_compute; reflexivity).
  assert (Hr : read_inode st 11 = Some two_block_file)
    by (vm_compute; reflexivity).
  assert (Hl : is_logged_in st = true) by reflexivity.
  assert (Hp : @path_to_inode one_entry_directory st "/p" = Some 11)
    by reflexivity.
  assert (Hd : @is_directory triple_header st 11 = false)
    by (vm_compute; reflexivity).
  assert (Hw : check_permission st 11 (@EXT2_S_IWUSR triple_header) = true)
    by (vm_compute; reflexivity).
  assert (Hg : @get_parent_inode one_entry_directory st "/p"
               = Some (2, "p"%string)) by reflexivity.
  assert (Hm : @remove_directory_entry one_entry_directory st 2 "p" = (st, 0))
    by reflexivity.
  destruct (@cmd_delete_frees_inode_under_open_handles triple_header
              one_entry_directory st st "/p" "p" 2 11 two_block_file
              Hl Hp Hd Hw Hg Hm eq_refl Hr)
    as (H1 & H2 & H3 & H4 & H5 & _).
  split; [split; assumption|].
  split; [exact H1|]. split; [fold gone in H2; rewrite H2; exact Hs|].
  split; [exact H3|]. split; [exact H4|].
  split.
  - apply (H5 0); [lia | discriminate | reflexivity].
  - apply (H5 1); [lia | discriminate | reflexivity].
Defined.

(** ** The loops, and the size on the image *)

(** Every turn of the two loops handles at least one byte. *)
Lemma bytes_in_block_positive (current_offset : Z) :
  1 ≤ u32 (BLOCK_SIZE - u32 (Z.rem current_offset BLOCK_SIZE)).
Proof.
  unfold u32, BLOCK_SIZE.
  assert (Hr : -1024 < Z.rem current_offset 1024 < 1024).
  { pose proof (Z.rem_bound_abs current_offset 1024 ltac:(lia)). lia. }
  generalize dependent (Z.rem current_offset 1024). intros r Hr.
  Z.div_mod_to_equations. lia.
Qed.

(** The loops are over before [remaining] turns: any two amounts of fuel
    above [remaining] give the same result, so the fuel chosen by
    [read_inode_data] and [write_inode_data] never runs out. *)
Lemma read_loop_fuel (st : filesystem) (inode_no isize : Z) :
  ∀ f1 f2 bytes_read copied remaining current_offset,
    (Z.to_nat remaining ≤ f1)%nat → (Z.to_nat remaining ≤ f2)%nat →
    read_loop f1 st inode_no isize bytes_read copied remaining current_offset
    = read_loop f2 st inode_no isize bytes_read copied remaining current_offset.
Proof.
  induction f1 as [|f1 IH]; intros [|f2] br copied rem co H1 H2;
    cbn [read_loop]; try reflexivity.
  - destruct (Z.ltb_spec 0 rem); [lia | reflexivity].
  - destruct (Z.ltb_spec 0 rem); [lia | reflexivity].
  - destruct (Z.ltb_spec 0 rem) as [Hpos|]; [|reflexivity].
    destruct (Z.ltb_spec co isize) as [Hlt|]; [|reflexivity]. cbn [andb].
    pose proof (bytes_in_block_positive co) as Hb.
    repeat case_match; try reflexivity; subst;
      apply IH; repeat match goal with
        | H : (_ >? _) = true |- _ => apply Z.gtb_lt in H
        | H : (_ >? _) = false |- _ => apply Z.gtb_ltb in H end; try lia.
Qed.

Lemma write_loop_fuel (inode_no : Z) (buffer : list Z) :
  ∀ f1 f2 st bytes_written remaining current_offset,
    (Z.to_nat remaining ≤ f1)%nat → (Z.to_nat remaining ≤ f2)%nat →
    write_loop f1 st inode_no buffer bytes_written remaining current_offset
    = write_loop f2 st inode_no buffer bytes_written remaining current_offset.
Proof.
  induction f1 as [|f1 IH]; intros [|f2] st bw rem co H1 H2;
    cbn [write_loop]; try reflexivity.
  - destruct (Z.ltb_spec 0 rem); [lia | reflexivity].
  - destruct (Z.ltb_spec 0 rem); [lia | reflexivity].
  - destruct (Z.ltb_spec 0 rem) as [Hpos|]; [|reflexivity].
    pose proof (bytes_in_block_positive co) as Hb.
    repeat case_match; try reflexivity; subst;
      apply IH; repeat match goal with
        | H : (_ >? _) = true |- _ => apply Z.gtb_lt in H
        | H : (_ >? _) = false |- _ => apply Z.gtb_ltb in H end; try lia.
Qed.

Lemma sizes_kept_refl (st : filesystem) : sizes_kept st st.
Proof. intros n. reflexivity. Qed.

Lemma sizes_kept_trans (a b c : filesystem) : sizes_kept a b → sizes_kept b c → sizes_kept a c.
Proof. intros H1 H2 n. rewrite H2. apply H1. Qed.

Lemma sizes_kept_same_inodes (a b : filesystem) :
  (∀ n, read_inode b n = read_inode a n) → sizes_kept a b.
Proof. intros H n. rewrite H. reflexivity. Qed.

Lemma allocate_block_read_inode (st : filesystem) (n : Z) :
  read_inode (allocate_block st).1 n = read_inode st n.
Proof.
  unfold allocate_block. destruct (image st) as [d|] eqn:Hd; [|reflexivity].
  destruct (find_first_zero _ _ _); [|reflexivity].
  unfold read_inode. cbn. rewrite Hd. reflexivity.
Qed.

Lemma write_block_read_inode (st : filesystem) (k : Z) (b : block) (n : Z) :
  read_inode (write_block st k b).1 n = read_inode st n.
Proof.
  unfold write_block. destruct (image st) as [d|] eqn:Hd; [|reflexivity].
  destruct (is_data_block k); [|reflexivity].
  unfold read_inode. cbn. rewrite Hd. reflexivity.
Qed.

Lemma write_inode_sizes_kept (st : filesystem) (m : Z) (i old : ext2_inode_t) :
  read_inode st m = Some old → size_fields i = size_fields old →
  sizes_kept st (write_inode st m i).1.
Proof.
  intros Hr Hs. destruct (read_inode_Some _ _ _ Hr) as (d & Hd & Hv & Hold).
  rewrite (write_inode_Some _ _ _ _ Hd Hv). cbn [fst].
  intros n. unfold read_inode. cbn. rewrite Hd.
  destruct (valid_inode_no n); [|reflexivity]. cbn.
  destruct (decide (m = n)) as [->|Hne].
  - rewrite lookup_insert_eq. cbn. rewrite Hs, Hold. reflexivity.
  - rewrite lookup_insert_ne by exact Hne. reflexivity.
Qed.

Lemma update_mtime_sizes_kept (st : filesystem) (n : Z) : sizes_kept st (update_mtime st n).
Proof.
  unfold update_mtime. destruct (read_inode st n) as [old|] eqn:Hr;
    [|apply sizes_kept_refl].
  apply (write_inode_sizes_kept _ _ _ old Hr). reflexivity.
Qed.

Lemma update_ctime_sizes_kept (st : filesystem) (n : Z) : sizes_kept st (update_ctime st n).
Proof.
  unfold update_ctime. destruct (read_inode st n) as [old|] eqn:Hr;
    [|apply sizes_kept_refl].
  apply (write_inode_sizes_kept _ _ _ old Hr). reflexivity.
Qed.

Lemma set_inode_block_sizes_kept (st : filesystem) (n k b : Z) :
  sizes_kept st (set_inode_block st n k b).1.
Proof.
  unfold set_inode_block. destruct (read_inode st n) as [inode|] eqn:Hr;
    [|apply sizes_kept_refl].
  destruct (k <? 12).
  { apply (write_inode_sizes_kept _ _ _ inode Hr). reflexivity. }
  destruct (k <? 12 + BLOCK_SIZE / 4); [|apply sizes_kept_refl].
  destruct (block_ptr inode 12 =? 0).
  - destruct (allocate_block st) as [st1 b1] eqn:Ha.
    assert (Hsame : ∀ m, read_inode st1 m = read_inode st m).
    { intros m. change st1 with (st1, b1).1. rewrite <- Ha.
      apply allocate_block_read_inode. }
    destruct (b1 =? 0); cbn [fst]; [apply sizes_kept_same_inodes, Hsame|].
    eapply sizes_kept_trans; [apply sizes_kept_same_inodes, Hsame|].
    eapply sizes_kept_trans;
      [apply sizes_kept_same_inodes; intros m; apply write_block_read_inode|].
    apply (write_inode_sizes_kept _ _ _ inode); [|reflexivity].
    rewrite write_block_read_inode, Hsame. exact Hr.
  - eapply sizes_kept_trans;
      [apply sizes_kept_same_inodes; intros m; apply write_block_read_inode|].
    apply (write_inode_sizes_kept _ _ _ inode); [|reflexivity].
    rewrite write_block_read_inode. exact Hr.
Qed.

Lemma free_block_sizes_kept (st : filesystem) (b : Z) : sizes_kept st (free_block st b).
Proof.
  apply sizes_kept_same_inodes.
  destruct (free_block_frees_only st b) as (_ & _ & H & _). exact H.
Qed.

Lemma write_loop_sizes_kept (inode_no : Z) (buffer : list Z) :
  ∀ fuel st bytes_written remaining current_offset,
    sizes_kept st
      (write_loop fuel st inode_no buffer bytes_written remaining
         current_offset).1.1.
Proof.
  induction fuel as [|fuel IH]; intros st bw rem co; cbn [write_loop];
    [apply sizes_kept_refl|].
  destruct (0 <? rem); [|apply sizes_kept_refl].
  destruct (get_inode_block st inode_no _) as [mapped|]; [|apply sizes_kept_refl].
  set (block_index := u32 (co ÷ BLOCK_SIZE)).
  assert (Hstep : sizes_kept st
            (if mapped =? 0
             then let '(sa, b) := allocate_block st in
                  if b =? 0 then (sa, None)
                  else let '(sb, r) := set_inode_block sa inode_no block_index b in
                       if negb (r =? 0) then (free_block sb b, None)
                       else (sb, Some b)
             else (st, Some mapped)).1).
  { destruct (mapped =? 0); [|apply sizes_kept_refl].
    pose proof (allocate_block_read_inode st) as Ha.
    destruct (allocate_block st) as [sa b]. cbn [fst] in Ha.
    destruct (b =? 0); [apply sizes_kept_same_inodes, Ha|].
    pose proof (set_inode_block_sizes_kept sa inode_no block_index b) as Hs.
    destruct (set_inode_block sa inode_no block_index b) as [sb r].
    cbn [fst] in Hs.
    eapply sizes_kept_trans; [apply sizes_kept_same_inodes, Ha|].
    eapply sizes_kept_trans; [exact Hs|].
    destruct (negb (r =? 0)); [apply free_block_sizes_kept | apply sizes_kept_refl]. }
  destruct (if mapped =? 0 then _ else _) as [st1 got]. cbn [fst] in Hstep.
  destruct got as [block_no|]; [|exact Hstep].
  destruct (read_block st1 block_no) as [block_buffer|]; [|exact Hstep].
  match goal with |- context [write_block st1 block_no ?b] =>
    pose proof (write_block_read_inode st1 block_no b) as Hw;
    destruct (write_block st1 block_no b) as [st2 r] end.
  cbn [fst] in Hw.
  assert (H2 : sizes_kept st st2).
  { eapply sizes_kept_trans; [exact Hstep | apply sizes_kept_same_inodes, Hw]. }
  destruct (negb (r =? 0)); [exact H2|].
  eapply sizes_kept_trans; [exact H2 | apply IH].
Qed.

Lemma write_inode_data_sizes_kept (st : filesystem) (n : Z) (buffer : list Z)
    (size offset : Z) :
  sizes_kept st (write_inode_data st n buffer size offset).1.
Proof.
  unfold write_inode_data. destruct (read_inode st n); [|apply sizes_kept_refl].
  pose proof (write_loop_sizes_kept n buffer (S (Z.to_nat size)) st 0 size offset) as Hl.
  destruct (write_loop _ _ _ _ _ _ _) as [[st1 bw] co]. cbn [fst] in *.
  eapply sizes_kept_trans; [exact Hl|].
  eapply sizes_kept_trans; [apply update_mtime_sizes_kept | apply update_ctime_sizes_kept].
Qed.

(** Whatever is written, the size and the block count on the image stay
    what they were. *)
Lemma write_inode_data_size_unchanged (st : filesystem) (n : Z)
    (buffer : list Z) (size offset : Z) (inode : ext2_inode_t) :
  read_inode st n = Some inode →
  ∃ inode', read_inode (write_inode_data st n buffer size offset).1 n = Some inode'
    ∧ i_size inode' = i_size inode ∧ i_blocks inode' = i_blocks inode.
Proof.
  intros Hr. pose proof (write_inode_data_sizes_kept st n buffer size offset n) as H.
  rewrite Hr in H. cbn in H.
  destruct (read_inode (write_inode_data st n buffer size offset).1 n)
    as [inode'|]; [|discriminate].
  cbn in H. unfold size_fields in H. injection H as H1 H2. eauto.
Qed.

(** A write at or past the end of the file is not seen by the read that
    follows it. *)
Lemma read_after_write_at_end (st : filesystem) (n : Z) (buffer : list Z)
    (size offset : Z) (inode : ext2_inode_t) :
  read_inode st n = Some inode → i_size inode ≤ offset →
  (read_inode_data (write_inode_data st n buffer size offset).1 n size offset).2
  = (0, []).
Proof.
  intros Hr Hle.
  destruct (write_inode_data_size_unchanged st n buffer size offset inode Hr)
    as (inode' & Hr' & Hs & _).
  unfold read_inode_data. rewrite Hr', Hs.
  destruct (Z.geb_spec offset (i_size inode)); [reflexivity | lia].
Qed.

Lemma truncate_step_sizes_kept (n : Z) (st : filesystem) (i : Z) :
  sizes_kept st (truncate_step n st i).
Proof.
  unfold truncate_step.
  destruct (get_inode_block st n i) as [b|]; [|apply sizes_kept_refl].
  destruct (negb (b =? 0)); [|apply sizes_kept_refl].
  eapply sizes_kept_trans;
    [apply free_block_sizes_kept | apply set_inode_block_sizes_kept].
Qed.

Lemma fold_truncate_step_sizes_kept (n : Z) (l : list Z) :
  ∀ st, sizes_kept st (fold_left (truncate_step n) l st).
Proof.
  induction l as [|i l IH]; intros st; [apply sizes_kept_refl|].
  cbn. eapply sizes_kept_trans; [apply truncate_step_sizes_kept | apply IH].
Qed.

(** A shrinking [truncate_inode] ends by writing the record it read on
    entry, with the new size and block count: block pointers and times on
    the image are those of before the call. *)
Lemma truncate_inode_writes_entry_copy (st : filesystem) (n length : Z)
    (inode : ext2_inode_t) :
  read_inode st n = Some inode → length < i_size inode →
  (truncate_inode st n length).2 = 0
  ∧ read_inode (truncate_inode st n length).1 n
    = Some (set_i_size (u32 length)
              (u32 ((length + BLOCK_SIZE - 1) ÷ BLOCK_SIZE)) inode).
Proof.
  intros Hr Hlt. unfold truncate_inode. rewrite Hr.
  destruct (Z.geb_spec length (i_size inode)); [lia|].
  set (st1 := fold_left _ _ st).
  assert (Hk : sizes_kept st (update_ctime (update_mtime st1 n) n)).
  { eapply sizes_kept_trans; [apply fold_truncate_step_sizes_kept|].
    eapply sizes_kept_trans;
      [apply update_mtime_sizes_kept | apply update_ctime_sizes_kept]. }
  specialize (Hk n). rewrite Hr in Hk.
  destruct (read_inode (update_ctime (update_mtime st1 n) n) n) as [old|] eqn:Ho;
    [|discriminate].
  apply (read_after_write_inode _ _ _ old Ho).
Qed.

(** ** The session under the inode layer *)

Lemma session_kept_refl (st : filesystem) : session_kept st st.
Proof. unfold session_kept. tauto. Qed.

Lemma session_kept_trans (a b c : filesystem) :
  session_kept a b → session_kept b c → session_kept a c.
Proof.
  unfold session_kept.
  intros (A1 & A2 & A3 & A4 & A5 & A6 & A7) (B1 & B2 & B3 & B4 & B5 & B6 & B7).
  repeat split; try congruence; tauto.
Qed.

Lemma session_kept_with_image (st : filesystem) (d : disk)
    (sb : ext2_superblock_t) :
  is_Some (image st) → session_kept st (with_image d sb st).
Proof. intros Hi. unfold session_kept. cbn. repeat split; eauto. Qed.

Ltac session_primitive :=
  intros; match goal with |- session_kept ?st _ =>
    let H := fresh "Hd" in
    destruct (image st) eqn:H;
    [repeat case_match; try apply session_kept_refl;
     apply session_kept_with_image; rewrite ?H; eauto
    | apply session_kept_refl] end.

Lemma write_block_session (st : filesystem) (n : Z) (b : block) :
  session_kept st (write_block st n b).1.
Proof. unfold write_block. session_primitive. Qed.

Lemma allocate_block_session (st : filesystem) :
  session_kept st (allocate_block st).1.
Proof. unfold allocate_block. session_primitive. Qed.

Lemma free_block_session (st : filesystem) (n : Z) :
  session_kept st (free_block st n).
Proof. unfold free_block. session_primitive. Qed.

Lemma allocate_inode_session (st : filesystem) :
  session_kept st (allocate_inode st).1.
Proof. unfold allocate_inode. session_primitive. Qed.

Lemma free_inode_session (st : filesystem) (n : Z) :
  session_kept st (free_inode st n).
Proof. unfold free_inode. session_primitive. Qed.

Lemma write_inode_session (st : filesystem) (n : Z) (i : ext2_inode_t) :
  session_kept st (write_inode st n i).1.
Proof. unfold write_inode. session_primitive. Qed.

Lemma update_atime_session (st : filesystem) (n : Z) :
  session_kept st (update_atime st n).
Proof.
  unfold update_atime. destruct (read_inode st n);
    [apply write_inode_session | apply session_kept_refl].
Qed.

Lemma update_mtime_session (st : filesystem) (n : Z) :
  session_kept st (update_mtime st n).
Proof.
  unfold update_mtime. destruct (read_inode st n);
    [apply write_inode_session | apply session_kept_refl].
Qed.

Lemma update_ctime_session (st : filesystem) (n : Z) :
  session_kept st (update_ctime st n).
Proof.
  unfold update_ctime. destruct (read_inode st n);
    [apply write_inode_session | apply session_kept_refl].
Qed.

Lemma fold_session (A : Type) (f : filesystem → A → filesystem) (l : list A) :
  (∀ st x, session_kept st (f st x)) →
  ∀ st, session_kept st (fold_left f l st).
Proof.
  intros Hf. induction l as [|x l IH]; intros st; [apply session_kept_refl|].
  cbn. eapply session_kept_trans; [apply Hf | apply IH].
Qed.

Lemma free_nonzero_session (st : filesystem) (b : Z) :
  session_kept st (free_nonzero st b).
Proof.
  unfold free_nonzero. destruct (b =? 0);
    [apply session_kept_refl | apply free_block_session].
Qed.

Lemma create_inode_session (st : filesystem) (mode uid gid : Z) :
  session_kept st (create_inode st mode uid gid).1.
Proof.
  unfold create_inode.
  pose proof (allocate_inode_session st) as Ha.
  destruct (allocate_inode st) as [st1 ino]. cbn [fst] in Ha.
  destruct (ino =? 0); [exact Ha|].
  match goal with |- context [write_inode st1 ino ?i] =>
    pose proof (write_inode_session st1 ino i) as Hw;
    destruct (write_inode st1 ino i) as [st2 r] end.
  cbn [fst] in Hw.
  destruct (negb (r =? 0)); cbn [fst].
  - eapply session_kept_trans; [exact Ha|].
    eapply session_kept_trans; [exact Hw | apply free_inode_session].
  - eapply session_kept_trans; [exact Ha | exact Hw].
Qed.

Lemma delete_inode_session (st : filesystem) (n : Z) :
  session_kept st (delete_inode st n).1.
Proof.
  unfold delete_inode. destruct (read_inode st n) as [inode|];
    [|apply session_kept_refl]. cbn [fst].
  eapply session_kept_trans; [|apply free_inode_session].
  eapply session_kept_trans; [|apply write_inode_session].
  eapply session_kept_trans;
    [apply fold_session, free_nonzero_session|].
  destruct (block_ptr inode 12 =? 0); [apply session_kept_refl|].
  eapply session_kept_trans; [|apply free_block_session].
  destruct (read_block _ _);
    [apply fold_session, free_nonzero_session | apply session_kept_refl].
Qed.

Lemma set_inode_block_session (st : filesystem) (n k b : Z) :
  session_kept st (set_inode_block st n k b).1.
Proof.
  unfold set_inode_block. destruct (read_inode st n) as [inode|];
    [|apply session_kept_refl].
  destruct (k <? 12); [apply write_inode_session|].
  destruct (k <? 12 + BLOCK_SIZE / 4); [|apply session_kept_refl].
  destruct (block_ptr inode 12 =? 0).
  - pose proof (allocate_block_session st) as Ha.
    destruct (allocate_block st) as [st1 b1]. cbn [fst] in Ha.
    destruct (b1 =? 0); cbn [fst]; [exact Ha|].
    eapply session_kept_trans; [exact Ha|].
    eapply session_kept_trans; [apply write_block_session | apply write_inode_session].
  - eapply session_kept_trans; [apply write_block_session | apply write_inode_session].
Qed.

Lemma read_inode_data_session (st : filesystem) (n size offset : Z) :
  session_kept st (read_inode_data st n size offset).1.
Proof.
  unfold read_inode_data. destruct (read_inode st n) as [inode|];
    [|apply session_kept_refl].
  destruct (offset >=? i_size inode);
    [apply session_kept_refl | apply update_atime_session].
Qed.

Lemma write_loop_session (n : Z) (buffer : list Z) :
  ∀ fuel st bytes_written remaining current_offset,
    session_kept st
      (write_loop fuel st n buffer bytes_written remaining current_offset).1.1.
Proof.
  induction fuel as [|fuel IH]; intros st bw rem co; cbn [write_loop];
    [apply session_kept_refl|].
  destruct (0 <? rem); [|apply session_kept_refl].
  destruct (get_inode_block st n _) as [mapped|]; [|apply session_kept_refl].
  set (block_index := u32 (co ÷ BLOCK_SIZE)).
  assert (Hstep : session_kept st
            (if mapped =? 0
             then let '(sa, b) := allocate_block st in
                  if b =? 0 then (sa, None)
                  else let '(sb, r) := set_inode_block sa n block_index b in
                       if negb (r =? 0) then (free_block sb b, None)
                       else (sb, Some b)
             else (st, Some mapped)).1).
  { destruct (mapped =? 0); [|apply session_kept_refl].
    pose proof (allocate_block_session st) as Ha.
    destruct (allocate_block st) as [sa b]. cbn [fst] in Ha.
    destruct (b =? 0); [exact Ha|].
    pose proof (set_inode_block_session sa n block_index b) as Hs.
    destruct (set_inode_block sa n block_index b) as [sb r]. cbn [fst] in Hs.
    eapply session_kept_trans; [exact Ha|].
    eapply session_kept_trans; [exact Hs|].
    destruct (negb (r =? 0)); [apply free_block_session | apply session_kept_refl]. }
  destruct (if mapped =? 0 then _ else _) as [st1 got]. cbn [fst] in Hstep.
  destruct got as [block_no|]; [|exact Hstep].
  destruct (read_block st1 block_no) as [block_buffer|]; [|exact Hstep].
  match goal with |- context [write_block st1 block_no ?b] =>
    pose proof (write_block_session st1 block_no b) as Hw;
    destruct (write_block st1 block_no b) as [st2 r] end.
  cbn [fst] in Hw.
  assert (H2 : session_kept st st2)
    by (eapply session_kept_trans; [exact Hstep | exact Hw]).
  destruct (negb (r =? 0)); [exact H2|].
  eapply session_kept_trans; [exact H2 | apply IH].
Qed.

Lemma write_inode_data_session (st : filesystem) (n : Z) (buffer : list Z)
    (size offset : Z) :
  session_kept st (write_inode_data st n buffer size offset).1.
Proof.
  unfold write_inode_data. destruct (read_inode st n); [|apply session_kept_refl].
  pose proof (write_loop_session n buffer (S (Z.to_nat size)) st 0 size offset) as Hl.
  destruct (write_loop _ _ _ _ _ _ _) as [[st1 bw] co]. cbn [fst] in *.
  eapply session_kept_trans; [exact Hl|].
  eapply session_kept_trans; [apply update_mtime_session | apply update_ctime_session].
Qed.

Lemma truncate_step_session (n : Z) (st : filesystem) (i : Z) :
  session_kept st (truncate_step n st i).
Proof.
  unfold truncate_step.
  destruct (get_inode_block st n i) as [b|]; [|apply session_kept_refl].
  destruct (negb (b =? 0)); [|apply session_kept_refl].
  eapply session_kept_trans;
    [apply free_block_session | apply set_inode_block_session].
Qed.

Lemma truncate_inode_session (st : filesystem) (n length : Z) :
  session_kept st (truncate_inode st n length).1.
Proof.
  unfold truncate_inode. destruct (read_inode st n) as [inode|];
    [|apply session_kept_refl].
  destruct (length >=? i_size inode); [apply session_kept_refl|].
  eapply session_kept_trans; [|apply write_inode_session].
  eapply session_kept_trans; [|apply update_ctime_session].
  eapply session_kept_trans; [|apply update_mtime_session].
  apply fold_session, truncate_step_session.
Qed.

Lemma change_permission_session (st : filesystem) (n mode : Z) :
  session_kept st (change_permission st n mode).1.
Proof.
  unfold change_permission. destruct (read_inode st n); [|apply session_kept_refl].
  eapply session_kept_trans; [apply update_ctime_session | apply write_inode_session].
Qed.

Lemma change_owner_session (st : filesystem) (n uid gid : Z) :
  session_kept st (change_owner st n uid gid).1.
Proof.
  unfold change_owner. destruct (read_inode st n); [|apply session_kept_refl].
  eapply session_kept_trans; [apply update_ctime_session | apply write_inode_session].
Qed.

(** X1: no operation of the inode layer touches the session: the open-file
    table, the handle counter, the user, the working directory and the
    image name are what they were, and the image stays opened (or closed). *)
Theorem inode_layer_keeps_session (st : filesystem) (n a b c : Z)
    (buffer : list Z) :
  session_kept st (create_inode st a b c).1
  ∧ session_kept st (delete_inode st n).1
  ∧ session_kept st (set_inode_block st n a b).1
  ∧ session_kept st (read_inode_data st n a b).1
  ∧ session_kept st (write_inode_data st n buffer a b).1
  ∧ session_kept st (truncate_inode st n a).1
  ∧ session_kept st (change_permission st n a).1
  ∧ session_kept st (change_owner st n a b).1.
Proof.
  split; [apply create_inode_session|].
  split; [apply delete_inode_session|].
  split; [apply set_inode_block_session|].
  split; [apply read_inode_data_session|].
  split; [apply write_inode_data_session|].
  split; [apply truncate_inode_session|].
  split; [apply change_permission_session | apply change_owner_session].
Qed.

(** ** The open-file table *)

Lemma find_free_slot_Some (ofs : list open_file_t) :
  ∀ i k, find_free_slot ofs i = Some k →
    ∃ f, (i ≤ k)%nat ∧ ofs !! (k - i)%nat = Some f
         ∧ OpenFile.is_open f = false
         ∧ ∀ j g, (j < k - i)%nat → ofs !! j = Some g →
                  OpenFile.is_open g = true.
Proof.
  induction ofs as [|f ofs IH]; intros i k Hf; cbn in Hf; [discriminate|].
  destruct (OpenFile.is_open f) eqn:Ho; cbn in Hf.
  - destruct (IH _ _ Hf) as (g & Hle & Hl & Hc & Hbefore).
    exists g. split; [lia|].
    replace (k - i)%nat with (S (k - S i)) by lia. cbn.
    split; [exact Hl|]. split; [exact Hc|].
    intros [|j] h Hj Hh; cbn in Hh; [congruence|].
    apply (Hbefore j h); [lia | exact Hh].
  - injection Hf as <-. exists f. rewrite Nat.sub_diag. cbn.
    repeat split; auto. intros j g Hj. lia.
Qed.

Lemma find_free_slot_None (ofs : list open_file_t) :
  ∀ i, (∀ j f, ofs !! j = Some f → OpenFile.is_open f = true) →
       find_free_slot ofs i = None.
Proof.
  induction ofs as [|f ofs IH]; intros i Hall; [reflexivity|]. cbn.
  rewrite (Hall 0%nat f eq_refl). cbn. apply IH.
  intros j g Hg. apply (Hall (S j) g Hg).
Qed.

Lemma find_open_slot_Some (ofs : list open_file_t) (wanted : Z) :
  ∀ i k f, find_open_slot ofs wanted i = Some (k, f) →
    (i ≤ k)%nat ∧ ofs !! (k - i)%nat = Some f
    ∧ OpenFile.is_open f = true ∧ OpenFile.fd f = wanted
    ∧ ∀ j g, (j < k - i)%nat → ofs !! j = Some g →
             OpenFile.is_open g && (OpenFile.fd g =? wanted) = false.
Proof.
  induction ofs as [|f ofs IH]; intros i k h Hf; cbn in Hf; [discriminate|].
  destruct (OpenFile.is_open f && (OpenFile.fd f =? wanted)) eqn:Ho.
  - injection Hf as <- <-. rewrite Nat.sub_diag. cbn.
    apply andb_true_iff in Ho as [Ho Hw]. apply Z.eqb_eq in Hw.
    repeat split; auto. intros j g Hj. lia.
  - destruct (IH _ _ _ Hf) as (Hle & Hl & Hc & Hw & Hbefore).
    split; [lia|].
    replace (k - i)%nat with (S (k - S i)) by lia. cbn.
    repeat split; auto.
    intros [|j] g Hj Hg; cbn in Hg; [congruence|].
    apply (Hbefore j g); [lia | exact Hg].
Qed.

Lemma find_open_slot_None (ofs : list open_file_t) (wanted : Z) :
  ∀ i, (∀ j g, ofs !! j = Some g →
               OpenFile.is_open g && (OpenFile.fd g =? wanted) = false) →
       find_open_slot ofs wanted i = None.
Proof.
  induction ofs as [|f ofs IH]; intros i Hall; [reflexivity|]. cbn.
  rewrite (Hall 0%nat f eq_refl). apply IH.
  intros j g Hg. apply (Hall (S j) g Hg).
Qed.

Lemma find_open_slot_here (ofs : list open_file_t) (wanted : Z) :
  ∀ i k f, ofs !! k = Some f →
    OpenFile.is_open f = true → OpenFile.fd f = wanted →
    (∀ j g, (j < k)%nat → ofs !! j = Some g →
            OpenFile.is_open g && (OpenFile.fd g =? wanted) = false) →
    find_open_slot ofs wanted i = Some ((i + k)%nat, f).
Proof.
  induction ofs as [|h ofs IH]; intros i k f Hk Ho Hw Hbefore; [discriminate|].
  cbn. destruct k as [|k]; cbn in Hk.
  - injection Hk as ->. rewrite Ho, Hw, Z.eqb_refl. cbn.
    rewrite Nat.add_0_r. reflexivity.
  - rewrite (Hbefore 0%nat h ltac:(lia) eq_refl).
    rewrite (IH (S i) k f Hk Ho Hw).
    + f_equal. f_equal. lia.
    + intros j g Hj Hg. apply (Hbefore (S j) g); [lia | exact Hg].
Qed.

Lemma count_open_acc (ofs : list open_file_t) :
  ∀ c, fold_left (λ open_count f, if OpenFile.is_open f then open_count + 1
                                  else open_count) ofs c
       = c + count_open ofs.
Proof.
  unfold count_open. induction ofs as [|f ofs IH]; intros c; cbn; [lia|].
  rewrite (IH (if OpenFile.is_open f then c + 1 else c)).
  rewrite (IH (if OpenFile.is_open f then 0 + 1 else 0)).
  destruct (OpenFile.is_open f); lia.
Qed.

Lemma count_open_cons (f : open_file_t) (ofs : list open_file_t) :
  count_open (f :: ofs)
  = (if OpenFile.is_open f then 1 else 0) + count_open ofs.
Proof.
  unfold count_open at 1. cbn. rewrite count_open_acc.
  destruct (OpenFile.is_open f); lia.
Qed.

Lemma count_open_insert (ofs : list open_file_t) :
  ∀ k f g, ofs !! k = Some f →
    count_open (<[k := g]> ofs)
    = count_open ofs - (if OpenFile.is_open f then 1 else 0)
      + (if OpenFile.is_open g then 1 else 0).
Proof.
  induction ofs as [|h ofs IH]; intros k f g Hk; [discriminate|].
  destruct k as [|k]; cbn in Hk.
  - injection Hk as ->. change (<[0%nat := g]> (f :: ofs)) with (g :: ofs).
    rewrite !count_open_cons. lia.
  - change (<[S k := g]> (h :: ofs)) with (h :: <[k := g]> ofs).
    rewrite !count_open_cons, (IH k f g Hk). lia.
Qed.

(** X2: a successful [cmd_open] hands out the value of the handle counter
    and advances it; with handles below the counter and distinct before,
    they are so afterwards, the new handle names exactly the new slot
    (inode of the path, the flags given, offset 0), the slots in use are
    untouched and so is the image (no timestamp is updated). *)
Theorem cmd_open_fresh_handle `{Ext2Header} `{DirectoryLayer}
    (st : filesystem) (path : string) (flags h : Z) :
  handles_ok st →
  (cmd_open st path flags).2 = (h, File_opened path h) →
  h = next_fd st
  ∧ next_fd (cmd_open st path flags).1 = h + 1
  ∧ handles_ok (cmd_open st path flags).1
  ∧ image (cmd_open st path flags).1 = image st
  ∧ superblock (cmd_open st path flags).1 = superblock st
  ∧ (∀ i f, open_files st !! i = Some f → OpenFile.is_open f = true →
            open_files (cmd_open st path flags).1 !! i = Some f)
  ∧ ∃ slot n,
      path_to_inode st path = Some n
      ∧ find_open_slot (open_files (cmd_open st path flags).1) h 0
        = Some (slot, OpenFile.mk h n flags 0 true).
Proof.
  intros [Hbelow Hdist]. unfold cmd_open.
  destruct (is_logged_in st); cbn [negb]; [|discriminate].
  destruct (path_to_inode st path) as [n|]; [|discriminate].
  destruct (is_regular_file st n); cbn [negb]; [|discriminate].
  destruct (check_permission st n (open_access flags)); cbn [negb];
    [|discriminate].
  destruct (find_free_slot (open_files st) 0) as [slot|] eqn:Hslot;
    [|discriminate].
  cbn [fst snd]. intros [= <-].
  destruct (find_free_slot_Some _ _ _ Hslot) as (old & _ & Hold & Hclosed & _).
  rewrite Nat.sub_0_r in Hold.
  assert (Hlen : (slot < length (open_files st))%nat)
    by (eapply lookup_lt_Some; exact Hold).
  set (file := OpenFile.mk (next_fd st) n flags 0 true).
  assert (Hkeep : ∀ i f, open_files st !! i = Some f →
            OpenFile.is_open f = true →
            <[slot := file]> (open_files st) !! i = Some f).
  { intros i f Hi Ho. rewrite list_lookup_insert_ne; [exact Hi|].
    intros ->. congruence. }
  assert (Hcases : ∀ i f, <[slot := file]> (open_files st) !! i = Some f →
            (i = slot ∧ f = file) ∨ (i ≠ slot ∧ open_files st !! i = Some f)).
  { intros i f Hi. apply list_lookup_insert_Some in Hi.
    destruct Hi as [(-> & -> & _)|[Hne Hi]]; [left | right]; auto. }
  split; [reflexivity|]. split; [reflexivity|].
  split; [|split; [reflexivity|split; [reflexivity|split; [exact Hkeep|]]]].
  - split; cbn [open_files next_fd with_open_files].
    + intros i f Hi Ho. destruct (Hcases _ _ Hi) as [[-> ->]|[_ Hi']].
      * cbn. lia.
      * specialize (Hbelow _ _ Hi' Ho). lia.
    + intros i j f g Hi Hj Hof Hog Heq.
      destruct (Hcases _ _ Hi) as [[-> ->]|[Hni Hi']];
        destruct (Hcases _ _ Hj) as [[-> ->]|[Hnj Hj']]; auto.
      * specialize (Hbelow _ _ Hj' Hog). cbn in Heq. lia.
      * specialize (Hbelow _ _ Hi' Hof). cbn in Heq. lia.
      * eapply Hdist; eauto.
  - exists slot, n. split; [reflexivity|].
    cbn [open_files with_open_files].
    apply (find_open_slot_here _ _ 0%nat slot file).
    + apply list_lookup_insert_eq. exact Hlen.
    + reflexivity.
    + reflexivity.
    + intros j g Hj Hg. rewrite list_lookup_insert_ne in Hg by lia.
      destruct (OpenFile.is_open g) eqn:Ho; [|reflexivity]. cbn.
      apply Z.eqb_neq. specialize (Hbelow _ _ Hg Ho). lia.
Qed.

Lemma find_open_slot_insert (ofs : list open_file_t) (wanted : Z)
    (slot : nat) (file file' : open_file_t) :
  find_open_slot ofs wanted 0 = Some (slot, file) →
  OpenFile.is_open file' = true → OpenFile.fd file' = wanted →
  find_open_slot (<[slot := file']> ofs) wanted 0 = Some (slot, file').
Proof.
  intros Hf Ho Hw.
  destruct (find_open_slot_Some _ _ _ _ _ Hf) as (_ & Hl & _ & _ & Hbefore).
  rewrite Nat.sub_0_r in Hl, Hbefore.
  apply (find_open_slot_here _ _ 0%nat slot file'); auto.
  - apply list_lookup_insert_eq. eapply lookup_lt_Some. exact Hl.
  - intros j g Hj Hg. rewrite list_lookup_insert_ne in Hg by lia.
    apply (Hbefore j g Hj Hg).
Qed.

(** X3: with handles distinct, a successful [cmd_close] leaves no slot in
    use under that handle: closing it a second time fails with "Invalid
    file descriptor" and changes nothing.  The other slots, the handle
    counter and the image are untouched. *)
Theorem cmd_close_twice_fails (st : filesystem) (h : Z) :
  handles_ok st →
  (cmd_close st h).2.1 = 0 →
  handles_ok (cmd_close st h).1
  ∧ next_fd (cmd_close st h).1 = next_fd st
  ∧ image (cmd_close st h).1 = image st
  ∧ (∀ i f, open_files st !! i = Some f → OpenFile.fd f ≠ h →
            open_files (cmd_close st h).1 !! i = Some f)
  ∧ cmd_close (cmd_close st h).1 h
    = ((cmd_close st h).1, (-1, Error_Invalid_file_descriptor)).
Proof.
  intros [Hbelow Hdist] Hres.
  assert (Hlog : is_logged_in st = true).
  { unfold cmd_close in Hres. destruct (is_logged_in st); [reflexivity|].
    discriminate. }
  destruct (find_open_slot (open_files st) h 0) as [[slot file]|] eqn:Hslot;
    [|unfold cmd_close in Hres; rewrite Hlog, Hslot in Hres; discriminate].
  assert (Heq : cmd_close st h
                = (with_open_files
                     (<[slot := set_is_open false file]> (open_files st))
                     (next_fd st) st, (0, File_closed h))).
  { unfold cmd_close. rewrite Hlog, Hslot. reflexivity. }
  rewrite Heq. clear Hres Heq. cbn [fst snd].
  destruct (find_open_slot_Some _ _ _ _ _ Hslot) as (_ & Hl & Hopen & Hfd & _).
  rewrite Nat.sub_0_r in Hl.
  set (closed := set_is_open false file).
  assert (Hcases : ∀ i f, <[slot := closed]> (open_files st) !! i = Some f →
            (i = slot ∧ f = closed) ∨ (i ≠ slot ∧ open_files st !! i = Some f)).
  { intros i f Hi. apply list_lookup_insert_Some in Hi.
    destruct Hi as [(-> & -> & _)|[Hne Hi]]; [left | right]; auto. }
  split; [|split; [reflexivity|split; [reflexivity|split]]].
  - split; cbn [open_files next_fd with_open_files].
    + intros i f Hi Ho. destruct (Hcases _ _ Hi) as [[-> ->]|[_ Hi']];
        [discriminate | eauto].
    + intros i j f g Hi Hj Hof Hog Heq.
      destruct (Hcases _ _ Hi) as [[-> ->]|[Hni Hi']]; [discriminate|].
      destruct (Hcases _ _ Hj) as [[-> ->]|[Hnj Hj']]; [discriminate|].
      eapply Hdist; eauto.
  - intros i f Hi Hne. cbn [open_files with_open_files].
    rewrite list_lookup_insert_ne; [exact Hi|]. intros ->. congruence.
  - unfold cmd_close.
    change (is_logged_in (with_open_files _ _ st)) with (is_logged_in st).
    rewrite Hlog. cbn [negb open_files with_open_files].
    rewrite find_open_slot_None; [reflexivity|].
    intros j g Hg. destruct (Hcases _ _ Hg) as [[-> ->]|[Hne Hg']];
      [reflexivity|].
    destruct (OpenFile.is_open g) eqn:Ho; [|reflexivity]. cbn.
    apply Z.eqb_neq. intros Heq. apply Hne.
    apply (Hdist j slot g file Hg' Hl Ho Hopen). congruence.
Qed.

(** X4: when no slot is free [cmd_open] changes nothing and returns -1;
    a request that passes every check is answered "Too many open
    files". *)
Theorem cmd_open_table_full `{Ext2Header} `{DirectoryLayer}
    (st : filesystem) (path : string) (flags : Z) :
  (∀ j f, open_files st !! j = Some f → OpenFile.is_open f = true) →
  (cmd_open st path flags).1 = st
  ∧ (cmd_open st path flags).2.1 = -1
  ∧ (∀ n, is_logged_in st = true → path_to_inode st path = Some n →
          is_regular_file st n = true →
          check_permission st n (open_access flags) = true →
          (cmd_open st path flags).2.2 = Error_Too_many_open_files).
Proof.
  intros Hall. unfold cmd_open.
  rewrite (find_free_slot_None _ 0%nat Hall).
  destruct (is_logged_in st); cbn [negb];
    [|split; [|split]; [reflexivity.. | discriminate]].
  destruct (path_to_inode st path) as [n|];
    [|split; [|split]; [reflexivity.. | discriminate]].
  destruct (is_regular_file st n) eqn:Hreg; cbn [negb];
    [|split; [|split]; [reflexivity.. | intros m _ [= <-]; congruence]].
  destruct (check_permission st n (open_access flags)) eqn:Hperm; cbn [negb];
    [|split; [|split]; [reflexivity.. | intros m _ [= <-] _; congruence]].
  split; [|split]; reflexivity.
Qed.

(** X5: the open-file count of [cmd_status] goes up by one with every
    successful [cmd_open] and down by one with every successful
    [cmd_close]. *)
Theorem cmd_status_counts_handles `{Ext2Header} `{DirectoryLayer}
    (st : filesystem) (path : string) (flags h : Z) :
  ((cmd_open st path flags).2 = (h, File_opened path h) →
   status_open_files (cmd_status (cmd_open st path flags).1).1
   = status_open_files (cmd_status st).1 + 1)
  ∧ ((cmd_close st h).2.1 = 0 →
     status_open_files (cmd_status (cmd_close st h).1).1
     = status_open_files (cmd_status st).1 - 1).
Proof.
  split.
  - unfold cmd_open.
    destruct (is_logged_in st); cbn [negb]; [|discriminate].
    destruct (path_to_inode st path) as [n|]; [|discriminate].
    destruct (is_regular_file st n); cbn [negb]; [|discriminate].
    destruct (check_permission st n (open_access flags)); cbn [negb];
      [|discriminate].
    destruct (find_free_slot (open_files st) 0) as [slot|] eqn:Hslot;
      [|discriminate].
    intros _. unfold cmd_status.
    cbn [fst snd status_open_files open_files with_open_files].
    destruct (find_free_slot_Some _ _ _ Hslot) as (old & _ & Hold & Hclosed & _).
    rewrite Nat.sub_0_r in Hold.
    rewrite (count_open_insert _ _ _ _ Hold), Hclosed. cbn. lia.
  - unfold cmd_close.
    destruct (is_logged_in st); cbn [negb]; [|discriminate].
    destruct (find_open_slot (open_files st) h 0) as [[slot file]|] eqn:Hslot;
      [|discriminate].
    intros _. unfold cmd_status.
    cbn [fst snd status_open_files open_files with_open_files].
    destruct (find_open_slot_Some _ _ _ _ _ Hslot) as (_ & Hl & Hopen & _).
    rewrite Nat.sub_0_r in Hl.
    rewrite (count_open_insert _ _ _ _ Hl), Hopen. cbn. lia.
Qed.

Lemma has_bits_rdonly (x : Z) : has_bits x O_RDONLY = false.
Proof. unfold has_bits, O_RDONLY. rewrite Z.land_0_r. reflexivity. Qed.

(** X6: what a descriptor may do depends on two bits of its flags only:
    [cmd_read] refuses it exactly when bit 1 (value 2) is clear, [cmd_write]
    exactly when bits 0 and 1 (values 1 and 2) are both clear.  So flags 1
    give a write-only descriptor, flags 2 and 3 one for both directions,
    and flags 0 one that can do neither. *)
Theorem descriptor_direction (st : filesystem) (h size : Z) (buffer : list Z)
    (slot : nat) (file : open_file_t) :
  is_logged_in st = true →
  find_open_slot (open_files st) h 0 = Some (slot, file) →
  ((cmd_read st h size).1.2 = (-1, Error_File_not_opened_for_reading)
   ↔ Z.land (OpenFile.flags file) 2 = 0)
  ∧ ((cmd_write st h buffer size).2 = (-1, Error_File_not_opened_for_writing)
     ↔ Z.land (OpenFile.flags file) 1 = 0 ∧ Z.land (OpenFile.flags file) 2 = 0).
Proof.
  intros Hlog Hslot. unfold cmd_read, cmd_write. rewrite Hlog, Hslot.
  cbn [negb]. rewrite has_bits_rdonly. unfold has_bits, O_WRONLY, O_RDWR.
  cbn [negb andb]. split.
  - destruct (Z.eqb_spec (Z.land (OpenFile.flags file) 2) 0) as [Hz|Hnz];
      cbn [negb].
    + split; [intros _; exact Hz | reflexivity].
    + destruct (read_inode_data st _ size _) as [st1 [n data]]. cbn.
      split; [intros [= _ ?] | intros ?; contradiction].
  - destruct (Z.eqb_spec (Z.land (OpenFile.flags file) 1) 0) as [Hz1|Hnz1];
      destruct (Z.eqb_spec (Z.land (OpenFile.flags file) 2) 0) as [Hz2|Hnz2];
      cbn [negb andb];
      try (split; [intros _; split; assumption | reflexivity]);
      destruct (write_inode_data st _ buffer size _) as [st1 n]; cbn;
      (split; [intros [= _ ?] | intros [? ?]; contradiction]).
Qed.

(** X7: a transfer advances the descriptor by the number of bytes moved and
    changes nothing else in the table: after a [cmd_write] that returned
    [n >= 0] the handle names the same slot with the same inode and flags
    and the offset raised by [n], so the next write starts where this one
    ended; after one that returned -1 the table is as before.  The same
    holds for [cmd_read]. *)
Theorem transfer_advances_offset (st : filesystem) (h size : Z)
    (buffer : list Z) (slot : nat) (file : open_file_t) :
  is_logged_in st = true →
  find_open_slot (open_files st) h 0 = Some (slot, file) →
  Z.land (OpenFile.flags file) 2 ≠ 0 →
  (0 ≤ (cmd_write st h buffer size).2.1 →
   find_open_slot (open_files (cmd_write st h buffer size).1) h 0
   = Some (slot, set_offset (OpenFile.offset file
                             + (cmd_write st h buffer size).2.1) file))
  ∧ ((cmd_write st h buffer size).2.1 < 0 →
     open_files (cmd_write st h buffer size).1 = open_files st)
  ∧ (0 ≤ (cmd_read st h size).1.2.1 →
     find_open_slot (open_files (cmd_read st h size).1.1) h 0
     = Some (slot, set_offset (OpenFile.offset file
                               + (cmd_read st h size).1.2.1) file))
  ∧ ((cmd_read st h size).1.2.1 < 0 →
     open_files (cmd_read st h size).1.1 = open_files st).
Proof.
  intros Hlog Hslot Hrw.
  destruct (find_open_slot_Some _ _ _ _ _ Hslot) as (_ & Hl & Hopen & Hfd & _).
  assert (Hsame : set_offset (OpenFile.offset file + 0) file = file)
    by (destruct file; unfold set_offset; cbn; rewrite Z.add_0_r; reflexivity).
  unfold cmd_read, cmd_write. rewrite Hlog, Hslot.
  assert (Hb : has_bits (OpenFile.flags file) O_RDWR = true).
  { unfold has_bits, O_RDWR. rewrite (proj2 (Z.eqb_neq _ _) Hrw). reflexivity. }
  rewrite Hb. cbn [negb andb]. rewrite !andb_false_r.
  pose proof (write_inode_data_session st (OpenFile.inode_no file) buffer size
                (OpenFile.offset file)) as (Wof & _).
  pose proof (read_inode_data_session st (OpenFile.inode_no file) size
                (OpenFile.offset file)) as (Rof & _).
  destruct (write_inode_data st _ buffer size _) as [sw n].
  destruct (read_inode_data st _ size _) as [sr [m data]].
  cbn [fst snd] in *.
  split; [|split; [|split]].
  - intros Hn. destruct (Z.gtb_spec n 0) as [Hpos|Hzero].
    + cbn [open_files with_open_files]. rewrite Wof.
      apply (find_open_slot_insert _ _ _ _ _ Hslot); [exact Hopen | exact Hfd].
    + replace n with 0 by lia. rewrite Hsame, Wof. exact Hslot.
  - intros Hn. destruct (Z.gtb_spec n 0); [lia | exact Wof].
  - intros Hn. destruct (Z.gtb_spec m 0) as [Hpos|Hzero].
    + cbn [open_files with_open_files]. rewrite Rof.
      apply (find_open_slot_insert _ _ _ _ _ Hslot); [exact Hopen | exact Hfd].
    + replace m with 0 by lia. rewrite Hsame, Rof. exact Hslot.
  - intros Hn. destruct (Z.gtb_spec m 0); [lia | exact Rof].
Qed.

Lemma handles_ok_one_handle (st : filesystem) (k slot : nat)
    (file : open_file_t) :
  open_files st = <[slot := file]> (replicate k closed_slot) →
  OpenFile.fd file < next_fd st → handles_ok st.
Proof.
  intros Heq Hlt.
  assert (Honly : ∀ i f, open_files st !! i = Some f →
            OpenFile.is_open f = true → i = slot ∧ f = file).
  { intros i f Hi Ho. rewrite Heq in Hi.
    apply list_lookup_insert_Some in Hi.
    destruct Hi as [(-> & -> & _)|[_ Hi]]; [auto|].
    apply lookup_replicate_1 in Hi as [-> _]. discriminate. }
  split.
  - intros i f Hi Ho. destruct (Honly _ _ Hi Ho) as [_ ->]. exact Hlt.
  - intros i j f g Hi Hj Hof Hog _.
    destruct (Honly _ _ Hi Hof) as [-> _].
    destruct (Honly _ _ Hj Hog) as [-> _]. reflexivity.
Qed.

Lemma handles_ok_session (d : disk) (u : user_t) (t : Z) :
  handles_ok (session d u t).
Proof.
  apply (handles_ok_one_handle _ 32 32 closed_slot); [|cbn; lia].
  cbn [open_files session]. symmetry. apply list_insert_ge.
  rewrite length_replicate. lia.
Qed.

Lemma cmd_open_fresh_handle_witness :
  let st := session two_block_image root_user 2000 in
  (handles_ok st
   ∧ (@cmd_open triple_header one_entry_directory st "/p" O_RDWR).2
     = (3, File_opened "/p" 3))
  ∧ handles_ok (@cmd_open triple_header one_entry_directory st "/p" O_RDWR).1
  ∧ find_open_slot
      (open_files (@cmd_open triple_header one_entry_directory st "/p" O_RDWR).1)
      3 0
    = Some (0%nat, OpenFile.mk 3 11 O_RDWR 0 true).
Proof.
  intros st.
  assert (Hok : handles_ok st) by apply handles_ok_session.
  assert (Hres : (@cmd_open triple_header one_entry_directory st "/p" O_RDWR).2
                 = (3, File_opened "/p" 3)) by (vm_compute; reflexivity).
  destruct (@cmd_open_fresh_handle triple_header one_entry_directory st "/p"
              O_RDWR 3 Hok Hres) as (_ & _ & H3 & _).
  split; [split; assumption|]. split; [exact H3|].
  vm_compute. reflexivity.
Defined.

Lemma cmd_close_twice_fails_witness :
  (handles_ok opened_state ∧ (cmd_close opened_state 3).2.1 = 0)
  ∧ cmd_close (cmd_close opened_state 3).1 3
    = ((cmd_close opened_state 3).1, (-1, Error_Invalid_file_descriptor)).
Proof.
  assert (Hok : handles_ok opened_state).
  { apply (handles_ok_one_handle _ 32 0 (OpenFile.mk 3 11 O_RDWR 0 true));
      [vm_compute; reflexivity | vm_compute; reflexivity]. }
  assert (Hres : (cmd_close opened_state 3).2.1 = 0) by (vm_compute; reflexivity).
  destruct (cmd_close_twice_fails opened_state 3 Hok Hres) as (_ & _ & _ & _ & H5).
  split; [split; assumption | exact H5].
Defined.

Lemma cmd_open_table_full_witness :
  (∀ j f, open_files full_table_state !! j = Some f →
          OpenFile.is_open f = true)
  ∧ @cmd_open triple_header one_entry_directory full_table_state "/p" O_RDWR
    = (full_table_state, (-1, Error_Too_many_open_files)).
Proof.
  assert (Hall : ∀ j f, open_files full_table_state !! j = Some f →
            OpenFile.is_open f = true).
  { intros j f Hj. cbn [open_files full_table_state with_open_files] in Hj.
    apply lookup_replicate_1 in Hj as [-> _]. reflexivity. }
  split; [exact Hall|].
  destruct (@cmd_open_table_full triple_header one_entry_directory
              full_table_state "/p" O_RDWR Hall) as (H1 & H2 & H3).
  specialize (H3 11 eq_refl eq_refl ltac:(vm_compute; reflexivity)
                ltac:(vm_compute; reflexivity)).
  destruct (@cmd_open triple_header one_entry_directory full_table_state "/p"
              O_RDWR) as [s [r m]].
  cbn [fst snd] in *. congruence.
Defined.

Lemma cmd_status_counts_handles_witness :
  let st := session two_block_image root_user 2000 in
  ((@cmd_open triple_header one_entry_directory st "/p" O_RDWR).2
   = (3, File_opened "/p" 3)
   ∧ (cmd_close opened_state 3).2.1 = 0)
  ∧ status_open_files (cmd_status st).1 = 0
  ∧ status_open_files (cmd_status opened_state).1 = 1
  ∧ status_open_files (cmd_status (cmd_close opened_state 3).1).1 = 0.
Proof.
  intros st.
  assert (Ho : (@cmd_open triple_header one_entry_directory st "/p" O_RDWR).2
               = (3, File_opened "/p" 3)) by (vm_compute; reflexivity).
  assert (Hc : (cmd_close opened_state 3).2.1 = 0) by (vm_compute; reflexivity).
  assert (H0 : status_open_files (cmd_status st).1 = 0)
    by (vm_compute; reflexivity).
  destruct (@cmd_status_counts_handles triple_header one_entry_directory st
              "/p" O_RDWR 3) as [Hup _].
  destruct (@cmd_status_counts_handles triple_header one_entry_directory
              opened_state "/p" O_RDWR 3) as [_ Hdown].
  specialize (Hup Ho). specialize (Hdown Hc).
  assert (H1 : status_open_files (cmd_status opened_state).1 = 1).
  { etransitivity; [exact Hup|]. rewrite H0. reflexivity. }
  split; [split; assumption|]. split; [exact H0|]. split; [exact H1|].
  rewrite Hdown, H1. reflexivity.
Defined.

Lemma descriptor_direction_witness :
  (is_logged_in opened_state = true
   ∧ find_open_slot (open_files opened_state) 3 0
     = Some (0%nat, OpenFile.mk 3 11 O_RDWR 0 true))
  ∧ (cmd_read opened_state 3 5).1.2 ≠ (-1, Error_File_not_opened_for_reading)
  ∧ (cmd_write opened_state 3 hello 5).2
    ≠ (-1, Error_File_not_opened_for_writing).
Proof.
  assert (Hl : is_logged_in opened_state = true) by reflexivity.
  assert (Hs : find_open_slot (open_files opened_state) 3 0
               = Some (0%nat, OpenFile.mk 3 11 O_RDWR 0 true))
    by (vm_compute; reflexivity).
  destruct (descriptor_direction opened_state 3 5 hello 0
              (OpenFile.mk 3 11 O_RDWR 0 true) Hl Hs) as [Hr Hw].
  split; [split; assumption|]. split.
  - intros Hx. apply Hr in Hx. discriminate.
  - intros Hx. apply Hw in Hx as [_ Hx]. discriminate.
Defined.

Lemma transfer_advances_offset_witness :
  (is_logged_in opened_state = true
   ∧ find_open_slot (open_files opened_state) 3 0
     = Some (0%nat, OpenFile.mk 3 11 O_RDWR 0 true)
   ∧ (cmd_write opened_state 3 hello 5).2.1 = 5)
  ∧ find_open_slot (open_files (cmd_write opened_state 3 hello 5).1) 3 0
    = Some (0%nat, OpenFile.mk 3 11 O_RDWR 5 true).
Proof.
  assert (Hl : is_logged_in opened_state = true) by reflexivity.
  assert (Hs : find_open_slot (open_files opened_state) 3 0
               = Some (0%nat, OpenFile.mk 3 11 O_RDWR 0 true))
    by (vm_compute; reflexivity).
  assert (Hn : (cmd_write opened_state 3 hello 5).2.1 = 5)
    by (vm_compute; reflexivity).
  destruct (transfer_advances_offset opened_state 3 5 hello 0
              (OpenFile.mk 3 11 O_RDWR 0 true) Hl Hs ltac:(discriminate))
    as (Hw & _).
  split; [repeat split; assumption|].
  rewrite Hw by (rewrite Hn; lia). rewrite Hn. reflexivity.
Defined.

(** ** Permission masks *)

Lemma land_within_triple (x access : Z) :
  Z.land (Z.land x 7) access = access → Z.land access 7 = access.
Proof.
  intros H. rewrite <- H at 1.
  rewrite <- Z.land_assoc, (Z.land_comm access 7), Z.land_assoc.
  rewrite <- (Z.land_assoc x 7 7). change (Z.land 7 7) with 7. exact H.
Qed.

Lemma check_permission_granted_within_triple (st : filesystem) (n access : Z) :
  check_permission st n access = true → Z.land access 7 = access.
Proof.
  unfold check_permission.
  destruct (read_inode st n) as [inode|]; [|discriminate].
  intros Heq%Z.eqb_eq.
  destruct (get_current_uid st =? i_uid inode);
    [|destruct (get_current_gid st =? i_gid inode)].
  - exact (land_within_triple _ _ Heq).
  - exact (land_within_triple _ _ Heq).
  - exact (land_within_triple _ _ Heq).
Qed.

(** X8: [check_permission] compares the mask with one permission triple
    (three bits), so a mask with any bit outside the three low ones is
    never granted, for no inode, user or mode. *)
Theorem check_permission_wide_mask_denied (st : filesystem) (n access : Z) :
  Z.land access 7 ≠ access → check_permission st n access = false.
Proof.
  intros Hwide. destruct (check_permission st n access) eqn:Hc; [|reflexivity].
  destruct (Hwide (check_permission_granted_within_triple st n access Hc)).
Qed.

Lemma check_permission_wide_mask_denied_witness :
  Z.land 128 7 ≠ 128
  ∧ check_permission (session two_block_image root_user 2000) 11 128 = false.
Proof.
  assert (H : Z.land 128 7 ≠ 128) by discriminate.
  split; [exact H|].
  apply (check_permission_wide_mask_denied _ 11 128 H).
Defined.

Lemma lor_within_triple (a b : Z) :
  Z.land (Z.lor a b) 7 = Z.lor a b → Z.land a 7 = a ∧ Z.land b 7 = b.
Proof.
  intros H.
  assert (Hbits : ∀ k, Z.testbit (Z.lor a b) k = true → Z.testbit 7 k = true).
  { intros k Hk. rewrite <- H, Z.land_spec in Hk.
    apply andb_true_iff in Hk. tauto. }
  split; apply Z.bits_inj'; intros k _; rewrite Z.land_spec.
  - destruct (Z.testbit a k) eqn:Ha; [|reflexivity].
    rewrite Hbits; [reflexivity|]. rewrite Z.lor_spec, Ha. reflexivity.
  - destruct (Z.testbit b k) eqn:Hb; [|reflexivity].
    rewrite Hbits; [reflexivity|]. rewrite Z.lor_spec, Hb. apply orb_true_r.
Qed.

Lemma open_access_wide `{Ext2Header} (flags : Z) :
  Z.land EXT2_S_IWUSR 7 ≠ EXT2_S_IWUSR →
  Z.land flags 1 ≠ 0 ∨ Z.land flags 2 ≠ 0 →
  Z.land (open_access flags) 7 ≠ open_access flags.
Proof.
  intros Hwide Hbits Heq. apply Hwide. unfold open_access in Heq.
  rewrite has_bits_rdonly in Heq. unfold has_bits, O_WRONLY, O_RDWR in Heq.
  destruct (Z.eqb_spec (Z.land flags 2) 0) as [H2|H2]; cbn [negb] in Heq.
  - destruct (Z.eqb_spec (Z.land flags 1) 0) as [H1|H1]; cbn [negb] in Heq;
      [tauto|].
    apply (lor_within_triple 0 _ Heq).
  - apply lor_within_triple in Heq as [_ Heq].
    apply (lor_within_triple _ _ Heq).
Qed.

(** X9: when the write mask of the header has a bit outside the three low
    ones (as the classical value 0x0080 has), the permission checks of the
    command layer can never pass: [cmd_create], [cmd_delete] and [cmd_open]
    with a write bit in its flags return -1 and change nothing, for every
    state, path and user. *)
Theorem wide_write_mask_blocks_commands `{Ext2Header} `{DirectoryLayer}
    (st : filesystem) (path : string) (flags : Z) :
  Z.land EXT2_S_IWUSR 7 ≠ EXT2_S_IWUSR →
  (cmd_create st path).1 = st
  ∧ (cmd_create st path).2.1 = -1
  ∧ (cmd_delete st path).1 = st
  ∧ (cmd_delete st path).2.1 = -1
  ∧ (Z.land flags 1 ≠ 0 ∨ Z.land flags 2 ≠ 0 →
     (cmd_open st path flags).1 = st ∧ (cmd_open st path flags).2.1 = -1).
Proof.
  intros Hwide.
  assert (Hdeny : ∀ n, check_permission st n EXT2_S_IWUSR = false).
  { intros n. destruct (check_permission st n EXT2_S_IWUSR) eqn:Hc;
      [|reflexivity].
    destruct (Hwide (check_permission_granted_within_triple _ _ _ Hc)). }
  split; [|split; [|split; [|split]]].
  - unfold cmd_create. destruct (is_logged_in st); [|reflexivity]. cbn [negb].
    destruct (get_parent_inode st path) as [[parent child]|]; [|reflexivity].
    destruct (parent =? 0); [reflexivity|].
    destruct (is_directory st parent); [|reflexivity]. cbn [negb].
    rewrite Hdeny. reflexivity.
  - unfold cmd_create. destruct (is_logged_in st); [|reflexivity]. cbn [negb].
    destruct (get_parent_inode st path) as [[parent child]|]; [|reflexivity].
    destruct (parent =? 0); [reflexivity|].
    destruct (is_directory st parent); [|reflexivity]. cbn [negb].
    rewrite Hdeny. reflexivity.
  - unfold cmd_delete. destruct (is_logged_in st); [|reflexivity]. cbn [negb].
    destruct (path_to_inode st path) as [n|]; [|reflexivity].
    destruct (is_directory st n); [reflexivity|].
    rewrite Hdeny. reflexivity.
  - unfold cmd_delete. destruct (is_logged_in st); [|reflexivity]. cbn [negb].
    destruct (path_to_inode st path) as [n|]; [|reflexivity].
    destruct (is_directory st n); [reflexivity|].
    rewrite Hdeny. reflexivity.
  - intros Hbits. unfold cmd_open.
    destruct (is_logged_in st); [|split; reflexivity]. cbn [negb].
    destruct (path_to_inode st path) as [n|]; [|split; reflexivity].
    destruct (is_regular_file st n); [|split; reflexivity]. cbn [negb].
    destruct (check_permission st n (open_access flags)) eqn:Hc;
      [|split; reflexivity].
    apply check_permission_granted_within_triple in Hc.
    destruct (open_access_wide flags Hwide Hbits Hc).
Qed.

Lemma wide_write_mask_blocks_commands_witness :
  let st := session two_block_image root_user 2000 in
  Z.land (@EXT2_S_IWUSR classic_header) 7 ≠ @EXT2_S_IWUSR classic_header
  ∧ (@cmd_create classic_header one_entry_directory st "/p").2
    = (-1, Error_Permission_denied)
  ∧ (@cmd_delete classic_header one_entry_directory st "/p").1 = st
  ∧ (@cmd_open classic_header one_entry_directory st "/p" O_WRONLY).2.1 = -1.
Proof.
  intros st.
  assert (Hw : Z.land (@EXT2_S_IWUSR classic_header) 7
               ≠ @EXT2_S_IWUSR classic_header) by discriminate.
  destruct (@wide_write_mask_blocks_commands classic_header one_entry_directory
              st "/p" O_WRONLY Hw) as (_ & _ & Hd & _ & Ho).
  split; [exact Hw|]. split; [vm_compute; reflexivity|].
  split; [exact Hd|]. apply Ho. left. discriminate.
Defined.

(** ** Mode, owner and link count *)

Lemma write_inode_twice (st : filesystem) (n : Z) (a b : ext2_inode_t) :
  write_inode (write_inode st n a).1 n b = write_inode st n b.
Proof.
  unfold write_inode. destruct (image st) as [d|] eqn:Hd;
    [|cbn; rewrite Hd; reflexivity].
  destruct (valid_inode_no n) eqn:Hv; cbn; rewrite ?Hd, ?Hv; [|reflexivity].
  unfold with_disk, with_image. cbn.
  rewrite insert_insert_eq. reflexivity.
Qed.

Lemma update_ctime_then_write (st : filesystem) (n : Z) (i : ext2_inode_t) :
  write_inode (update_ctime st n) n i = write_inode st n i.
Proof.
  unfold update_ctime. destruct (read_inode st n); [|reflexivity].
  apply write_inode_twice.
Qed.

Lemma write_inode_other (st : filesystem) (n m : Z) (i : ext2_inode_t) :
  m ≠ n → read_inode (write_inode st n i).1 m = read_inode st m.
Proof.
  intros Hne. unfold write_inode. destruct (image st) as [d|] eqn:Hd;
    [|reflexivity].
  destruct (valid_inode_no n); [|reflexivity].
  unfold read_inode. cbn. rewrite Hd.
  destruct (valid_inode_no m); [|reflexivity].
  rewrite lookup_insert_ne by congruence. reflexivity.
Qed.

Lemma write_inode_read_block (st : filesystem) (n : Z) (i : ext2_inode_t)
    (b : Z) :
  read_block (write_inode st n i).1 b = read_block st b.
Proof.
  unfold write_inode. destruct (image st) as [d|] eqn:Hd; [|reflexivity].
  destruct (valid_inode_no n); [|reflexivity].
  unfold read_block. cbn. rewrite Hd. reflexivity.
Qed.

Lemma mode_type_kept (old mode : Z) :
  Z.land (Z.lor (Z.land old 61440) (Z.land mode 4095)) 61440 = Z.land old 61440.
Proof.
  rewrite Z.land_lor_distr_l, <- !Z.land_assoc.
  change (Z.land 61440 61440) with 61440. change (Z.land 4095 61440) with 0.
  rewrite Z.land_0_r, Z.lor_0_r. reflexivity.
Qed.

Lemma mode_bits_set (old mode : Z) :
  Z.land (Z.lor (Z.land old 61440) (Z.land mode 4095)) 4095 = Z.land mode 4095.
Proof.
  rewrite Z.land_lor_distr_l, <- !Z.land_assoc.
  change (Z.land 61440 4095) with 0. change (Z.land 4095 4095) with 4095.
  rewrite Z.land_0_r, Z.lor_0_l. reflexivity.
Qed.

(** X10: [change_permission] replaces the twelve low bits of the mode and
    nothing else: the type bits stay, so the inode is a directory or a
    regular file exactly as before, whatever [mode] is; owner, size, link
    count, block pointers and the three times (ctime included) of the record
    stay; so do the other records, the data blocks, the bitmaps and the
    superblock.  Applying it twice with the same mode equals applying it
    once. *)
Theorem change_permission_bits_only `{Ext2Header}
    (st : filesystem) (n mode : Z) (inode : ext2_inode_t) :
  read_inode st n = Some inode →
  ∃ new_mode,
    read_inode (change_permission st n mode).1 n
    = Some (set_i_mode new_mode inode)
    ∧ Z.land new_mode 61440 = Z.land (i_mode inode) 61440
    ∧ Z.land new_mode 4095 = Z.land mode 4095
    ∧ is_directory (change_permission st n mode).1 n = is_directory st n
    ∧ is_regular_file (change_permission st n mode).1 n = is_regular_file st n
    ∧ (∀ m, m ≠ n →
         read_inode (change_permission st n mode).1 m = read_inode st m)
    ∧ (∀ b, read_block (change_permission st n mode).1 b = read_block st b)
    ∧ block_bitmap (change_permission st n mode).1 = block_bitmap st
    ∧ inode_bitmap (change_permission st n mode).1 = inode_bitmap st
    ∧ superblock (change_permission st n mode).1 = superblock st
    ∧ (change_permission (change_permission st n mode).1 n mode).1
      = (change_permission st n mode).1.
Proof.
  intros Hr.
  set (new_mode := Z.lor (Z.land (i_mode inode) 61440) (Z.land mode 4095)).
  assert (Heq : change_permission st n mode
                = write_inode st n (set_i_mode new_mode inode)).
  { unfold change_permission. rewrite Hr. apply update_ctime_then_write. }
  destruct (read_after_write_inode st n (set_i_mode new_mode inode) inode Hr)
    as [_ Hnew].
  destruct (write_inode_frame st n (set_i_mode new_mode inode))
    as (Wbb & Wib & Wsb & _ & _).
  exists new_mode. rewrite Heq.
  split; [exact Hnew|]. split; [apply mode_type_kept|].
  split; [apply mode_bits_set|].
  split; [unfold is_directory; rewrite Hnew, Hr; cbn [i_mode set_i_mode];
          unfold new_mode; rewrite mode_type_kept; reflexivity|].
  split; [unfold is_regular_file; rewrite Hnew, Hr; cbn [i_mode set_i_mode];
          unfold new_mode; rewrite mode_type_kept; reflexivity|].
  split; [intros m Hm; apply write_inode_other; exact Hm|].
  split; [intros b; apply write_inode_read_block|].
  split; [exact Wbb|]. split; [exact Wib|]. split; [exact Wsb|].
  unfold change_permission at 1. rewrite Hnew.
  rewrite update_ctime_then_write, write_inode_twice.
  cbn [i_mode set_i_mode]. fold new_mode. unfold new_mode at 1.
  rewrite mode_type_kept. fold new_mode. reflexivity.
Qed.

Lemma change_permission_bits_only_witness :
  let st := session empty_image root_user 2000 in
  read_inode st 2 = Some root_inode
  ∧ @is_directory classic_header (change_permission st 2 65535).1 2 = true
  ∧ (i_mode <$> read_inode (change_permission st 2 65535).1 2) = Some 20479.
Proof.
  intros st.
  assert (Hr : read_inode st 2 = Some root_inode) by (vm_compute; reflexivity).
  destruct (@change_permission_bits_only classic_header st 2 65535 root_inode Hr)
    as (m & _ & _ & _ & Hd & _).
  split; [exact Hr|]. split; [rewrite Hd|]; vm_compute; reflexivity.
Defined.

(** X11: [change_permission] and [change_owner] commute: in either order the
    record ends with the new permission bits and the new owner and group,
    all else (the times included) as before. *)
Theorem chmod_chown_commute (st : filesystem) (n mode uid gid : Z)
    (inode : ext2_inode_t) :
  read_inode st n = Some inode →
  (change_owner (change_permission st n mode).1 n uid gid).1
  = (change_permission (change_owner st n uid gid).1 n mode).1
  ∧ read_inode (change_owner (change_permission st n mode).1 n uid gid).1 n
    = Some (set_i_owner uid gid
              (set_i_mode
                 (Z.lor (Z.land (i_mode inode) 61440) (Z.land mode 4095))
                 inode)).
Proof.
  intros Hr.
  set (new_mode := Z.lor (Z.land (i_mode inode) 61440) (Z.land mode 4095)).
  assert (Hp : change_permission st n mode
               = write_inode st n (set_i_mode new_mode inode)).
  { unfold change_permission. rewrite Hr. apply update_ctime_then_write. }
  assert (Ho : change_owner st n uid gid
               = write_inode st n (set_i_owner uid gid inode)).
  { unfold change_owner. rewrite Hr. apply update_ctime_then_write. }
  destruct (read_after_write_inode st n (set_i_mode new_mode inode) inode Hr)
    as [_ Hrp].
  destruct (read_after_write_inode st n (set_i_owner uid gid inode) inode Hr)
    as [_ Hro].
  rewrite Hp, Ho. unfold change_owner, change_permission.
  rewrite Hrp, Hro, !update_ctime_then_write, !write_inode_twice.
  split; [reflexivity|].
  apply (read_after_write_inode _ _ _ _ Hr).
Qed.

Lemma chmod_chown_commute_witness :
  let st := session locked_image alice 2000 in
  read_inode st 11 = Some locked_file
  ∧ (change_owner (change_permission st 11 420).1 11 1000 1000).1
    = (change_permission (change_owner st 11 1000 1000).1 11 420).1.
Proof.
  intros st.
  assert (Hr : read_inode st 11 = Some locked_file) by (vm_compute; reflexivity).
  split; [exact Hr|].
  apply (chmod_chown_commute st 11 420 1000 1000 locked_file Hr).
Defined.

(** X12: the link count goes up and down by one: a decrement after an
    increment gives the record back (while the count is below 65535; from
    65535 the 16-bit count wraps to 0), and a decrement at 0 stays at 0 and
    still succeeds.  Neither changes the record's ctime. *)
Theorem link_count_up_and_down (st : filesystem) (n : Z) (inode : ext2_inode_t) :
  read_inode st n = Some inode →
  (0 ≤ i_links_count inode < 65535 →
   read_inode (decrement_link_count (increment_link_count st n).1 n).1 n
   = Some inode)
  ∧ (i_links_count inode = 65535 →
     i_links_count <$> read_inode (increment_link_count st n).1 n = Some 0)
  ∧ (i_links_count inode = 0 →
     (decrement_link_count st n).2 = 0
     ∧ read_inode (decrement_link_count st n).1 n = Some inode).
Proof.
  intros Hr.
  assert (Hi : increment_link_count st n
               = write_inode st n
                   (set_i_links_count (u16 (i_links_count inode + 1)) inode)).
  { unfold increment_link_count. rewrite Hr. apply update_ctime_then_write. }
  destruct (read_after_write_inode st n
              (set_i_links_count (u16 (i_links_count inode + 1)) inode) inode Hr)
    as [_ Hri].
  split; [|split].
  - intros Hc. rewrite Hi. unfold decrement_link_count. rewrite Hri.
    rewrite update_ctime_then_write, write_inode_twice.
    cbn [i_links_count set_i_links_count].
    assert (Hu : u16 (i_links_count inode + 1) = i_links_count inode + 1)
      by (unfold u16; apply Z.mod_small; lia).
    rewrite Hu. destruct (Z.gtb_spec (i_links_count inode + 1) 0); [|lia].
    replace (i_links_count inode + 1 - 1) with (i_links_count inode) by lia.
    replace (set_i_links_count _ (set_i_links_count _ inode)) with inode
      by (destruct inode; reflexivity).
    apply (read_after_write_inode _ _ _ _ Hr).
  - intros Hc. rewrite Hi, Hri. cbn. rewrite Hc. reflexivity.
  - intros Hc. unfold decrement_link_count. rewrite Hr, Hc.
    cbn [Z.gtb Z.compare]. rewrite update_ctime_then_write.
    apply (read_after_write_inode _ _ _ _ Hr).
Qed.

Lemma link_count_up_and_down_witness :
  let st := session empty_image root_user 2000 in
  (read_inode st 2 = Some root_inode ∧ 0 ≤ i_links_count root_inode < 65535)
  ∧ read_inode (decrement_link_count (increment_link_count st 2).1 2).1 2
    = Some root_inode.
Proof.
  intros st.
  assert (Hr : read_inode st 2 = Some root_inode) by (vm_compute; reflexivity).
  assert (Hc : 0 ≤ i_links_count root_inode < 65535) by (cbn; lia).
  destruct (link_count_up_and_down st 2 root_inode Hr) as (H1 & _).
  split; [split; assumption|]. apply H1. exact Hc.
Defined.

(** ** Creating, deleting and failing *)

(** X13: [create_inode] either fails with -1 and leaves the state as it was,
    or returns an inode number between [FIRST_INO] and [MAX_INODES] that was
    free and is now marked used, whose record holds the mode, owner and
    group given, size 0, one link, no block and the current time three
    times; the block bitmap and the other records are untouched. *)
Theorem create_inode_outcome (st : filesystem) (mode uid gid : Z) :
  ((create_inode st mode uid gid).2 = -1
   ∧ (create_inode st mode uid gid).1 = st)
  ∨ (FIRST_INO ≤ (create_inode st mode uid gid).2 ≤ MAX_INODES
     ∧ Z.testbit (inode_bitmap st) ((create_inode st mode uid gid).2 - 1) = false
     ∧ Z.testbit (inode_bitmap (create_inode st mode uid gid).1)
         ((create_inode st mode uid gid).2 - 1) = true
     ∧ read_inode (create_inode st mode uid gid).1
         (create_inode st mode uid gid).2
       = Some (mk_inode mode uid 0 (u32 (now st)) (u32 (now st)) (u32 (now st))
                 0 gid 1 0 0 (replicate 15 0))
     ∧ block_bitmap (create_inode st mode uid gid).1 = block_bitmap st
     ∧ ∀ m, m ≠ (create_inode st mode uid gid).2 →
         read_inode (create_inode st mode uid gid).1 m = read_inode st m).
Proof.
  unfold create_inode, allocate_inode.
  destruct (image st) as [d|] eqn:Hd; [|left; split; reflexivity].
  destruct (find_first_zero _ _ _) as [i|] eqn:Hf; [|left; split; reflexivity].
  apply find_first_zero_spec in Hf as [Hi Hb].
  unfold FIRST_INO, MAX_INODES in *.
  assert (Hv : valid_inode_no (i + 1) = true).
  { unfold valid_inode_no, MAX_INODES.
    apply andb_true_intro. split; apply Z.leb_le; lia. }
  rewrite (proj2 (Z.eqb_neq (i + 1) 0)) by lia.
  unfold write_inode. cbn [image with_image]. rewrite Hv. cbn [negb Z.eqb fst snd].
  right. unfold inode_bitmap, block_bitmap, read_inode. cbn. rewrite Hd, Hv.
  replace (i + 1 - 1) with i by lia.
  split; [lia|]. split; [exact Hb|].
  split; [apply Z.setbit_eq; lia|].
  split; [cbn; rewrite lookup_insert_eq; reflexivity|].
  split; [reflexivity|].
  intros m Hm. destruct (valid_inode_no m); [|reflexivity]. cbn.
  rewrite !lookup_insert_ne by congruence. reflexivity.
Qed.

(** X14: deleting the inode that [create_inode] has just returned gives back
    what the creation took: both bitmaps and the superblock with its free
    counts are what they were before the creation, and the record is
    zero-filled. *)
Theorem create_then_delete_inode (st st1 : filesystem) (mode uid gid ino : Z) :
  0 ≤ s_free_inodes_count (superblock st) < 2 ^ 32 →
  create_inode st mode uid gid = (st1, ino) →
  ino ≠ -1 →
  (delete_inode st1 ino).2 = 0
  ∧ block_bitmap (delete_inode st1 ino).1 = block_bitmap st
  ∧ inode_bitmap (delete_inode st1 ino).1 = inode_bitmap st
  ∧ superblock (delete_inode st1 ino).1 = superblock st
  ∧ read_inode (delete_inode st1 ino).1 ino = Some zero_inode.
Proof.
  intros Hcnt Hc Hok.
  destruct (create_inode_success _ _ _ _ _ _ Hc Hok)
    as (d & i & Hd & Hi & Hv & -> & Hfree & Hbb1 & Hib1 & Hsb1 & Hnew).
  rewrite (delete_inode_without_blocks _ _ _ Hnew eq_refl). cbn [fst snd].
  destruct (write_inode_frame st1 (i + 1) zero_inode)
    as (Wbb & Wib & Wsb & _ & Wim).
  destruct (read_after_write_inode st1 (i + 1) zero_inode _ Hnew) as [_ Hz].
  assert (Him : is_Some (image st1)).
  { apply read_inode_Some in Hnew as (d1 & Hd1 & _). rewrite Hd1. eauto. }
  destruct (free_inode_allocated (write_inode st1 (i + 1) zero_inode).1 (i + 1))
    as (Fbb & Fib & Fsb & _); [auto | exact Hv | |].
  { rewrite Wib, Hib1. replace (i + 1 - 1) with i by lia.
    apply Z.setbit_eq. exact Hi. }
  destruct (free_inode_frame (write_inode st1 (i + 1) zero_inode).1 (i + 1))
    as (_ & _ & Fri & _).
  rewrite Fbb, Fib, Fsb, Fri, Wbb, Wib, Wsb, Hbb1, Hib1, Hsb1.
  unfold block_bitmap, inode_bitmap. rewrite Hd.
  replace (i + 1 - 1) with i by lia.
  split; [reflexivity|]. split; [reflexivity|].
  split; [apply clearbit_setbit; assumption|].
  split; [|exact Hz].
  cbn [s_free_inodes_count set_s_free_inodes_count].
  rewrite set_s_free_inodes_count_twice, u32_dec_inc by exact Hcnt.
  apply set_s_free_inodes_count_same.
Qed.

Lemma create_then_delete_inode_witness :
  let st := session empty_image root_user 2000 in
  let made := create_inode st 33188 0 0 in
  (0 ≤ s_free_inodes_count (superblock st) < 2 ^ 32 ∧ made.2 = 11)
  ∧ inode_bitmap (delete_inode made.1 11).1 = inode_bitmap st
  ∧ superblock (delete_inode made.1 11).1 = superblock st.
Proof.
  intros st made.
  assert (Hn : 0 ≤ s_free_inodes_count (superblock st) < 2 ^ 32)
    by (change (s_free_inodes_count (superblock st)) with 127; lia).
  assert (Hc : create_inode st 33188 0 0 = (made.1, 11))
    by (vm_compute; reflexivity).
  destruct (create_then_delete_inode st made.1 33188 0 0 11 Hn Hc ltac:(lia))
    as (_ & _ & H3 & H4 & _).
  split; [split; [exact Hn | vm_compute; reflexivity]|]. split; assumption.
Defined.

(** X15: when the inode cannot be read (inode number 0 or above
    [MAX_INODES], or no image mounted) every operation of the inode layer
    fails and changes nothing: the status is -1, the predicates answer
    false, the size is 0 and a block lookup fails. *)
Theorem unreadable_inode_fails `{Ext2Header} (st : filesystem)
    (n a b : Z) (buffer : list Z) :
  read_inode st n = None →
  delete_inode st n = (st, -1)
  ∧ get_inode_block st n a = None
  ∧ set_inode_block st n a b = (st, -1)
  ∧ read_inode_data st n a b = (st, (-1, []))
  ∧ write_inode_data st n buffer a b = (st, -1)
  ∧ truncate_inode st n a = (st, -1)
  ∧ change_permission st n a = (st, -1)
  ∧ change_owner st n a b = (st, -1)
  ∧ increment_link_count st n = (st, -1)
  ∧ decrement_link_count st n = (st, -1)
  ∧ check_permission st n a = false
  ∧ is_directory st n = false
  ∧ is_regular_file st n = false
  ∧ get_file_size st n = 0.
Proof.
  intros Hr.
  unfold delete_inode, get_inode_block, set_inode_block, read_inode_data,
    write_inode_data, truncate_inode, change_permission, change_owner,
    increment_link_count, decrement_link_count, check_permission,
    is_directory, is_regular_file, get_file_size.
  rewrite Hr. repeat split.
Qed.

Lemma read_inode_unmounted (st : filesystem) (n : Z) :
  read_inode (cmd_umount st).1 n = None.
Proof. reflexivity. Qed.

(** After [cmd_umount] the descriptor that root had opened is still in the
    table, and reading through it fails with -1. *)
Lemma unreadable_inode_fails_witness :
  let st := (cmd_umount opened_state).1 in
  read_inode st 11 = None
  ∧ read_inode_data st 11 5 0 = (st, (-1, []))
  ∧ (cmd_read st 3 5).1.2.1 = -1
  ∧ @is_regular_file classic_header st 11 = false.
Proof.
  intros st.
  assert (Hr : read_inode st 11 = None) by apply read_inode_unmounted.
  destruct (@unreadable_inode_fails classic_header st 11 5 0 [] Hr)
    as (_ & _ & _ & H4 & _ & _ & _ & _ & _ & _ & _ & _ & H13 & _).
  split; [exact Hr|]. split; [exact H4|].
  split; [vm_compute; reflexivity | exact H13].
Defined.

(** ** Block mapping *)

Lemma nth_insert_eq (l : list Z) (i : nat) (x : Z) :
  (i < length l)%nat → nth i (<[i := x]> l) 0 = x.
Proof.
  intros Hi. rewrite nth_lookup, list_lookup_insert_eq by exact Hi. reflexivity.
Qed.

Lemma nth_insert_ne (l : list Z) (i j : nat) (x : Z) :
  i ≠ j → nth j (<[i := x]> l) 0 = nth j l 0.
Proof.
  intros Hne. rewrite !nth_lookup, list_lookup_insert_ne by exact Hne.
  reflexivity.
Qed.

Lemma length_set_u32 (b : block) (k v : Z) : length (set_u32 b k v) = length b.
Proof. unfold set_u32, block. rewrite !length_insert. reflexivity. Qed.

Lemma get_u32_set_u32_eq (b : block) (k v : Z) :
  0 ≤ k → (Z.to_nat (4 * k + 3) < length b)%nat → 0 ≤ v < 2 ^ 32 →
  get_u32 (set_u32 b k v) k = v.
Proof.
  intros Hk Hlen Hv. unfold get_u32, set_u32, byte_at, block in *.
  rewrite nth_insert_eq by (rewrite !length_insert; lia).
  rewrite (nth_insert_ne _ (Z.to_nat (4 * k + 3)) (Z.to_nat (4 * k + 2))) by lia.
  rewrite nth_insert_eq by (rewrite !length_insert; lia).
  rewrite (nth_insert_ne _ (Z.to_nat (4 * k + 3)) (Z.to_nat (4 * k + 1))) by lia.
  rewrite (nth_insert_ne _ (Z.to_nat (4 * k + 2)) (Z.to_nat (4 * k + 1))) by lia.
  rewrite nth_insert_eq by (rewrite !length_insert; lia).
  rewrite (nth_insert_ne _ (Z.to_nat (4 * k + 3)) (Z.to_nat (4 * k))) by lia.
  rewrite (nth_insert_ne _ (Z.to_nat (4 * k + 2)) (Z.to_nat (4 * k))) by lia.
  rewrite (nth_insert_ne _ (Z.to_nat (4 * k + 1)) (Z.to_nat (4 * k))) by lia.
  rewrite nth_insert_eq by lia.
  Z.div_mod_to_equations. lia.
Qed.

Lemma get_u32_set_u32_ne (b : block) (k j v : Z) :
  0 ≤ k → 0 ≤ j → j ≠ k → get_u32 (set_u32 b k v) j = get_u32 b j.
Proof.
  intros Hk Hj Hne. unfold get_u32, set_u32, byte_at, block in *.
  rewrite !nth_insert_ne by lia. reflexivity.
Qed.

Lemma block_ptr_insert_eq (inode : ext2_inode_t) (k b : Z) :
  0 ≤ k → (Z.to_nat k < length (i_block inode))%nat →
  block_ptr (set_i_block (<[Z.to_nat k := b]> (i_block inode)) inode) k = b.
Proof. intros Hk Hl. unfold block_ptr. cbn. apply nth_insert_eq. exact Hl. Qed.

Lemma block_ptr_insert_ne (inode : ext2_inode_t) (k j b : Z) :
  0 ≤ k → 0 ≤ j → j ≠ k →
  block_ptr (set_i_block (<[Z.to_nat k := b]> (i_block inode)) inode) j
  = block_ptr inode j.
Proof. intros Hk Hj Hne. unfold block_ptr. cbn. apply nth_insert_ne. lia. Qed.

(** X16: storing a block number in one of the twelve direct slots succeeds,
    a lookup of that index then returns the number stored, the lookup of
    every other direct index answers as before, and no block is allocated.
    The lookup of every index from 12 on answers as before too when the
    indirect pointer [i_block[12]] is unset or names a block past the inode
    table (the record itself does not lie in the block it names). *)
Theorem set_then_get_direct_block (st : filesystem) (n k b : Z)
    (inode : ext2_inode_t) :
  read_inode st n = Some inode →
  length (i_block inode) = 15%nat →
  0 ≤ k < 12 →
  (set_inode_block st n k b).2 = 0
  ∧ get_inode_block (set_inode_block st n k b).1 n k = Some b
  ∧ (∀ j, 0 ≤ j < 12 → j ≠ k →
       get_inode_block (set_inode_block st n k b).1 n j
       = get_inode_block st n j)
  ∧ (data_pointer (block_ptr inode 12) →
     ∀ j, 12 ≤ j →
       get_inode_block (set_inode_block st n k b).1 n j
       = get_inode_block st n j)
  ∧ block_bitmap (set_inode_block st n k b).1 = block_bitmap st.
Proof.
  intros Hr Hlen Hk. unfold set_inode_block. rewrite Hr.
  destruct (Z.ltb_spec k 12) as [_|]; [|lia].
  set (inode' := set_i_block (<[Z.to_nat k := b]> (i_block inode)) inode).
  destruct (read_after_write_inode st n inode' inode Hr) as [Hz Hnew].
  destruct (write_inode_frame st n inode') as (Wbb & _).
  assert (Hother : ∀ j, 0 ≤ j → j ≠ k →
            get_inode_block (write_inode st n inode').1 n j
            = get_inode_block st n j).
  { intros j Hj Hne. unfold get_inode_block. rewrite Hnew, Hr.
    assert (H12 : block_ptr inode' 12 = block_ptr inode 12)
      by (apply block_ptr_insert_ne; lia).
    rewrite H12, write_inode_read_block.
    destruct (j <? 12); [|reflexivity].
    f_equal. apply block_ptr_insert_ne; lia. }
  split; [exact Hz|]. split; [|split; [|split; [|exact Wbb]]].
  - unfold get_inode_block. rewrite Hnew.
    destruct (Z.ltb_spec k 12) as [_|]; [|lia].
    f_equal. apply block_ptr_insert_eq; lia.
  - intros j Hj Hne. apply Hother; lia.
  - intros _ j Hj. apply Hother; lia.
Qed.

Lemma set_then_get_direct_block_witness :
  let st := session two_block_image root_user 2000 in
  (read_inode st 11 = Some two_block_file
   ∧ length (i_block two_block_file) = 15%nat)
  ∧ get_inode_block (set_inode_block st 11 5 700).1 11 5 = Some 700
  ∧ get_inode_block (set_inode_block st 11 5 700).1 11 1 = Some 21
  ∧ get_inode_block (set_inode_block st 11 5 700).1 11 12 = Some 0.
Proof.
  intros st.
  assert (Hr : read_inode st 11 = Some two_block_file)
    by (vm_compute; reflexivity).
  assert (Hl : length (i_block two_block_file) = 15%nat) by reflexivity.
  destruct (set_then_get_direct_block st 11 5 700 two_block_file Hr Hl
              ltac:(lia)) as (_ & H2 & H3 & H4 & _).
  split; [split; assumption|]. split; [exact H2|]. split.
  - rewrite (H3 1) by lia. vm_compute. reflexivity.
  - rewrite (H4 (or_introl eq_refl) 12) by lia. vm_compute. reflexivity.
Defined.

Lemma read_block_Some (st : filesystem) (p : Z) (blk : block) :
  read_block st p = Some blk →
  is_data_block p = true ∧ ∃ d, image st = Some d.
Proof.
  unfold read_block. destruct (image st) as [d|]; [|discriminate].
  destruct (is_data_block p); [|discriminate]. eauto.
Qed.

Lemma read_after_write_block (st : filesystem) (p : Z) (old new : block) :
  read_block st p = Some old →
  read_block (write_block st p new).1 p = Some new.
Proof.
  intros Hr. destruct (read_block_Some _ _ _ Hr) as (Hp & d & Hd).
  unfold write_block, read_block. rewrite Hd, Hp. cbn. rewrite ?Hp.
  rewrite lookup_insert_eq. reflexivity.
Qed.

Lemma get_u32_zero_block (j : Z) : get_u32 zero_block j = 0.
Proof.
  assert (Hb : ∀ q, byte_at zero_block q = 0).
  { intros q. unfold byte_at, zero_block. rewrite nth_lookup.
    destruct (replicate _ 0 !! Z.to_nat q) as [x|] eqn:Hx; [|reflexivity].
    apply lookup_replicate_1 in Hx as [-> _]. reflexivity. }
  unfold get_u32. rewrite !Hb. reflexivity.
Qed.

(** What a lookup finds once entry [k] of the indirect block [p] has been
    stored and the record [inode1], which points to [p], written. *)
Lemma indirect_store_lookup (st1 : filesystem) (n k b j : Z)
    (inode1 old : ext2_inode_t) (blk : block) :
  read_inode st1 n = Some old →
  block_ptr inode1 12 ≠ 0 →
  read_block st1 (block_ptr inode1 12) = Some blk →
  length blk = Z.to_nat BLOCK_SIZE →
  12 ≤ k < 12 + BLOCK_SIZE / 4 → 0 ≤ b < 2 ^ 32 → 0 ≤ j →
  get_inode_block
    (write_inode
       (write_block st1 (block_ptr inode1 12) (set_u32 blk (k - 12) b)).1
       n inode1).1 n j
  = if j =? k then Some b
    else if j <? 12 then Some (block_ptr inode1 j)
    else if j <? 12 + BLOCK_SIZE / 4 then Some (get_u32 blk (j - 12))
    else None.
Proof.
  intros Hr Hp Hb Hlen Hk Hbv Hj.
  set (st2 := (write_block st1 _ _).1).
  assert (Hr2 : read_inode st2 n = Some old)
    by (unfold st2; rewrite write_block_read_inode; exact Hr).
  destruct (read_after_write_inode st2 n inode1 old Hr2) as [_ Hnew].
  unfold get_inode_block. rewrite Hnew, write_inode_read_block.
  unfold st2. rewrite (read_after_write_block _ _ _ _ Hb).
  rewrite (proj2 (Z.eqb_neq _ _) Hp).
  unfold BLOCK_SIZE in *. change (12 + 1024 / 4) with 268 in *.
  destruct (Z.eqb_spec j k) as [->|Hne].
  - destruct (Z.ltb_spec k 12); [lia|]. destruct (Z.ltb_spec k 268); [|lia].
    f_equal. apply get_u32_set_u32_eq; [lia | lia | exact Hbv].
  - destruct (Z.ltb_spec j 12) as [|Hge]; [reflexivity|].
    destruct (Z.ltb_spec j 268); [|reflexivity].
    f_equal. apply get_u32_set_u32_ne; lia.
Qed.

Lemma allocate_block_success (st st1 : filesystem) (b : Z) :
  allocate_block st = (st1, b) → b ≠ 0 →
  is_data_block b = true
  ∧ read_block st1 b = Some zero_block
  ∧ Z.testbit (block_bitmap st) b = false
  ∧ Z.testbit (block_bitmap st1) b = true.
Proof.
  unfold allocate_block. destruct (image st) as [d|] eqn:Hd;
    [|intros [= _ <-]; congruence].
  destruct (find_first_zero _ _ _) as [i|] eqn:Hf; [|intros [= _ <-]; congruence].
  apply find_first_zero_spec in Hf as [Hi Hb]. intros [= <- <-] _.
  change FIRST_DATA_BLOCK with 19 in Hi. change MAX_BLOCKS with 1024 in Hi.
  assert (Hdata : is_data_block i = true).
  { unfold is_data_block. change FIRST_DATA_BLOCK with 19.
    change MAX_BLOCKS with 1024. apply andb_true_intro.
    split; [apply Z.leb_le | apply Z.ltb_lt]; lia. }
  unfold read_block, block_bitmap. cbn. rewrite Hd, Hdata.
  rewrite lookup_insert_eq.
  repeat split; auto. apply Z.setbit_eq. lia.
Qed.



(** ** Reading and writing data *)

Lemma block_index_offset (current_offset : Z) :
  0 ≤ current_offset < 2 ^ 32 * BLOCK_SIZE →
  u32 (current_offset ÷ BLOCK_SIZE) = current_offset / BLOCK_SIZE
  ∧ u32 (Z.rem current_offset BLOCK_SIZE) = current_offset mod BLOCK_SIZE
  ∧ u32 (BLOCK_SIZE - u32 (Z.rem current_offset BLOCK_SIZE))
    = BLOCK_SIZE - current_offset mod BLOCK_SIZE
  ∧ 0 ≤ current_offset mod BLOCK_SIZE < BLOCK_SIZE.
Proof.
  unfold BLOCK_SIZE. intros Hco.
  rewrite Z.quot_div_nonneg, Z.rem_mod_nonneg by lia.
  assert (Hm : 0 ≤ current_offset mod 1024 < 1024)
    by (apply Z.mod_pos_bound; lia).
  assert (Hd : 0 ≤ current_offset / 1024 < 2 ^ 32).
  { split; [apply Z.div_pos; lia|]. apply Z.div_lt_upper_bound; lia. }
  unfold u32.
  rewrite (Z.mod_small (current_offset / 1024)) by lia.
  rewrite (Z.mod_small (current_offset mod 1024)) by lia.
  rewrite (Z.mod_small (1024 - current_offset mod 1024)) by lia.
  auto.
Qed.

(** What the reading loop returns, from any point of its run. *)
Lemma read_loop_bounds (st : filesystem) (n isize : Z) :
  0 ≤ isize < 2 ^ 32 →
  ∀ fuel bytes_read copied remaining current_offset,
    0 ≤ remaining → 0 ≤ current_offset →
    let r := read_loop fuel st n isize bytes_read copied remaining
               current_offset in
    bytes_read ≤ r.1 ≤ bytes_read + remaining
    ∧ current_offset + (r.1 - bytes_read) ≤ Z.max current_offset isize
    ∧ (whole_blocks st →
       Z.of_nat (length r.2) = Z.of_nat (length copied) + (r.1 - bytes_read)).
Proof.
  intros Hsize. induction fuel as [|fuel IH]; intros br copied rem co Hrem Hco;
    cbn [read_loop]; [cbn; split; [|split]; lia|].
  destruct (Z.ltb_spec 0 rem) as [Hpos|]; [|cbn; split; [|split]; lia].
  destruct (Z.ltb_spec co isize) as [Hlt|]; [|cbn; split; [|split]; lia].
  cbn [andb].
  destruct (block_index_offset co) as (_ & Hoff & Hb0 & Hmod);
    [unfold BLOCK_SIZE; lia|].
  rewrite Hb0, Hoff.
  destruct (get_inode_block st n _) as [b|]; [|cbn; split; [|split]; lia].
  destruct (b =? 0); [cbn; split; [|split]; lia|].
  destruct (read_block st b) as [blk|] eqn:Hblk; [|cbn; split; [|split]; lia].
  set (b1 := if BLOCK_SIZE - co mod BLOCK_SIZE >? rem then rem
             else BLOCK_SIZE - co mod BLOCK_SIZE).
  assert (Hb1 : 1 ≤ b1 ≤ rem ∧ b1 ≤ BLOCK_SIZE - co mod BLOCK_SIZE).
  { unfold b1. destruct (Z.gtb_spec (BLOCK_SIZE - co mod BLOCK_SIZE) rem); lia. }
  set (bytes := if u64 (co + b1) >? isize then isize - co else b1).
  assert (Hbytes : 1 ≤ bytes ≤ b1 ∧ co + bytes ≤ isize).
  { unfold bytes, u64. unfold BLOCK_SIZE in *.
    rewrite Z.mod_small by lia.
    destruct (Z.gtb_spec (co + b1) isize); lia. }
  specialize (IH (br + bytes)
                (copied ++ take (Z.to_nat bytes)
                             (drop (Z.to_nat (co mod BLOCK_SIZE)) blk))
                (rem - bytes) (co + bytes) ltac:(lia) ltac:(lia)).
  cbn zeta in IH. destruct IH as (IH1 & IH2 & IH3).
  split; [lia|]. split; [lia|].
  intros Hwhole. rewrite (IH3 Hwhole).
  rewrite length_app, length_take, length_drop, (Hwhole _ _ Hblk).
  unfold BLOCK_SIZE in *. lia.
Qed.

(** X18: [read_inode_data] never returns more bytes than asked for and never
    reads past the end of the file: for a non-negative offset and size the
    count [r] satisfies [0 <= r <= size] and [offset + r <= i_size] (with
    [r = 0] at or past the end); when the data blocks are whole, exactly [r]
    bytes are placed in the buffer. *)
Theorem read_inode_data_bounds (st : filesystem) (n size offset : Z)
    (inode : ext2_inode_t) :
  read_inode st n = Some inode →
  0 ≤ i_size inode < 2 ^ 32 → 0 ≤ size → 0 ≤ offset →
  0 ≤ (read_inode_data st n size offset).2.1 ≤ size
  ∧ offset + (read_inode_data st n size offset).2.1
    ≤ Z.max offset (i_size inode)
  ∧ (whole_blocks st →
     Z.of_nat (length (read_inode_data st n size offset).2.2)
     = (read_inode_data st n size offset).2.1).
Proof.
  intros Hr Hsize Hs Ho. unfold read_inode_data. rewrite Hr.
  destruct (Z.geb_spec offset (i_size inode)); [cbn; split; [|split]; lia|].
  cbn [fst snd].
  pose proof (read_loop_bounds st n (i_size inode) Hsize (S (Z.to_nat size)) 0 []
                size offset Hs Ho) as Hloop.
  cbn zeta in Hloop. destruct Hloop as (H1 & H2 & H3).
  split; [lia|]. split; [lia|].
  intros Hw. rewrite (H3 Hw). cbn. lia.
Qed.

Lemma read_inode_data_bounds_witness :
  let st := session two_block_image root_user 2000 in
  (read_inode st 11 = Some two_block_file
   ∧ 0 ≤ i_size two_block_file < 2 ^ 32)
  ∧ (read_inode_data st 11 5000 1000).2.1 = 1048
  ∧ 0 ≤ (read_inode_data st 11 5000 1000).2.1 ≤ 5000
  ∧ 1000 + (read_inode_data st 11 5000 1000).2.1 ≤ 2048.
Proof.
  intros st.
  assert (Hr : read_inode st 11 = Some two_block_file)
    by (vm_compute; reflexivity).
  assert (Hs : 0 ≤ i_size two_block_file < 2 ^ 32) by (cbn; lia).
  destruct (read_inode_data_bounds st 11 5000 1000 two_block_file Hr Hs
              ltac:(lia) ltac:(lia)) as (H1 & H2 & _).
  split; [split; assumption|]. split; [vm_compute; reflexivity|].
  split; [exact H1|]. cbn [i_size two_block_file] in H2. lia.
Defined.

(** X19: a read changes at most the access time of the inode read: at or past
    the end of the file it returns 0 and leaves the state as it is (the
    access time too); before the end it sets [i_atime] to the current time
    and touches nothing else: not the other fields of the record, the other
    records, the data blocks, the bitmaps or the superblock. *)
Theorem read_inode_data_sets_atime_only (st : filesystem) (n size offset : Z)
    (inode : ext2_inode_t) :
  read_inode st n = Some inode →
  (i_size inode ≤ offset → read_inode_data st n size offset = (st, (0, [])))
  ∧ (offset < i_size inode →
     read_inode (read_inode_data st n size offset).1 n
     = Some (set_i_atime (u32 (now st)) inode))
  ∧ (∀ m, m ≠ n →
       read_inode (read_inode_data st n size offset).1 m = read_inode st m)
  ∧ (∀ p, read_block (read_inode_data st n size offset).1 p = read_block st p)
  ∧ block_bitmap (read_inode_data st n size offset).1 = block_bitmap st
  ∧ inode_bitmap (read_inode_data st n size offset).1 = inode_bitmap st
  ∧ superblock (read_inode_data st n size offset).1 = superblock st.
Proof.
  intros Hr. unfold read_inode_data. rewrite Hr.
  destruct (Z.geb_spec offset (i_size inode)) as [Hge|Hlt]; cbn [fst snd].
  - repeat split; auto. intros Hx. lia.
  - unfold update_atime. rewrite Hr.
    destruct (read_after_write_inode st n (set_i_atime (u32 (now st)) inode)
                inode Hr) as [_ Hnew].
    destruct (write_inode_frame st n (set_i_atime (u32 (now st)) inode))
      as (Wbb & Wib & Wsb & _).
    split; [intros Hx; lia|]. split; [intros _; exact Hnew|].
    split; [intros m Hm; apply write_inode_other; exact Hm|].
    split; [intros p; apply write_inode_read_block|]. auto.
Qed.

Lemma read_inode_data_sets_atime_only_witness :
  let st := session two_block_image root_user 2000 in
  read_inode st 11 = Some two_block_file
  ∧ read_inode_data st 11 5 2048 = (st, (0, []))
  ∧ read_inode (read_inode_data st 11 5 0).1 11
    = Some (set_i_atime 2000 two_block_file).
Proof.
  intros st.
  assert (Hr : read_inode st 11 = Some two_block_file)
    by (vm_compute; reflexivity).
  destruct (read_inode_data_sets_atime_only st 11 5 2048 two_block_file Hr)
    as (H1 & _).
  destruct (read_inode_data_sets_atime_only st 11 5 0 two_block_file Hr)
    as (_ & H2 & _).
  split; [exact Hr|]. split; [apply H1; cbn; lia | apply H2; cbn; lia].
Defined.

(** What the writing loop returns, from any point of its run. *)
Lemma write_loop_bounds (n : Z) (buffer : list Z) :
  ∀ fuel st bytes_written remaining current_offset,
    0 ≤ remaining →
    let r := write_loop fuel st n buffer bytes_written remaining
               current_offset in
    bytes_written ≤ r.1.2 ≤ bytes_written + remaining
    ∧ r.2 - current_offset = r.1.2 - bytes_written.
Proof.
  induction fuel as [|fuel IH]; intros st bw rem co Hrem; cbn [write_loop];
    [cbn; lia|].
  destruct (Z.ltb_spec 0 rem) as [Hpos|]; [|cbn; lia].
  pose proof (bytes_in_block_positive co) as Hb0.
  destruct (get_inode_block st n _) as [mapped|]; [|cbn; lia].
  destruct (if mapped =? 0 then _ else _) as [st1 got].
  destruct got as [block_no|]; [|cbn; lia].
  destruct (read_block st1 block_no) as [blk|]; [|cbn; lia].
  set (b0 := u32 (BLOCK_SIZE - u32 (Z.rem co BLOCK_SIZE))) in *.
  set (bytes := if b0 >? rem then rem else b0).
  assert (Hbytes : 1 ≤ bytes ≤ rem)
    by (unfold bytes; destruct (Z.gtb_spec b0 rem); lia).
  destruct (write_block st1 block_no _) as [st2 r].
  destruct (negb (r =? 0)); [cbn; lia|].
  specialize (IH st2 (bw + bytes) (rem - bytes) (co + bytes) ltac:(lia)).
  cbn zeta in IH. lia.
Qed.

(** X20: [write_inode_data] on a readable inode returns a count between 0 and
    the size asked for. *)
Theorem write_inode_data_bounds (st : filesystem) (n : Z) (buffer : list Z)
    (size offset : Z) (inode : ext2_inode_t) :
  read_inode st n = Some inode → 0 ≤ size →
  0 ≤ (write_inode_data st n buffer size offset).2 ≤ size.
Proof.
  intros Hr Hs. unfold write_inode_data. rewrite Hr.
  pose proof (write_loop_bounds n buffer (S (Z.to_nat size)) st 0 size offset Hs)
    as Hl.
  cbn zeta in Hl.
  destruct (write_loop _ _ _ _ _ _ _) as [[st1 bw] co]. cbn [fst snd] in *. lia.
Qed.

Lemma write_inode_data_bounds_witness :
  let st := at_time 2000 new_file_state in
  read_inode st 11
  = Some (mk_inode 33188 0 0 1000 1000 1000 0 0 1 0 0 (replicate 15 0))
  ∧ 0 ≤ (write_inode_data st 11 hello 5 0).2 ≤ 5.
Proof.
  intros st.
  assert (Hr : read_inode st 11
               = Some (mk_inode 33188 0 0 1000 1000 1000 0 0 1 0 0
                         (replicate 15 0))) by (vm_compute; reflexivity).
  split; [exact Hr|].
  apply (write_inode_data_bounds st 11 hello 5 0 _ Hr). lia.
Defined.

(** X21: a file ends at 12 direct and 256 indirect blocks: a write that
    starts at or beyond byte 268 * 1024, and below byte 2^32 * 1024 (from
    there on the 32-bit block index wraps round), transfers nothing.  It
    returns 0 and leaves the image as the two timestamp updates alone would:
    no block is allocated and no data written. *)
Theorem write_beyond_last_block (st : filesystem) (n : Z) (buffer : list Z)
    (size offset : Z) (inode : ext2_inode_t) :
  read_inode st n = Some inode →
  (12 + BLOCK_SIZE / 4) * BLOCK_SIZE ≤ offset < 2 ^ 32 * BLOCK_SIZE →
  write_inode_data st n buffer size offset
  = (update_ctime (update_mtime st n) n, 0).
Proof.
  intros Hr Ho. unfold write_inode_data. rewrite Hr.
  assert (Hloop : write_loop (S (Z.to_nat size)) st n buffer 0 size offset
                  = (st, 0, offset)).
  { cbn [write_loop]. destruct (0 <? size); [|reflexivity].
    change ((12 + BLOCK_SIZE / 4) * BLOCK_SIZE) with (1024 * 268) in Ho.
    destruct (block_index_offset offset) as (Hidx & _); [lia|].
    rewrite Hidx. unfold get_inode_block. rewrite Hr.
    change (12 + BLOCK_SIZE / 4) with 268. change BLOCK_SIZE with 1024 in *.
    assert (Hq : 268 ≤ offset / 1024) by (apply Z.div_le_lower_bound; lia).
    destruct (Z.ltb_spec (offset / 1024) 12); [lia|].
    destruct (Z.ltb_spec (offset / 1024) 268); [lia|].
    reflexivity. }
  rewrite Hloop. reflexivity.
Qed.

Lemma write_beyond_last_block_witness :
  let st := session two_block_image root_user 2000 in
  read_inode st 11 = Some two_block_file
  ∧ (write_inode_data st 11 hello 5 274432).2 = 0
  ∧ block_bitmap (write_inode_data st 11 hello 5 274432).1 = block_bitmap st.
Proof.
  intros st.
  assert (Hr : read_inode st 11 = Some two_block_file)
    by (vm_compute; reflexivity).
  rewrite (write_beyond_last_block st 11 hello 5 274432 two_block_file Hr)
    by (change ((12 + BLOCK_SIZE / 4) * BLOCK_SIZE) with 274432;
        unfold BLOCK_SIZE; lia).
  split; [exact Hr|]. split; [reflexivity | vm_compute; reflexivity].
Defined.

Lemma allocate_block_none (st : filesystem) :
  (allocate_block st).2 = 0 → allocate_block st = (st, 0).
Proof.
  destruct (allocate_block st) as [st1 b] eqn:Ha. cbn. intros ->.
  revert Ha. unfold allocate_block.
  destruct (image st) as [d|]; [|intros [= <-]; reflexivity].
  destruct (find_first_zero _ _ _) as [i|] eqn:Hf; [|intros [= <-]; reflexivity].
  apply find_first_zero_spec in Hf as [Hi _].
  change FIRST_DATA_BLOCK with 19 in Hi. intros [= _ ->]. lia.
Qed.

(** X22: when no block is free, a write that starts in a block the file does
    not have yet transfers nothing: it returns 0 and leaves the image as the
    two timestamp updates alone would. *)
Theorem write_without_free_block (st : filesystem) (n : Z) (buffer : list Z)
    (size offset : Z) (inode : ext2_inode_t) :
  read_inode st n = Some inode →
  0 ≤ offset < 2 ^ 32 * BLOCK_SIZE →
  get_inode_block st n (offset / BLOCK_SIZE) = Some 0 →
  (allocate_block st).2 = 0 →
  write_inode_data st n buffer size offset
  = (update_ctime (update_mtime st n) n, 0).
Proof.
  intros Hr Ho Hmap Hfull. unfold write_inode_data. rewrite Hr.
  assert (Hloop : write_loop (S (Z.to_nat size)) st n buffer 0 size offset
                  = (st, 0, offset)).
  { cbn [write_loop]. destruct (0 <? size); [|reflexivity].
    destruct (block_index_offset offset Ho) as (Hidx & _).
    rewrite Hidx, Hmap. cbn [Z.eqb].
    rewrite (allocate_block_none st Hfull). reflexivity. }
  rewrite Hloop. reflexivity.
Qed.

Lemma write_without_free_block_witness :
  let st := session full_image root_user 2000 in
  (read_inode st 11 = Some two_block_file
   ∧ get_inode_block st 11 (2048 / BLOCK_SIZE) = Some 0
   ∧ (allocate_block st).2 = 0)
  ∧ (write_inode_data st 11 hello 5 2048).2 = 0.
Proof.
  intros st.
  assert (Hr : read_inode st 11 = Some two_block_file)
    by (vm_compute; reflexivity).
  assert (Hm : get_inode_block st 11 (2048 / BLOCK_SIZE) = Some 0)
    by (vm_compute; reflexivity).
  assert (Hf : (allocate_block st).2 = 0) by (vm_compute; reflexivity).
  rewrite (write_without_free_block st 11 hello 5 2048 two_block_file Hr
             ltac:(unfold BLOCK_SIZE; lia) Hm Hf).
  split; [repeat split; assumption | reflexivity].
Defined.

Lemma write_loop_done (fuel : nat) (st : filesystem) (n : Z) (buffer : list Z)
    (bytes_written remaining current_offset : Z) :
  remaining ≤ 0 →
  write_loop fuel st n buffer bytes_written remaining current_offset
  = (st, bytes_written, current_offset).
Proof.
  intros Hr. destruct fuel; cbn [write_loop]; [reflexivity|].
  destruct (Z.ltb_spec 0 remaining); [lia | reflexivity].
Qed.

Lemma read_loop_done (fuel : nat) (st : filesystem) (n isize : Z)
    (bytes_read : Z) (copied : list Z) (remaining current_offset : Z) :
  remaining ≤ 0 →
  read_loop fuel st n isize bytes_read copied remaining current_offset
  = (bytes_read, copied).
Proof.
  intros Hr. destruct fuel; cbn [read_loop]; [reflexivity|].
  destruct (Z.ltb_spec 0 remaining); [lia | reflexivity].
Qed.

Lemma read_inode_update_mtime (st : filesystem) (n : Z) (old : ext2_inode_t) :
  read_inode st n = Some old →
  read_inode (update_mtime st n) n = Some (set_i_mtime (u32 (now st)) old).
Proof.
  intros Hr. unfold update_mtime. rewrite Hr.
  apply (read_after_write_inode _ _ _ _ Hr).
Qed.

Lemma update_mtime_read_block (st : filesystem) (n p : Z) :
  read_block (update_mtime st n) p = read_block st p.
Proof.
  unfold update_mtime. destruct (read_inode st n); [|reflexivity].
  apply write_inode_read_block.
Qed.

Lemma update_ctime_read_block (st : filesystem) (n p : Z) :
  read_block (update_ctime st n) p = read_block st p.
Proof.
  unfold update_ctime. destruct (read_inode st n); [|reflexivity].
  apply write_inode_read_block.
Qed.

Lemma patch_read_back (blk : block) (at_ : nat) (src : list Z) :
  (at_ ≤ length blk)%nat →
  take (length src) (drop at_ (patch blk (Z.of_nat at_) src)) = src.
Proof.
  intros Hle. unfold patch. rewrite Nat2Z.id.
  rewrite drop_app_length' by (rewrite length_take_le; lia).
  apply take_app_length.
Qed.



(** ** Commands that fail *)

Lemma read_loop_nonneg (st : filesystem) (n isize : Z) :
  ∀ fuel bytes_read copied remaining current_offset,
    bytes_read
    ≤ (read_loop fuel st n isize bytes_read copied remaining current_offset).1.
Proof.
  induction fuel as [|fuel IH]; intros br copied rem co; cbn [read_loop];
    [cbn; lia|].
  destruct (Z.ltb_spec 0 rem) as [Hpos|]; [|cbn; lia].
  destruct (Z.ltb_spec co isize) as [Hlt|]; [|cbn; lia].
  cbn [andb].
  pose proof (bytes_in_block_positive co) as Hb0.
  destruct (get_inode_block st n _) as [b|]; [|cbn; lia].
  destruct (b =? 0); [cbn; lia|].
  destruct (read_block st b) as [blk|]; [|cbn; lia].
  set (b0 := u32 (BLOCK_SIZE - u32 (Z.rem co BLOCK_SIZE))) in *.
  set (b1 := if b0 >? rem then rem else b0).
  assert (Hb1 : 1 ≤ b1) by (unfold b1; destruct (Z.gtb_spec b0 rem); lia).
  set (bytes := if u64 (co + b1) >? isize then isize - co else b1).
  assert (Hbytes : 1 ≤ bytes)
    by (unfold bytes; destruct (u64 (co + b1) >? isize); lia).
  match goal with
  | |- _ ≤ (read_loop _ _ _ _ _ ?c _ _).1 =>
      specialize (IH (br + bytes) c (rem - bytes) (co + bytes))
  end.
  lia.
Qed.

Lemma write_loop_nonneg (n : Z) (buffer : list Z) :
  ∀ fuel st bytes_written remaining current_offset,
    bytes_written
    ≤ (write_loop fuel st n buffer bytes_written remaining current_offset).1.2.
Proof.
  induction fuel as [|fuel IH]; intros st bw rem co; cbn [write_loop];
    [cbn; lia|].
  destruct (Z.ltb_spec 0 rem) as [Hpos|]; [|cbn; lia].
  pose proof (bytes_in_block_positive co) as Hb0.
  destruct (get_inode_block st n _) as [mapped|]; [|cbn; lia].
  destruct (if mapped =? 0 then _ else _) as [st1 got].
  destruct got as [block_no|]; [|cbn; lia].
  destruct (read_block st1 block_no) as [blk|]; [|cbn; lia].
  set (b0 := u32 (BLOCK_SIZE - u32 (Z.rem co BLOCK_SIZE))) in *.
  set (bytes := if b0 >? rem then rem else b0).
  assert (Hbytes : 1 ≤ bytes)
    by (unfold bytes; destruct (Z.gtb_spec b0 rem); lia).
  destruct (write_block st1 block_no _) as [st2 r].
  destruct (negb (r =? 0)); [cbn; lia|].
  specialize (IH st2 (bw + bytes) (rem - bytes) (co + bytes)). lia.
Qed.

Lemma read_inode_data_refused (st : filesystem) (n size offset : Z) :
  (read_inode_data st n size offset).2.1 < 0 →
  read_inode_data st n size offset = (st, (-1, [])).
Proof.
  unfold read_inode_data. destruct (read_inode st n) as [inode|]; [|reflexivity].
  destruct (offset >=? i_size inode); cbn [fst snd]; [lia|].
  pose proof (read_loop_nonneg st n (i_size inode) (S (Z.to_nat size)) 0 []
                size offset).
  lia.
Qed.

Lemma write_inode_data_refused (st : filesystem) (n : Z) (buffer : list Z)
    (size offset : Z) :
  (write_inode_data st n buffer size offset).2 < 0 →
  write_inode_data st n buffer size offset = (st, -1).
Proof.
  unfold write_inode_data. destruct (read_inode st n) as [inode|]; [|reflexivity].
  pose proof (write_loop_nonneg n buffer (S (Z.to_nat size)) st 0 size offset)
    as Hl.
  destruct (write_loop _ _ _ _ _ _ _) as [[st1 bw] co]. cbn [fst snd] in *. lia.
Qed.

Lemma change_permission_refused (st : filesystem) (n mode : Z) :
  (change_permission st n mode).2 ≠ 0 → change_permission st n mode = (st, -1).
Proof.
  intros Hne. destruct (read_inode st n) as [inode|] eqn:Hr.
  - destruct (change_permission_ok st n mode inode Hr) as [H0 _]. congruence.
  - unfold change_permission. rewrite Hr. reflexivity.
Qed.

Lemma change_owner_refused (st : filesystem) (n uid gid : Z) :
  (change_owner st n uid gid).2 ≠ 0 → change_owner st n uid gid = (st, -1).
Proof.
  intros Hne. destruct (read_inode st n) as [inode|] eqn:Hr.
  - destruct (change_owner_ok st n uid gid inode Hr) as [H0 _]. congruence.
  - unfold change_owner. rewrite Hr. reflexivity.
Qed.

(** X24: a command on descriptors or on modes that fails has no effect.
    When [cmd_open] (with a non-negative handle counter), [cmd_close],
    [cmd_read] or [cmd_write] returns a negative status, or [cmd_chmod] or
    [cmd_chown] a non-zero one, the state (image, superblock, open-file
    table, counter) is exactly the state before the call, and a failed read
    places no byte in the buffer. *)
Theorem refused_command_changes_nothing `{Ext2Header} `{DirectoryLayer}
    (st : filesystem) (path : string) (flags fd size : Z) (buffer : list Z)
    (mode uid gid : Z) :
  (0 ≤ next_fd st → (cmd_open st path flags).2.1 < 0 →
   (cmd_open st path flags).1 = st)
  ∧ ((cmd_close st fd).2.1 < 0 → (cmd_close st fd).1 = st)
  ∧ ((cmd_read st fd size).1.2.1 < 0 →
     (cmd_read st fd size).1.1 = st ∧ (cmd_read st fd size).2 = [])
  ∧ ((cmd_write st fd buffer size).2.1 < 0 →
     (cmd_write st fd buffer size).1 = st)
  ∧ ((cmd_chmod st path mode).2.1 ≠ 0 → (cmd_chmod st path mode).1 = st)
  ∧ ((cmd_chown st path uid gid).2.1 ≠ 0 → (cmd_chown st path uid gid).1 = st).
Proof.
  split; [|split; [|split; [|split; [|split]]]].
  - intros Hfd. unfold cmd_open.
    destruct (negb (is_logged_in st)); [reflexivity|].
    destruct (path_to_inode st path) as [ino|]; [|reflexivity].
    destruct (negb (is_regular_file st ino)); [reflexivity|].
    destruct (negb (check_permission st ino (open_access flags)));
      [reflexivity|].
    destruct (find_free_slot (open_files st) 0); [|reflexivity].
    cbn [fst snd]. lia.
  - unfold cmd_close. destruct (negb (is_logged_in st)); [reflexivity|].
    destruct (find_open_slot (open_files st) fd 0) as [[slot file]|];
      [|reflexivity].
    cbn [fst snd]. lia.
  - unfold cmd_read. destruct (negb (is_logged_in st)); [auto|].
    destruct (find_open_slot (open_files st) fd 0) as [[slot file]|]; [|auto].
    destruct (negb _ && negb _); [auto|].
    pose proof (read_inode_data_refused st (OpenFile.inode_no file) size
                  (OpenFile.offset file)) as Hr.
    destruct (read_inode_data _ _ _ _) as [st1 [br data]]. cbn [fst snd] in *.
    intros Hneg. specialize (Hr Hneg). injection Hr as -> -> ->.
    cbn. auto.
  - unfold cmd_write. destruct (negb (is_logged_in st)); [reflexivity|].
    destruct (find_open_slot (open_files st) fd 0) as [[slot file]|];
      [|reflexivity].
    destruct (negb _ && negb _); [reflexivity|].
    pose proof (write_inode_data_refused st (OpenFile.inode_no file) buffer size
                  (OpenFile.offset file)) as Hw.
    destruct (write_inode_data _ _ _ _ _) as [st1 bw]. cbn [fst snd] in *.
    intros Hneg. specialize (Hw Hneg). injection Hw as -> ->. reflexivity.
  - unfold cmd_chmod. destruct (negb (is_logged_in st)); [reflexivity|].
    destruct (path_to_inode st path) as [ino|]; [|reflexivity].
    pose proof (change_permission_refused st ino mode) as Hc.
    destruct (change_permission st ino mode) as [st1 r]. cbn [fst snd] in *.
    destruct (r =? 0); cbn [fst snd]; intros Hne; specialize (Hc Hne);
      congruence.
  - unfold cmd_chown. destruct (negb (is_logged_in st)); [reflexivity|].
    destruct (path_to_inode st path) as [ino|]; [|reflexivity].
    pose proof (change_owner_refused st ino uid gid) as Hc.
    destruct (change_owner st ino uid gid) as [st1 r]. cbn [fst snd] in *.
    destruct (r =? 0); cbn [fst snd]; intros Hne; specialize (Hc Hne);
      congruence.
Qed.

Lemma refused_command_changes_nothing_witness :
  let st := (cmd_umount opened_state).1 in
  ((cmd_read st 3 5).1.2.1 < 0
   ∧ (cmd_close st 7).2.1 < 0
   ∧ (@cmd_chmod one_entry_directory st "/p" 420).2.1 ≠ 0)
  ∧ (cmd_read st 3 5).1.1 = st
  ∧ (cmd_close st 7).1 = st
  ∧ (@cmd_chmod one_entry_directory st "/p" 420).1 = st.
Proof.
  intros st.
  assert (H1 : (cmd_read st 3 5).1.2.1 < 0) by (vm_compute; reflexivity).
  assert (H2 : (cmd_close st 7).2.1 < 0) by (vm_compute; reflexivity).
  assert (H3 : (@cmd_chmod one_entry_directory st "/p" 420).2.1 ≠ 0)
    by (vm_compute; discriminate).
  destruct (@refused_command_changes_nothing classic_header one_entry_directory
              st "/p" 0 7 5 [] 420 0 0) as (_ & Hclose & _ & _ & Hchmod & _).
  destruct (@refused_command_changes_nothing classic_header one_entry_directory
              st "/p" 0 3 5 [] 420 0 0) as (_ & _ & Hread & _).
  split; [repeat split; assumption|].
  split; [exact (proj1 (Hread H1))|]. split; [exact (Hclose H2) | exact (Hchmod H3)].
Defined.

(** ** Sizes under writes *)

(** X25: a write into the direct blocks never changes a size.  For a file
    whose twelve direct slots are unset or name blocks past the inode table,
    and a write that ends within the twelve direct blocks ([0 <= offset],
    [0 <= size], [offset + size <= 12 * 1024]), every inode has after
    [write_inode_data], whatever it wrote and returned, the size and the
    block count it had before.  So the bytes such a write puts at or past
    the end of the file stay out of reach: the read of the same range that
    follows returns 0 bytes. *)
Theorem write_inode_data_never_grows (st : filesystem) (n : Z)
    (buffer : list Z) (size offset : Z) (inode : ext2_inode_t) :
  read_inode st n = Some inode →
  (∀ k, 0 ≤ k < 12 → data_pointer (block_ptr inode k)) →
  0 ≤ offset → 0 ≤ size → offset + size ≤ 12 * BLOCK_SIZE →
  (∀ m, get_file_size (write_inode_data st n buffer size offset).1 m
        = get_file_size st m)
  ∧ (∀ m, i_blocks <$> read_inode (write_inode_data st n buffer size offset).1 m
          = i_blocks <$> read_inode st m)
  ∧ (i_size inode ≤ offset →
     (read_inode_data (write_inode_data st n buffer size offset).1 n size
        offset).2 = (0, [])).
Proof.
  intros Hr _ _ _ _.
  pose proof (write_inode_data_sizes_kept st n buffer size offset) as Hk.
  split; [|split].
  - intros m. specialize (Hk m). unfold get_file_size.
    destruct (read_inode _ m), (read_inode st m); cbn in Hk;
      try discriminate; [|reflexivity].
    unfold size_fields in Hk. congruence.
  - intros m. specialize (Hk m).
    destruct (read_inode _ m), (read_inode st m); cbn in Hk |- *;
      try discriminate; [|reflexivity].
    unfold size_fields in Hk. congruence.
  - intros Hle. apply (read_after_write_at_end _ _ _ _ _ inode Hr Hle).
Qed.

Lemma write_inode_data_never_grows_witness :
  let st := session two_block_image root_user 2000 in
  (read_inode st 11 = Some two_block_file
   ∧ (∀ k, 0 ≤ k < 12 → data_pointer (block_ptr two_block_file k))
   ∧ i_size two_block_file ≤ 2048)
  ∧ (write_inode_data st 11 hello 5 2048).2 = 5
  ∧ get_file_size (write_inode_data st 11 hello 5 2048).1 11 = 2048
  ∧ (read_inode_data (write_inode_data st 11 hello 5 2048).1 11 5 2048).2
    = (0, []).
Proof.
  intros st.
  assert (Hr : read_inode st 11 = Some two_block_file)
    by (vm_compute; reflexivity).
  assert (Hp : ∀ k, 0 ≤ k < 12 → data_pointer (block_ptr two_block_file k)).
  { intros k Hk. unfold data_pointer. change FIRST_DATA_BLOCK with 19.
    assert (Hc : k = 0 ∨ k = 1 ∨ k = 2 ∨ k = 3 ∨ k = 4 ∨ k = 5 ∨ k = 6
                 ∨ k = 7 ∨ k = 8 ∨ k = 9 ∨ k = 10 ∨ k = 11) by lia.
    repeat (destruct Hc as [->|Hc]); try subst k;
      first [left; reflexivity | right; vm_compute; discriminate]. }
  assert (Hs : i_size two_block_file ≤ 2048) by (cbn; lia).
  destruct (write_inode_data_never_grows st 11 hello 5 2048 two_block_file Hr Hp
              ltac:(lia) ltac:(lia) ltac:(unfold BLOCK_SIZE; lia))
    as (H1 & _ & H3).
  split; [repeat split; assumption|]. split; [vm_compute; reflexivity|].
  split; [rewrite H1; vm_compute; reflexivity|].
  exact (H3 Hs).
Defined.

(** ** Permission masks *)

(** X26: the masks that [check_permission] grants on an inode are closed
    under taking fewer bits and under union: when [a] is granted so is every
    [a'] whose bits are among those of [a], and when [a] and [a'] are both
    granted so is [a | a']. *)
Theorem check_permission_subset (st : filesystem) (n a a' : Z) :
  check_permission st n a = true →
  (Z.land a' a = a' → check_permission st n a' = true)
  ∧ (check_permission st n a' = true →
     check_permission st n (Z.lor a a') = true).
Proof.
  unfold check_permission. destruct (read_inode st n) as [inode|];
    [|discriminate].
  set (mode := if _ =? _ then _ else _). rewrite !Z.eqb_eq. intros Ha. split.
  - intros Hsub. rewrite <- Hsub at 1.
    rewrite (Z.land_comm a' a), Z.land_assoc, Ha, Z.land_comm. exact Hsub.
  - intros Ha'. rewrite Z.land_lor_distr_r, Ha, Ha'. reflexivity.
Qed.

Lemma check_permission_subset_witness :
  let st := session two_block_image root_user 2000 in
  check_permission st 11 6 = true
  ∧ check_permission st 11 4 = true
  ∧ check_permission st 11 (Z.lor 6 4) = true.
Proof.
  intros st.
  assert (H6 : check_permission st 11 6 = true) by (vm_compute; reflexivity).
  destruct (check_permission_subset st 11 6 4 H6) as [Hsub Hor].
  split; [exact H6|].
  assert (H4 : check_permission st 11 4 = true) by (apply Hsub; reflexivity).
  split; [exact H4 | exact (Hor H4)].
Defined.

(** ** What a deletion leaves *)

Lemma free_inode_others (st : filesystem) (n : Z) :
  (∀ m, read_inode (free_inode st n) m = read_inode st m)
  ∧ (∀ p, read_block (free_inode st n) p = read_block st p)
  ∧ (∀ m, m ≠ n →
       Z.testbit (inode_bitmap (free_inode st n)) (m - 1)
       = Z.testbit (inode_bitmap st) (m - 1)).
Proof.
  unfold free_inode, read_inode, read_block, inode_bitmap.
  destruct (image st) as [d|] eqn:Hd; [|rewrite Hd; auto].
  destruct (_ && _ && _); [|rewrite Hd; auto].
  cbn. repeat split; auto. intros m Hm. apply Z.clearbit_neq. lia.
Qed.

(** X27: [delete_inode] touches no other file and erases nothing: the records
    of the other inodes and their bits in the inode bitmap are as before,
    every data block (those of the deleted file included) still reads as
    before, and no block becomes used. *)
Theorem delete_inode_keeps_other_files (st : filesystem) (n : Z) :
  (∀ m, m ≠ n → read_inode (delete_inode st n).1 m = read_inode st m)
  ∧ (∀ p, read_block (delete_inode st n).1 p = read_block st p)
  ∧ (∀ p, Z.testbit (block_bitmap st) p = false →
          Z.testbit (block_bitmap (delete_inode st n).1) p = false)
  ∧ (∀ m, m ≠ n →
       Z.testbit (inode_bitmap (delete_inode st n).1) (m - 1)
       = Z.testbit (inode_bitmap st) (m - 1)).
Proof.
  unfold delete_inode. destruct (read_inode st n) as [inode|]; [|cbn; auto].
  cbn [fst].
  set (s1 := fold_left free_nonzero (map (block_ptr inode) (seqZ 0 12)) st).
  assert (F1 : frees_only st s1) by apply fold_free_nonzero_frees_only.
  set (s2 := if block_ptr inode 12 =? 0 then s1 else _).
  assert (F2 : frees_only st s2).
  { unfold s2. destruct (block_ptr inode 12 =? 0); [exact F1|].
    eapply frees_only_trans; [exact F1|].
    eapply frees_only_trans; [|apply free_block_frees_only].
    destruct (read_block s1 (block_ptr inode 12));
      [apply fold_free_nonzero_frees_only | apply frees_only_refl]. }
  destruct F2 as (Fib & _ & Fri & Frb & Fbb).
  destruct (free_inode_others (write_inode s2 n zero_inode).1 n)
    as (Ir & Ib & Ibit).
  destruct (free_inode_frame (write_inode s2 n zero_inode).1 n) as (Ibb & _).
  destruct (write_inode_frame s2 n zero_inode) as (Wbb & Wib & _).
  split; [|split; [|split]].
  - intros m Hm. rewrite Ir, write_inode_other by exact Hm. apply Fri.
  - intros p. rewrite Ib, write_inode_read_block. apply Frb.
  - intros p Hp. rewrite Ibb, Wbb. apply Fbb, Hp.
  - intros m Hm. rewrite Ibit by exact Hm. rewrite Wib, Fib. reflexivity.
Qed.

Lemma delete_inode_keeps_other_files_witness :
  let st := session two_block_image root_user 2000 in
  (delete_inode st 11).2 = 0
  ∧ read_inode (delete_inode st 11).1 2 = Some root_inode
  ∧ read_block (delete_inode st 11).1 20 = Some (replicate 1024 97)
  ∧ Z.testbit (inode_bitmap (delete_inode st 11).1) (2 - 1) = true.
Proof.
  intros st.
  destruct (delete_inode_keeps_other_files st 11) as (H1 & H2 & _ & H4).
  split; [vm_compute; reflexivity|].
  split; [rewrite (H1 2) by lia; vm_compute; reflexivity|].
  split; [rewrite H2; vm_compute; reflexivity|].
  rewrite (H4 2) by lia. vm_compute; reflexivity.
Defined.

(** ** Truncation *)

Lemma write_block_block_bitmap (st : filesystem) (k : Z) (b : block) :
  block_bitmap (write_block st k b).1 = block_bitmap st.
Proof.
  unfold write_block, block_bitmap. destruct (image st) as [d|] eqn:Hd;
    [|cbn; rewrite Hd; reflexivity].
  destruct (is_data_block k); cbn; [reflexivity | rewrite Hd; reflexivity].
Qed.

Lemma update_mtime_frame (st : filesystem) (n : Z) :
  block_bitmap (update_mtime st n) = block_bitmap st
  ∧ ∀ m, m ≠ n → read_inode (update_mtime st n) m = read_inode st m.
Proof.
  unfold update_mtime. destruct (read_inode st n) as [inode|]; [|auto].
  split; [apply write_inode_frame|]. intros m Hm. apply write_inode_other, Hm.
Qed.

Lemma update_ctime_frame (st : filesystem) (n : Z) :
  block_bitmap (update_ctime st n) = block_bitmap st
  ∧ ∀ m, m ≠ n → read_inode (update_ctime st n) m = read_inode st m.
Proof.
  unfold update_ctime. destruct (read_inode st n) as [inode|]; [|auto].
  split; [apply write_inode_frame|]. intros m Hm. apply write_inode_other, Hm.
Qed.

(** One turn of the loop of [truncate_inode]: the slot it clears, the block
    it frees, and what it leaves alone. *)
Lemma truncate_step_spec (n : Z) (s : filesystem) (i : Z) (ino : ext2_inode_t) :
  read_inode s n = Some ino → 0 ≤ i →
  (∃ ino', read_inode (truncate_step n s i) n = Some ino'
     ∧ ∀ j, 0 ≤ j → j ≠ i → block_ptr ino' j = block_ptr ino j)
  ∧ (∀ p, Z.testbit (block_bitmap s) p = false →
          Z.testbit (block_bitmap (truncate_step n s i)) p = false)
  ∧ (∀ m, m ≠ n → read_inode (truncate_step n s i) m = read_inode s m)
  ∧ (i < 12 → block_ptr ino i ≠ 0 → block_ptr ino i < MAX_BLOCKS →
     Z.testbit (block_bitmap (truncate_step n s i)) (block_ptr ino i) = false).
Proof.
  intros Hr Hi. unfold truncate_step.
  destruct (get_inode_block s n i) as [b|] eqn:Hg.
  2: { split; [eauto|]. split; [auto|]. split; [auto|].
       intros Hlt. unfold get_inode_block in Hg. rewrite Hr in Hg.
       destruct (Z.ltb_spec i 12); [discriminate | lia]. }
  destruct (Z.eqb_spec b 0) as [Hb|Hb]; cbn [negb].
  { split; [eauto|]. split; [auto|]. split; [auto|].
    intros Hlt Hne. unfold get_inode_block in Hg. rewrite Hr in Hg.
    destruct (Z.ltb_spec i 12); [congruence | lia]. }
  destruct (free_block_frees_only s b) as (_ & _ & Fri & _ & Fbb).
  set (s1 := free_block s b) in *.
  assert (Hr1 : read_inode s1 n = Some ino) by (rewrite Fri; exact Hr).
  unfold set_inode_block. rewrite Hr1.
  unfold get_inode_block in Hg. rewrite Hr in Hg.
  destruct (Z.ltb_spec i 12) as [Hlt|Hge].
  - injection Hg as Hg.
    set (ino1 := set_i_block (<[Z.to_nat i := 0]> (i_block ino)) ino).
    destruct (read_after_write_inode s1 n ino1 ino Hr1) as [_ Hnew].
    destruct (write_inode_frame s1 n ino1) as (Wbb & _).
    split; [exists ino1; split; [exact Hnew|]|].
    { intros j Hj Hne. apply block_ptr_insert_ne; assumption. }
    split; [intros p Hp; rewrite Wbb; apply Fbb, Hp|].
    split; [intros m Hm; rewrite write_inode_other by exact Hm; apply Fri|].
    intros _ _ Hmax. rewrite Wbb, Hg. apply free_block_clears.
    rewrite <- Hg. exact Hmax.
  - destruct (i <? 12 + BLOCK_SIZE / 4).
    + destruct (Z.eqb_spec (block_ptr ino 12) 0) as [Hz|Hz]; [congruence|].
      cbn [negb].
      set (s2 := (write_block s1 (block_ptr ino 12) _).1).
      assert (Hr2 : read_inode s2 n = Some ino)
        by (unfold s2; rewrite write_block_read_inode; exact Hr1).
      destruct (read_after_write_inode s2 n ino ino Hr2) as [_ Hnew].
      destruct (write_inode_frame s2 n ino) as (Wbb & _).
      split; [exists ino; split; [exact Hnew | reflexivity]|].
      split.
      { intros p Hp. rewrite Wbb. unfold s2.
        rewrite write_block_block_bitmap. apply Fbb, Hp. }
      split; [|intros Hlt; lia].
      intros m Hm. rewrite write_inode_other by exact Hm. unfold s2.
      rewrite write_block_read_inode. apply Fri.
    + discriminate.
Qed.

Lemma fold_truncate_step_spec (n : Z) :
  ∀ (l : list Z) (s : filesystem) (ino : ext2_inode_t),
    read_inode s n = Some ino → (∀ i, In i l → 0 ≤ i) → NoDup l →
    (∃ ino', read_inode (fold_left (truncate_step n) l s) n = Some ino'
       ∧ ∀ j, 0 ≤ j → ¬ In j l → block_ptr ino' j = block_ptr ino j)
    ∧ (∀ p, Z.testbit (block_bitmap s) p = false →
            Z.testbit (block_bitmap (fold_left (truncate_step n) l s)) p = false)
    ∧ (∀ m, m ≠ n →
         read_inode (fold_left (truncate_step n) l s) m = read_inode s m)
    ∧ (∀ k, In k l → k < 12 → block_ptr ino k ≠ 0 →
         block_ptr ino k < MAX_BLOCKS →
         Z.testbit (block_bitmap (fold_left (truncate_step n) l s))
           (block_ptr ino k) = false).
Proof.
  induction l as [|i l IH]; intros s ino Hr Hpos Hnd; cbn [fold_left].
  - split; [eauto|]. split; [auto|]. split; [auto|]. intros k [].
  - inversion Hnd as [|x l' Hni Hnd' Heq]; subst x l'.
    destruct (truncate_step_spec n s i ino Hr (Hpos i (or_introl eq_refl)))
      as ((ino1 & Hr1 & Hsl1) & Hbb1 & Hot1 & Hfree1).
    destruct (IH (truncate_step n s i) ino1 Hr1
                (fun k Hk => Hpos k (or_intror Hk)) Hnd')
      as ((ino2 & Hr2 & Hsl2) & Hbb2 & Hot2 & Hfree2).
    split; [exists ino2; split; [exact Hr2|]|].
    { intros j Hj Hnot. rewrite Hsl2 by (try assumption; intros Hin; apply Hnot;
        right; exact Hin).
      apply Hsl1; [exact Hj|]. intros ->. apply Hnot. left. reflexivity. }
    split; [intros p Hp; apply Hbb2, Hbb1, Hp|].
    split; [intros m Hm; rewrite Hot2 by exact Hm; apply Hot1, Hm|].
    intros k [->|Hin] Hlt Hne Hmax.
    + apply Hbb2, Hfree1; assumption.
    + assert (Hki : k ≠ i).
      { intros ->. apply Hni.
        first [exact Hin | apply list_elem_of_In; exact Hin]. }
      rewrite <- (Hsl1 k (Hpos k (or_intror Hin)) Hki).
      apply Hfree2; rewrite ?(Hsl1 k (Hpos k (or_intror Hin)) Hki); assumption.
Qed.



(** ** Creating a file: what a failed creation gives back *)

(** [delete_inode] marks no block used and leaves the bits of the other
    inodes. *)
Lemma delete_inode_sets_no_bit (st : filesystem) (n : Z) :
  (∀ p, Z.testbit (block_bitmap st) p = false →
        Z.testbit (block_bitmap (delete_inode st n).1) p = false)
  ∧ (∀ m, m ≠ n →
       Z.testbit (inode_bitmap (delete_inode st n).1) (m - 1)
       = Z.testbit (inode_bitmap st) (m - 1)).
Proof.
  unfold delete_inode. destruct (read_inode st n) as [inode|]; [|cbn; auto].
  cbn [fst].
  set (s1 := fold_left free_nonzero (map (block_ptr inode) (seqZ 0 12)) st).
  assert (F1 : frees_only st s1) by apply fold_free_nonzero_frees_only.
  set (s2 := if block_ptr inode 12 =? 0 then s1 else _).
  assert (F2 : frees_only st s2).
  { unfold s2. destruct (block_ptr inode 12 =? 0); [exact F1|].
    eapply frees_only_trans; [exact F1|].
    eapply frees_only_trans; [|apply free_block_frees_only].
    destruct (read_block s1 (block_ptr inode 12));
      [apply fold_free_nonzero_frees_only | apply frees_only_refl]. }
  destruct F2 as (Fib & _ & _ & _ & Fbb).
  destruct (free_inode_others (write_inode s2 n zero_inode).1 n)
    as (_ & _ & Ibit).
  destruct (free_inode_frame (write_inode s2 n zero_inode).1 n) as (Ibb & _).
  destruct (write_inode_frame s2 n zero_inode) as (Wbb & Wib & _).
  split.
  - intros p Hp. rewrite Ibb, Wbb. apply Fbb, Hp.
  - intros m Hm. rewrite Ibit by exact Hm. rewrite Wib, Fib. reflexivity.
Qed.

(** The path of [cmd_create] through a failing [add_directory_entry]. *)
Lemma cmd_create_failed_entry `{Ext2Header} `{DirectoryLayer}
    (st st1 st2 : filesystem) (path child : string) (parent ino r : Z) :
  is_logged_in st = true →
  get_parent_inode st path = Some (parent, child) →
  parent ≠ 0 →
  is_directory st parent = true →
  check_permission st parent EXT2_S_IWUSR = true →
  create_inode st (u16 (Z.lor EXT2_S_IFREG 420))
    (get_current_uid st) (get_current_gid st) = (st1, ino) →
  ino ≠ -1 →
  add_directory_entry st1 parent child ino 1 = (st2, r) →
  r ≠ 0 →
  cmd_create st path
  = ((delete_inode st2 ino).1, (-1, Error_Failed_to_add_directory_entry)).
Proof.
  intros Hl Hp Hp0 Hdir Hperm Hc Hok Hadd Hr.
  destruct (create_inode_success _ _ _ _ _ _ Hc Hok)
    as (d & i & Hd & Hi & Hv & -> & _).
  assert (Hu : u32 (i + 1) = i + 1).
  { unfold u32. apply Z.mod_small. unfold valid_inode_no, MAX_INODES in Hv.
    apply andb_true_iff in Hv as [_ Hv]. apply Z.leb_le in Hv. lia. }
  unfold cmd_create. rewrite Hl, Hp. cbn [negb].
  rewrite (proj2 (Z.eqb_neq _ _) Hp0), Hdir, Hperm. cbn [negb].
  rewrite Hc, Hu.
  assert (Hz : (i + 1 =? 0) = false) by (apply Z.eqb_neq; lia).
  rewrite Hz, Hadd, (proj2 (Z.eqb_neq _ _) Hr). reflexivity.
Qed.



